(** * z80ctrl monitor: the command handlers of cli.c

    A shallow embedding of the monitor's command handlers (cli.c) and the
    properties of its transfer pipeline, debug range registry, baud search
    and command-file execution.

    The firmware is built with avr-gcc for the ATmega1284P (Makefile:
    MCU=atmega1284p), where [int] and [unsigned int] are 16 bits wide, so
    an expression over [uint16_t] operands is computed modulo 2^16, and
    [unsigned long] and [uint32_t] are 32 bits wide. *)

From Stdlib Require Import ZArith List String Ascii Bool Lia.
Import ListNotations.

Local Open Scope string_scope.
Local Open Scope Z_scope.
Local Open Scope list_scope.

(** ** Machine integers *)

Module Word.

Definition u8 (x : Z) : Z := x mod 256.
Definition u16 (x : Z) : Z := x mod 65536.
Definition u32 (x : Z) : Z := x mod 4294967296.

(** [int] on this target: 16 bits, two's complement. *)
Definition s16 (x : Z) : Z := (x + 32768) mod 65536 - 32768.

End Word.
Import Word.

(** ** The C library's strtoul

    [strtoul(s, &end, base)] as ISO C describes it: leading white space is
    skipped, an optional sign and (base 16) an optional 0x prefix are read,
    then the longest run of digits of the base; a value above [ULONG_MAX]
    is reported as [ULONG_MAX]; with a minus sign the value is negated in
    the unsigned type.  The second component tells whether anything was
    converted, that is whether [end] differs from [s]. *)

Module Strtoul.

Definition ULONG_MAX : Z := 4294967295.

Definition code (c : ascii) : Z := Z.of_nat (nat_of_ascii c).

Definition isspace (c : ascii) : bool :=
  (code c =? 32) || ((9 <=? code c) && (code c <=? 13)).

Definition digit_of (c : ascii) : option Z :=
  let n := code c in
  if (48 <=? n) && (n <=? 57) then Some (n - 48)
  else if (97 <=? n) && (n <=? 122) then Some (n - 97 + 10)
  else if (65 <=? n) && (n <=? 90) then Some (n - 65 + 10)
  else None.

Fixpoint skip_space (s : string) : string :=
  match s with
  | String c r => if isspace c then skip_space r else s
  | EmptyString => s
  end.

Fixpoint digits (base : Z) (s : string) (acc : Z) (seen : bool) : Z * bool :=
  match s with
  | String c r =>
      match digit_of c with
      | Some d => if d <? base then digits base r (acc * base + d) true
                  else (acc, seen)
      | None => (acc, seen)
      end
  | EmptyString => (acc, seen)
  end.

Definition strip_sign (s : string) : bool * string :=
  match s with
  | String c r =>
      if code c =? 45 then (true, r)
      else if code c =? 43 then (false, r)
      else (false, s)
  | EmptyString => (false, s)
  end.

Definition strip_0x (base : Z) (s : string) : bool * string :=
  match s with
  | String c0 (String c1 r) =>
      if (base =? 16) && (code c0 =? 48) && ((code c1 =? 120) || (code c1 =? 88))
      then (true, r) else (false, s)
  | _ => (false, s)
  end.

Definition strtoul_end (s : string) (base : Z) : Z * bool :=
  let (neg, s1) := strip_sign (skip_space s) in
  let (pre, s2) := strip_0x base s1 in
  let (v, seen) := digits base s2 0 pre in
  let v' := if ULONG_MAX <? v then ULONG_MAX
            else if neg then u32 (- v) else v in
  (v', seen).

Definition strtoul (s : string) (base : Z) : Z := fst (strtoul_end s base).

End Strtoul.
Import Strtoul.

(** ** Memory targets

    bus.c and tms.c are not part of cli.c; their transfer routines are
    taken from the contract the handlers rely on. *)

Definition mem : Type := Z -> Z.

(** Modelled from the spec: [read_mem] of bus.c and [tms_read] of tms.c are
    missing; "read(addr, buf, len) fills buf[0..len) with the target's bytes
    at [addr, addr+len), wrapping addresses modulo 2^16". *)
Definition mem_read (m : mem) (addr len : Z) : list Z :=
  map (fun k => m (u16 (addr + Z.of_nat k))) (seq 0 (Z.to_nat len)).

(** Modelled from the spec: [write_mem] of bus.c and [tms_write] of tms.c are
    missing; "write(addr, buf, len) stores len bytes starting at addr, same
    wraparound rule".  [data] is the [len] bytes found at [buf]. *)
Definition mem_write (m : mem) (addr : Z) (data : list Z) : mem :=
  fun a =>
    let k := u16 (a - addr) in
    if k <? Z.of_nat (List.length data) then nth (Z.to_nat k) data 0 else m a.

(** The [len] bytes a callee finds at a local array [buf]: the array's own
    elements, and past its end whatever the stack holds there ([past k] at
    index [k]). *)
Definition array_bytes (past : Z -> Z) (buf : list Z) (len : Z) : list Z :=
  map (fun k => match nth_error buf k with
                | Some b => b
                | None => past (Z.of_nat k)
                end)
      (seq 0 (Z.to_nat len)).

Inductive target : Type := Bus | Tms.

(** FatFs result codes (ff.h). *)
Inductive FRESULT : Type :=
| FR_OK | FR_DISK_ERR | FR_INT_ERR | FR_NOT_READY | FR_NO_FILE | FR_NO_PATH
| FR_INVALID_NAME | FR_DENIED | FR_EXIST | FR_INVALID_OBJECT
| FR_WRITE_PROTECTED | FR_INVALID_DRIVE | FR_NOT_ENABLED | FR_NO_FILESYSTEM
| FR_MKFS_ABORTED | FR_TIMEOUT | FR_LOCKED | FR_NOT_ENOUGH_CORE
| FR_TOO_MANY_OPEN_FILES | FR_INVALID_PARAMETER.

(** The enumeration's values. *)
Definition fr_code (fr : FRESULT) : Z :=
  match fr with
  | FR_OK => 0 | FR_DISK_ERR => 1 | FR_INT_ERR => 2 | FR_NOT_READY => 3
  | FR_NO_FILE => 4 | FR_NO_PATH => 5 | FR_INVALID_NAME => 6 | FR_DENIED => 7
  | FR_EXIST => 8 | FR_INVALID_OBJECT => 9 | FR_WRITE_PROTECTED => 10
  | FR_INVALID_DRIVE => 11 | FR_NOT_ENABLED => 12 | FR_NO_FILESYSTEM => 13
  | FR_MKFS_ABORTED => 14 | FR_TIMEOUT => 15 | FR_LOCKED => 16
  | FR_NOT_ENOUGH_CORE => 17 | FR_TOO_MANY_OPEN_FILES => 18
  | FR_INVALID_PARAMETER => 19
  end.

(** [a == b] on result codes. *)
Definition fr_is (a b : FRESULT) : bool := fr_code a =? fr_code b.

(** Arguments handed to [printf_P]; [PRes fr] stands for
    [strlookup(fr_text, fr)]. *)
Inductive parg : Type :=
| PInt (n : Z)
| PStr (s : string)
| PRes (fr : FRESULT).

(** What a handler does to its surroundings, in program order. *)
Inductive event : Type :=
| Printf (fmt : string) (args : list parg)
| MemRead (t : target) (addr len : Z)
| MemWrite (t : target) (addr len : Z)
| FWrite (data : list Z) (fr : FRESULT)     (* f_write and its result *)
| UartFlush
| UartInit (uart ubrr : Z).

(** An address range of the debugger (z80.h: [range]). *)
Record range : Type := mkRange { r_start : Z; r_end : Z }.

Record world : Type := mkWorld {
  bus : mem;                (* conventional bus memory *)
  vram : mem;               (* TMS9918A video memory *)
  breaks : list range;      (* z80.c: breaks[DEBUGCNT] *)
  watches : list range;     (* z80.c: watches[DEBUGCNT] *)
  trace : list event
}.

Definition emit (e : event) (w : world) : world :=
  mkWorld (bus w) (vram w) (breaks w) (watches w) (trace w ++ [e]).

Definition printf_P (fmt : string) (args : list parg) (w : world) : world :=
  emit (Printf fmt args) w.

Definition write_mem (addr : Z) (data : list Z) (len : Z) (w : world) : world :=
  mkWorld (mem_write (bus w) addr data) (vram w) (breaks w) (watches w)
          (trace w ++ [MemWrite Bus addr len]).

Definition tms_write (addr : Z) (data : list Z) (len : Z) (w : world) : world :=
  mkWorld (bus w) (mem_write (vram w) addr data) (breaks w) (watches w)
          (trace w ++ [MemWrite Tms addr len]).

Definition read_mem (addr len : Z) (w : world) : list Z * world :=
  (mem_read (bus w) addr len, emit (MemRead Bus addr len) w).

Definition tms_read (addr len : Z) (w : world) : list Z * world :=
  (mem_read (vram w) addr len, emit (MemRead Tms addr len) w).

(** [argv[k]] for a slot the handler has checked against [argc]. *)
Definition arg (argv : list string) (k : nat) : string := nth k argv "".

Definition argc (argv : list string) : Z := Z.of_nat (List.length argv).

(** The write and read calls of a trace, as (target, address, length). *)
Fixpoint writes (tr : list event) : list (target * Z * Z) :=
  match tr with
  | [] => []
  | MemWrite t a n :: r => (t, a, n) :: writes r
  | _ :: r => writes r
  end.

Fixpoint reads (tr : list event) : list (target * Z * Z) :=
  match tr with
  | [] => []
  | MemRead t a n :: r => (t, a, n) :: reads r
  | _ :: r => reads r
  end.

Definition call_len (c : target * Z * Z) : Z := snd c.

Definition total_len (cs : list (target * Z * Z)) : Z :=
  fold_right (fun c acc => call_len c + acc) 0 cs.

Definition on_target (t : target) (c : target * Z * Z) : bool :=
  match fst (fst c), t with
  | Bus, Bus | Tms, Tms => true
  | _, _ => false
  end.

Definition zero_mem : mem := fun _ => 0.
Definition world0 : world := mkWorld zero_mem zero_mem [] [] [].

(** ** cli_fill (lines 486-522) *)

Section Fill.

(** What lies on the stack past the 256-byte local [buf] of [cli_fill]. *)
Variable past : Z -> Z.

Definition range256 : list Z := map Z.of_nat (seq 0 256).

(** Lines 494-506: the 256-byte pattern. *)
Definition fill_pattern (v : string) : list Z :=
  if String.eqb v "asc" then map (fun i => u8 i) range256
  else if String.eqb v "desc" then map (fun i => u8 (255 - i)) range256
  else
    let value := Z.land (strtoul v 16) 0xff in
    map (fun _ => value) range256.

(** Lines 508-521.  [end - start] and [end - start + 1] are [unsigned int]
    expressions; the last [write_mem] is not under the [if (tms)]. *)
Fixpoint fill_loop (fuel : nat) (tms : bool) (buf : list Z)
         (start end_ : Z) (w : world) : option world :=
  match fuel with
  | O => None
  | S fuel' =>
      if 256 <? u16 (end_ - start) then
        let w1 := if tms then tms_write start (array_bytes past buf 256) 256 w
                  else write_mem start (array_bytes past buf 256) 256 w in
        fill_loop fuel' tms buf (u16 (start + 256)) end_ w1
      else
        let n := u16 (end_ - start + 1) in
        let w1 := if tms then tms_write start (array_bytes past buf n) n w
                  else w in
        Some (write_mem start (array_bytes past buf n) n w1)
  end.

Definition cli_fill (argv : list string) (w : world) : option world :=
  if negb (argc argv =? 4) then
    Some (printf_P "usage: fill <start> <end> <value>\n" [] w)
  else
    let tms := String.eqb (arg argv 0) "tmsfill" in
    let start := Z.land (strtoul (arg argv 1) 16) 0xffff in
    let end_ := Z.land (strtoul (arg argv 2) 16) 0xffff in
    let buf := fill_pattern (arg argv 3) in
    fill_loop 257 tms buf start end_ w.

End Fill.

(** ** The FAT filesystem as the handlers see it (ff.h)

    [f_write k] is the result of the [k]-th [f_write] call of a command,
    counted from 0; [f_lines name] are the lines [fgets] yields from the
    opened file [name], after which it yields [NULL]. *)
Record fatfs : Type := mkFs {
  f_open : string -> FRESULT;
  f_write : nat -> FRESULT;
  f_close : string -> FRESULT;
  f_lines : string -> list string
}.

(** ** cli_savebin (lines 196-226)

    [end - start + 1] is an [unsigned int] expression, [start] and [len]
    are [uint16_t].  [None]: the loop is still running when the fuel is
    spent. *)
Fixpoint savebin_loop (fuel : nat) (fs : fatfs) (k : nat)
         (start end_ len : Z) (w : world) : option world :=
  match fuel with
  | O => None
  | S fuel' =>
      if start <=? end_ then
        let len1 := if u16 (end_ - start + 1) <? len
                    then u16 (end_ - start + 1) else len in
        let (buf, w1) := read_mem start len1 w in
        let fr := f_write fs k in
        let w2 := emit (FWrite buf fr) w1 in
        if negb (fr_is fr FR_OK) then
          Some (printf_P "write error: %S\n" [PRes fr] w2)
        else
          savebin_loop fuel' fs (S k) (u16 (start + len1)) end_ len1 w2
      else Some w
  end.

Definition cli_savebin (fuel : nat) (fs : fatfs) (argv : list string)
           (w : world) : option world :=
  if argc argv <? 4 then
    Some (printf_P "usage: savebin <start> <end> [file]\n" [] w)
  else
    let start := Z.land (strtoul (arg argv 1) 16) 0xffff in
    let end_ := Z.land (strtoul (arg argv 2) 16) 0xffff in
    let fr := f_open fs (arg argv 3) in
    if fr_is fr FR_OK then
      match savebin_loop fuel fs 0 start end_ 256 w with
      | None => None
      | Some w1 =>
          let fr2 := f_close fs (arg argv 3) in
          if negb (fr_is fr2 FR_OK)
          then Some (printf_P "error closing file: %s\n" [PRes fr2] w1)
          else Some w1
      end
    else Some (printf_P "error opening file: %S\n" [PRes fr] w).

(** The bytes accepted by the file: the data of the [f_write] calls that
    returned [FR_OK]. *)
Fixpoint file_bytes (tr : list event) : list Z :=
  match tr with
  | [] => []
  | FWrite data FR_OK :: r => data ++ file_bytes r
  | _ :: r => file_bytes r
  end.

Fixpoint fwrites (tr : list event) : list (Z * FRESULT) :=
  match tr with
  | [] => []
  | FWrite data fr :: r => (Z.of_nat (List.length data), fr) :: fwrites r
  | _ :: r => fwrites r
  end.

(** ** cli_dump (lines 249-288) *)

(** Lines 274-278: the hexadecimal column; [j] is a [uint8_t]. *)
Fixpoint dump_hex (buf : list Z) (j : Z) (w : world) : world :=
  match buf with
  | [] => w
  | b :: r =>
      let w1 := printf_P "%02X " [PInt b] w in
      let w2 := if j mod 4 =? 3 then printf_P " " [] w1 else w1 in
      dump_hex r (u8 (j + 1)) w2
  end.

(** Lines 280-285: the character column; it advances [i]. *)
Fixpoint dump_ascii (buf : list Z) (i : Z) (w : world) : Z * world :=
  match buf with
  | [] => (i, w)
  | b :: r =>
      let w1 := if (0x20 <=? b) && (b <=? 0x7e)
                then printf_P "%c" [PInt b] w
                else printf_P "." [] w in
      dump_ascii r (u32 (i + 1)) w1
  end.

(** Lines 268-287; [i] is a [uint32_t], the address parameter of the read
    routines a [uint16_t]. *)
Fixpoint dump_loop (fuel : nat) (tms : bool) (i end_ : Z) (w : world)
  : option world :=
  match fuel with
  | O => None
  | S fuel' =>
      if i <=? end_ then
        let w1 := printf_P "%04X   " [PInt i] w in
        let (buf, w2) := if tms then tms_read (u16 i) 16 w1
                         else read_mem (u16 i) 16 w1 in
        let w3 := dump_hex buf 0 w2 in
        let w4 := printf_P " " [] w3 in
        let (i1, w5) := dump_ascii buf i w4 in
        let w6 := printf_P "\n" [] w5 in
        dump_loop fuel' tms i1 end_ w6
      else Some w
  end.

Definition cli_dump (argv : list string) (w : world) : option world :=
  let tms := String.eqb (arg argv 0) "tmsdump" in
  if argc argv <? 2 then
    Some (printf_P "usage: dump <start> [end]\n" [] w)
  else
    let start := Z.land (strtoul (arg argv 1) 16) 0xffff in
    let end_ := if argc argv <? 3 then u16 (start + 0xff)
                else Z.land (strtoul (arg argv 2) 16) 0xffff in
    let w1 := printf_P "%04x-%04x\n" [PInt start; PInt end_] w in
    dump_loop 4097 tms start end_ w1.

(** The bytes shown in the hexadecimal column. *)
Fixpoint shown_hex (tr : list event) : list Z :=
  match tr with
  | [] => []
  | Printf fmt [PInt b] :: r =>
      if String.eqb fmt "%02X " then b :: shown_hex r else shown_hex r
  | _ :: r => shown_hex r
  end.

(** ** verify_mem (lines 461-481)

    [src] is the reference pointer: [src i] is the byte [src[i]].  [errors]
    is an [int]; [i] is a [uint32_t]. *)
Fixpoint verify_row (start : Z) (src : Z -> Z) (log : bool) (buf : list Z)
         (i errors : Z) (w : world) : Z * Z * world :=
  match buf with
  | [] => (i, errors, w)
  | b :: r =>
      if negb (b =? src i) then
        let w1 := if log
                  then printf_P "%04x: expected %02x but read %02x\n"
                                [PInt (u32 (start + i)); PInt (src i); PInt b] w
                  else w in
        verify_row start src log r (u32 (i + 1)) (s16 (errors + 1)) w1
      else
        verify_row start src log r (u32 (i + 1)) errors w
  end.

Fixpoint verify_loop (fuel : nat) (start end_ : Z) (src : Z -> Z) (log : bool)
         (i buflen errors : Z) (w : world) : option (Z * world) :=
  match fuel with
  | O => None
  | S fuel' =>
      if i <=? end_ then
        let buflen1 := if u32 (end_ - i + 1) <? buflen
                       then u16 (u32 (end_ - i + 1)) else buflen in
        let (buf, w1) := read_mem start buflen1 w in
        let '(i1, errors1, w2) := verify_row start src log buf i errors w1 in
        verify_loop fuel' start end_ src log i1 buflen1 errors1 w2
      else Some (errors, w)
  end.

Definition verify_mem (start end_ : Z) (src : Z -> Z) (log : bool) (w : world)
  : option (Z * world) :=
  verify_loop 258 start end_ src log start 256 0 w.

(** The number of addresses of [[start, end]] at which memory and reference
    differ. *)
Definition mismatches (m : mem) (src : Z -> Z) (start end_ : Z) : Z :=
  Z.of_nat (List.length
    (filter (fun a => negb (m a =? src a))
            (map (fun k => start + Z.of_nat k)
                 (seq 0 (Z.to_nat (end_ - start + 1)))))).

(** ** cli_poke (lines 527-560) *)

Section Poke.

(** [cli_dispatch] leaves [argv[argc]] a null pointer; [null_arg] is what
    [strtoul] comes back with when handed that pointer. *)
Variable null_arg : Z.

Definition strtoul_argv (argv : list string) (k : nat) (base : Z) : Z :=
  match nth_error argv k with
  | Some s => strtoul s base
  | None => null_arg
  end.

(** Line 548: the line starts with a line feed, a carriage return or the
    terminator. *)
Definition blank_line (buf : string) : bool :=
  match buf with
  | EmptyString => true
  | String c _ => (code c =? 10) || (code c =? 13)
  end.

(** Lines 539-558.  [stdin] holds the lines [fgets] will yield; after
    them it yields [NULL]. *)
Fixpoint poke_loop (stdin : list string) (addr : Z) (w : world) : world :=
  let (cur, w1) := read_mem addr 1 w in
  let w2 := printf_P "%04X=%02X : " [PInt addr; PInt (nth 0 cur 0)] w1 in
  match stdin with
  | [] => w2
  | buf :: rest =>
      let (v, converted) := strtoul_end buf 16 in
      let value := u8 v in
      if blank_line buf then poke_loop rest (u16 (addr + 1)) w2
      else if negb converted then w2
      else poke_loop rest (u16 (addr + 1)) (write_mem addr [value] 1 w2)
  end.

(** The usage branch of line 530 has no [return]. *)
Definition cli_poke (argv : list string) (stdin : list string) (w : world)
  : world :=
  let w1 := if argc argv <? 2
            then printf_P "usage: poke <start> [value]\n" [] w
            else w in
  let addr := Z.land (strtoul_argv argv 1 16) 0xffff in
  if argc argv =? 3 then
    let value := Z.land (strtoul (arg argv 2) 16) 0xff in
    write_mem addr [value] 1 w1
  else
    let w2 := printf_P
      "enter valid hex to replace; blank to leave unchanged; 'x' to exit.\n"
      [] w1 in
    poke_loop stdin addr w2.

End Poke.

(** ** cli_baud (lines 678-700) *)

(** Makefile: F_CPU=20000000L. *)
Definition F_CPU : Z := 20000000.

(** The rate the UART runs at with divisor register [d]. *)
Definition rate_of (d : Z) : Z := F_CPU / (16 * (d + 1)).

(** Lines 688-696; [ubrr] is a [uint16_t], [actual] a [uint32_t].  The
    result is the pair ([ubrr], [actual]) the loop is left with. *)
Fixpoint baud_loop (fuel : nat) (requested ubrr : Z) : option (Z * Z) :=
  match fuel with
  | O => None
  | S fuel' =>
      let actual := u32 (u32 F_CPU / u32 (16 * u32 (u32 ubrr + 1))) in
      if actual <=? requested then Some (ubrr, actual)
      else
        let ubrr1 := u16 (ubrr + 1) in
        if ubrr1 =? 0 then Some (ubrr1, actual)
        else baud_loop fuel' requested ubrr1
  end.

Definition baud_search (requested : Z) : option (Z * Z) :=
  baud_loop (Z.to_nat 65536) requested 0.

Definition cli_baud (argv : list string) (w : world) : option world :=
  if negb (argc argv =? 3) then
    Some (printf_P "usage: baud <uart> <baud>\n" [] w)
  else
    let uart := Z.land (strtoul (arg argv 1) 10) 1 in
    let requested := u32 (strtoul (arg argv 2) 10) in
    match baud_search requested with
    | None => None
    | Some (ubrr, actual) =>
        let w1 := printf_P "UART %u: requested: %lu, actual: %lu\n"
                           [PInt uart; PInt requested; PInt actual] w in
        Some (emit (UartInit uart ubrr) (emit UartFlush w1))
    end.

(** ** cli_exec, cli_do and the bootstrap call of main (lines 720-752, 977) *)

Definition AUTOEXEC : string := "autoexec.z8c".

Section Exec.

(** The dispatcher, to which each line of a command file is fed. *)
Variable cli_dispatch : string -> world -> world.
Variable fs : fatfs.

(** Lines 729-732. *)
Fixpoint exec_lines (filename : string) (lines : list string) (w : world)
  : world :=
  match lines with
  | [] => w
  | buf :: rest =>
      if Nat.eqb (String.length buf) 0 then w
      else
        let w1 := printf_P "%s>%s" [PStr filename; PStr buf] w in
        exec_lines filename rest (cli_dispatch buf w1)
  end.

Definition cli_exec (filename : string) (w : world) : world :=
  let fr := f_open fs filename in
  if fr_is fr FR_OK then
    let w1 := exec_lines filename (f_lines fs filename) w in
    let fr2 := f_close fs filename in
    if negb (fr_is fr2 FR_OK)
    then printf_P "error closing file: %S\n" [PRes fr2] w1
    else w1
  else
    if negb (fr_is fr FR_NO_FILE) || negb (String.eqb filename AUTOEXEC)
    then printf_P "error opening file: %S\n" [PRes fr] w
    else w.

Definition cli_do (argv : list string) (w : world) : world :=
  if argc argv <? 2 then printf_P "usage: do <filename>\n" [] w
  else cli_exec (arg argv 1) w.

(** Line 977: the one bootstrap attempt of [main]. *)
Definition main_autoexec (w : world) : world := cli_exec AUTOEXEC w.

End Exec.

(** ** cli_breakwatch (lines 354-414) *)

(** The pair that stands for a disabled range. *)
Definition sentinel : range := mkRange 0xffff 0.

(** [ranges[i] = r] *)
Fixpoint set_nth (i : nat) (r : range) (ranges : list range) : list range :=
  match ranges, i with
  | [], _ => []
  | _ :: rest, O => r :: rest
  | x :: rest, S i' => x :: set_nth i' r rest
  end.

(** Modelled from the spec: the macro [ENABLED] of z80.h is missing; a range
    is "enabled" when "start <= end". *)
Definition ENABLED (ranges : list range) (i : nat) : bool :=
  r_start (nth i ranges sentinel) <=? r_end (nth i ranges sentinel).

(** Lines 387-389: the index of the first name equal to [s], or the count
    of names when there is none. *)
Fixpoint find_type (names : list string) (s : string) (type : nat) : nat :=
  match names with
  | [] => type
  | n :: rest => if String.eqb s n then type else find_type rest s (S type)
  end.

Section BreakWatch.

(** z80.c: the table of debug class names; it has [DEBUGCNT] entries. *)
Variable debug_names : list string.

Definition DEBUGCNT : nat := List.length debug_names.

(** Lines 380-383. *)
Definition disable_all (ranges : list range) : list range :=
  fold_left (fun rs i => set_nth i sentinel rs) (seq 0 DEBUGCNT) ranges.

(** Lines 367-372. *)
Definition show_status (ranges : list range) (w : world) : world :=
  fold_left
    (fun w' i =>
       if negb (ENABLED ranges i)
       then printf_P "\t%S\tdisabled\n" [PStr (nth i debug_names "")] w'
       else printf_P "\t%S\t%04x-%04x\n"
                     [PStr (nth i debug_names "");
                      PInt (r_start (nth i ranges sentinel));
                      PInt (r_end (nth i ranges sentinel))] w')
    (seq 0 DEBUGCNT) w.

Definition store (is_break : bool) (rs : list range) (w : world) : world :=
  if is_break
  then mkWorld (bus w) (vram w) rs (watches w) (trace w)
  else mkWorld (bus w) (vram w) (breaks w) rs (trace w).

Definition cli_breakwatch (argv : list string) (w : world) : world :=
  let is_break := String.eqb (arg argv 0) "break" in
  let ranges := if is_break then breaks w else watches w in
  if argc argv =? 1 then
    let w1 := printf_P "%s status:\n" [PStr (arg argv 0)] w in
    let w2 := show_status ranges w1 in
    let w3 := printf_P "\nusage:\n\t%s <type> [start] [end]\n"
                       [PStr (arg argv 0)] w2 in
    let w4 := printf_P "\t%s <type> off to disable type\n"
                       [PStr (arg argv 0)] w3 in
    printf_P "\t%s off to disable all\n" [PStr (arg argv 0)] w4
  else if String.eqb (arg argv 1) "off" then
    store is_break (disable_all ranges) w
  else
    let type := find_type debug_names (arg argv 1) 0 in
    if Nat.eqb type DEBUGCNT then printf_P "error: unknown type\n" [] w
    else if argc argv =? 2 then
      store is_break (set_nth type (mkRange 0 0xffff) ranges) w
    else if 3 <=? argc argv then
      if String.eqb (arg argv 2) "off" then
        store is_break (set_nth type sentinel ranges) w
      else
        let s := u16 (strtoul (arg argv 2) 16) in
        let e := if 4 <=? argc argv
                 then u16 (strtoul (arg argv 3) 16) else s in
        store is_break (set_nth type (mkRange s e) ranges) w
    else w.

(** A run of registry commands, one [argv] each. *)
Definition run_breakwatch (cmds : list (list string)) (w : world) : world :=
  fold_left (fun w' argv => cli_breakwatch argv w') cmds w.

End BreakWatch.

(** A range as the registry is meant to hold it: ordered, or the sentinel. *)
Definition range_ok (r : range) : Prop :=
  r_start r <= r_end r \/ (r_start r = 0xffff /\ r_end r = 0).

Definition registry_ok (w : world) : Prop :=
  Forall range_ok (breaks w) /\ Forall range_ok (watches w).

(** A set command with an end address whose start lies above its end, the
    two taken as the registry stores them: lines 404-407 assign the values
    of [strtoul] to the 16-bit fields [start] and [end], which keeps their
    low 16 bits.  [break memrd 200 100] is such a command, and so is
    [break memrd 20 10010], which stores start 0x20 and end 0x10;
    [break memrd 10010 20], which stores start 0x10 and end 0x20, is
    not. *)
Definition inverted_request (argv : list string) : bool :=
  (4 <=? argc argv)
  && negb (String.eqb (arg argv 1) "off")
  && negb (String.eqb (arg argv 2) "off")
  && (u16 (strtoul (arg argv 3) 16) <? u16 (strtoul (arg argv 2) 16)).

(** ** cli_dispatch and cli_help (lines 712-714, 757-941) *)

Definition MAXARGS : nat := 8.

(** WHITESPACE: blank, tab, carriage return, line feed. *)
Definition is_whitespace (c : ascii) : bool :=
  (code c =? 32) || (code c =? 9) || (code c =? 13) || (code c =? 10).

(** The C string a buffer holds: its characters up to the first NUL. *)
Fixpoint c_string (s : string) : string :=
  match s with
  | EmptyString => EmptyString
  | String c r => if code c =? 0 then EmptyString else String c (c_string r)
  end.

(** The C library's [strtok] with the delimiters WHITESPACE, on the text
    still to be scanned: leading delimiters are skipped; when nothing is
    left the result is [NULL]; otherwise the token runs up to the next
    delimiter, which is consumed, and the scan resumes after it. *)
Fixpoint skip_delims (s : string) : string :=
  match s with
  | EmptyString => EmptyString
  | String c r => if is_whitespace c then skip_delims r else s
  end.

Fixpoint take_token (s : string) : string * string :=
  match s with
  | EmptyString => (EmptyString, EmptyString)
  | String c r =>
      if is_whitespace c then (EmptyString, r)
      else let (t, rest) := take_token r in (String c t, rest)
  end.

Definition strtok (s : string) : option (string * string) :=
  match skip_delims s with
  | EmptyString => None
  | String c r => Some (take_token (String c r))
  end.

(** Lines 925-930: [argv] is filled by at most [n] successive [strtok]
    calls, stopping at the first [NULL]. *)
Fixpoint tokens (n : nat) (s : string) : list string :=
  match n with
  | O => []
  | S n' =>
      match strtok s with
      | None => []
      | Some (t, rest) => t :: tokens n' rest
      end
  end.

(** The monitor's handlers, as the entries of [cli_cmd_functions]. *)
Inductive handler : Type :=
| h_attach | h_baud | h_boot | h_bus | h_breakwatch | h_debug | h_clkdiv
| h_cls | h_dir | h_disasm | h_do | h_dump | h_erase | h_fill | h_loadbin
| h_help | h_in | h_loadhex | h_mount | h_out | h_page | h_poke | h_run
| h_reset | h_savebin | h_savehex | h_step | h_unmount.

Section Dispatch.

(** Whether the build defines IORQ_OUTPUT. *)
Variable iorq_output : bool.

(** Lines 757-800. *)
Definition cli_cmd_names : list string :=
  ["attach"; "baud"; "boot"; "bus"; "break"; "c"; "clkdiv"; "cls"; "debug";
   "dir"; "disasm"; "do"; "dump"]
  ++ (if iorq_output then ["erase"] else [])
  ++ ["fill"]
  ++ (if iorq_output then ["flash"] else [])
  ++ ["help"]
  ++ (if iorq_output then ["in"] else [])
  ++ ["loadbin"; "loadhex"; "mount"]
  ++ (if iorq_output then ["out"; "page"] else [])
  ++ ["poke"; "run"; "reset"; "savebin"; "savehex"; "s"; "step"; "tmsdump";
      "tmsfill"; "tmslbin"; "unmount"; "watch"].

(** Lines 805-848. *)
Definition cli_cmd_help : list string :=
  ["attach virtual uart to physical uart"; "configure UART baud rate";
   "boot from specified disk image"; "display low-level bus status";
   "set breakpoints"; "shorthand to continue debugging";
   "set Z80 clock divider"; "clear screen"; "debug code at address";
   "shows directory listing"; "disassembles memory location";
   "exeucte a batch file"; "dump memory in hex and ascii"]
  ++ (if iorq_output then ["erase flash ROM"] else [])
  ++ ["fill memory with byte"]
  ++ (if iorq_output then ["flash file to ROM"] else [])
  ++ ["list available commands"]
  ++ (if iorq_output then ["read a value from a port"] else [])
  ++ ["load binary file to memory"; "load intel hex file to memory";
      "mount a disk image"]
  ++ (if iorq_output
      then ["write a value to a port"; "select active memory pages"]
      else [])
  ++ ["poke values into memory"; "execute code at address";
      "reset the processor, with optional vector";
      "save binary file from memory"; "save intel hex file from memory";
      "shorthand for step"; "step processor N cycles";
      "dump tms memory in hex and ascii"; "fill tms memory with byte";
      "load binary file to tms memory"; "unmount a disk image";
      "set watch points"].

(** Lines 855-899. *)
Definition cli_cmd_functions : list handler :=
  [h_attach; h_baud; h_boot; h_bus; h_breakwatch; h_debug; h_clkdiv; h_cls;
   h_debug; h_dir; h_disasm; h_do; h_dump]
  ++ (if iorq_output then [h_erase] else [])
  ++ [h_fill]
  ++ (if iorq_output then [h_loadbin] else [])
  ++ [h_help]
  ++ (if iorq_output then [h_in] else [])
  ++ [h_loadbin; h_loadhex; h_mount]
  ++ (if iorq_output then [h_out; h_page] else [])
  ++ [h_poke; h_run; h_reset; h_savebin; h_savehex; h_step; h_step; h_dump;
      h_fill; h_loadbin; h_unmount; h_breakwatch].

(** Line 901. *)
Definition NUM_CMDS : nat := List.length cli_cmd_functions.

(** Modelled from the spec: [strlookup] of util.c is missing; it yields the
    entry of index [i] of a table of strings ("three parallel tables (names,
    help text, function pointers) that must remain index-aligned"). *)
Definition strlookup (table : list string) (i : nat) : string :=
  nth i table "".

(** Lines 906-913. *)
Definition cli_help (w : world) : world :=
  fold_left
    (fun w' i =>
       printf_P "%S\t%S\n"
                [PStr (strlookup cli_cmd_names i);
                 PStr (strlookup cli_cmd_help i)] w')
    (seq 0 NUM_CMDS)
    (printf_P "available commands:\n" [] w).

(** Lines 931-936: [n] table entries are left to compare from index [i] on;
    the result is the index of the first name equal to [s], or [NUM_CMDS]. *)
Fixpoint find_cmd (n i : nat) (s : string) : nat :=
  match n with
  | O => i
  | S n' =>
      if String.eqb s (strlookup cli_cmd_names i) then i
      else find_cmd n' (S i) s
  end.

(** What calling a handler through its function pointer does:
    [cmd_func(argc, argv)]. *)
Variable call : handler -> list string -> world -> world.

(** Lines 918-941. *)
Definition cli_dispatch (buf : string) (w : world) : world :=
  match tokens MAXARGS (c_string buf) with
  | [] => w
  | argv0 :: args =>
      let i := find_cmd NUM_CMDS 0 argv0 in
      if Nat.eqb i NUM_CMDS then
        printf_P "unknown command: %s. type help for list.\n" [PStr argv0] w
      else call (nth i cli_cmd_functions h_help) (argv0 :: args) w
  end.

End Dispatch.

(** A well-formed token: not empty, and holding neither white space nor
    NUL. *)
Fixpoint no_delim (s : string) : bool :=
  match s with
  | EmptyString => true
  | String c r => negb (is_whitespace c) && negb (code c =? 0) && no_delim r
  end.

Definition token_ok (s : string) : bool :=
  match s with
  | EmptyString => false
  | String _ _ => no_delim s
  end.

(** White space only. *)
Fixpoint all_whitespace (s : string) : bool :=
  match s with
  | EmptyString => true
  | String c r => is_whitespace c && all_whitespace r
  end.

(** A command line: tokens, each preceded by its separator, and what
    trails the last one. *)
Fixpoint line_of (items : list (string * string)) (trail : string) : string :=
  match items with
  | [] => trail
  | (sep, tok) :: rest =>
      String.append sep (String.append tok (line_of rest trail))
  end.

(** Separators are white space, and not empty between two tokens. *)
Definition separators_ok (items : list (string * string)) : bool :=
  match items with
  | [] => true
  | (lead, _) :: rest =>
      all_whitespace lead
      && forallb (fun it => match fst it with
                            | EmptyString => false
                            | sep => all_whitespace sep
                            end) rest
  end.

(** ** cli_loadbin (lines 122-171)

    What reading a file gives, beside [f_open] and [f_close] of [fatfs]:
    [b_lseek name offset] is the result of the seek, [b_read k] the result
    of the [k]-th [f_read] of the command, counted from 0, and
    [b_bytes name] the bytes of the file.  A successful [f_read] of 256
    bytes yields the next 256 bytes of the file, or fewer at its end. *)
Record binsrc : Type := mkBin {
  b_lseek : string -> Z -> FRESULT;
  b_read : nat -> FRESULT;
  b_bytes : string -> list Z
}.

Section LoadBin.

(** Whether the build defines IORQ_OUTPUT, and [flash_write] of flash.c. *)
Variable iorq_output : bool.
Variable flash_write : Z -> list Z -> Z -> world -> world.

Variable src : binsrc.

(** Lines 149-165.  [rest] is what the file still holds past the read
    position; [len] is a [uint32_t], [start] a [uint16_t].  The result is
    the last [f_read] result and the world. *)
Fixpoint loadbin_loop (fuel k : nat) (flash tms : bool) (rest : list Z)
         (start len : Z) (w : world) : option (FRESULT * world) :=
  match fuel with
  | O => None
  | S fuel' =>
      let fr := b_read src k in
      if fr_is fr FR_OK then
        let chunk := firstn 256 rest in
        let br0 := Z.of_nat (List.length chunk) in
        let br := if len <? br0 then len else br0 in
        let data := firstn (Z.to_nat br) chunk in
        let w1 := if iorq_output && flash then flash_write start data br w
                  else if tms then tms_write start data br w
                  else write_mem start data br w in
        if br <? 256 then Some (fr, w1)
        else loadbin_loop fuel' (S k) flash tms (skipn 256 rest)
                          (u16 (start + br)) (u32 (len - br)) w1
      else Some (fr, w)
  end.

Definition cli_loadbin (fs : fatfs) (argv : list string) (w : world)
  : option world :=
  let flash := String.eqb (arg argv 0) "flash" in
  let tms := String.eqb (arg argv 0) "tmslbin" in
  if argc argv <? 3 then
    Some (printf_P "usage: %s <start addr> <filename> [offset] [length]\n"
                   [PStr (arg argv 0)] w)
  else
    let start := Z.land (strtoul (arg argv 1) 16) 0xffff in
    let filename := arg argv 2 in
    let offset := if 4 <=? argc argv
                  then Z.land (strtoul (arg argv 3) 16) 0xffff else 0 in
    let len := if 5 <=? argc argv
               then Z.land (strtoul (arg argv 4) 16) 0xffff else 0x10000 in
    let fr := f_open fs filename in
    if negb (fr_is fr FR_OK) then
      Some (printf_P "error opening file: %S\n" [PRes fr] w)
    else
      let after :=
        if negb (fr_is (b_lseek src filename offset) FR_OK) then
          Some (printf_P "seek error: %S\n"
                         [PRes (b_lseek src filename offset)] w)
        else
          match loadbin_loop 258 0 flash tms
                             (skipn (Z.to_nat offset) (b_bytes src filename))
                             start len w with
          | None => None
          | Some (fr2, w1) =>
              Some (if negb (fr_is fr2 FR_OK)
                    then printf_P "read error: %S\n" [PRes fr2] w1
                    else w1)
          end in
      match after with
      | None => None
      | Some w2 =>
          let fr3 := f_close fs filename in
          Some (if negb (fr_is fr3 FR_OK)
                then printf_P "error closing file: %S\n" [PRes fr3] w2
                else w2)
      end.

End LoadBin.

(** A file source on which every call succeeds and every file holds
    [bytes]. *)
Definition src_of (bytes : list Z) : binsrc :=
  mkBin (fun _ _ => FR_OK) (fun _ => FR_OK) (fun _ => bytes).

(** ** Targets, memories and filesystems used in the examples *)

(** A filesystem on which every call succeeds. *)
Definition fs_ok : fatfs :=
  mkFs (fun _ => FR_OK) (fun _ => FR_OK) (fun _ => FR_OK) (fun _ => []).

(** The target a dump reads (lines 270-273), and its memory. *)
Definition dump_target (tms : bool) : target := if tms then Tms else Bus.

Definition dump_mem (tms : bool) (w : world) : mem :=
  if tms then vram w else bus w.

(** Bus memory holding 1 at address [a] and 0 elsewhere. *)
Definition mem_one_at (a : Z) : mem := fun x => if x =? a then 1 else 0.

(** The line "12" as [fgets] returns it, with its line feed. *)
Definition line_12 : string :=
  String.append "12" (String (ascii_of_nat 10) EmptyString).

(** The registry as "break off" and "watch off" leave it, for a table of
    two classes. *)
Definition all_disabled : world :=
  mkWorld zero_mem zero_mem [sentinel; sentinel] [sentinel; sentinel] [].

(** A filesystem on which no file exists. *)
Definition fs_empty : fatfs :=
  mkFs (fun _ => FR_NO_FILE) (fun _ => FR_OK) (fun _ => FR_OK) (fun _ => []).

(** A filesystem whose card cannot be read. *)
Definition fs_disk_error : fatfs :=
  mkFs (fun _ => FR_DISK_ERR) (fun _ => FR_OK) (fun _ => FR_OK) (fun _ => []).

(** A filesystem whose second [f_write] is refused. *)
Definition fs_second_write_denied : fatfs :=
  mkFs (fun _ => FR_OK)
       (fun k => if Nat.eqb k 1 then FR_DENIED else FR_OK)
       (fun _ => FR_OK) (fun _ => []).

(** [quiet w w']: going from [w] to [w'] no memory was written and no
    debug range changed; only reads and output may have been added. *)
Definition quiet (w w' : world) : Prop :=
  bus w' = bus w /\ vram w' = vram w
  /\ breaks w' = breaks w /\ watches w' = watches w
  /\ writes (trace w') = writes (trace w).

(** The registry a [break] or [watch] command works on (lines 359-362), and
    the one it does not. *)
Definition registry_of (cmd : string) (w : world) : list range :=
  if String.eqb cmd "break" then breaks w else watches w.

Definition other_registry_of (cmd : string) (w : world) : list range :=
  if String.eqb cmd "break" then watches w else breaks w.

(** [new] is [old] with slot [i] holding [r] and every other slot as it
    was. *)
Definition only_slot_changed (i : nat) (r : range) (old new : list range)
  : Prop :=
  List.length new = List.length old
  /\ nth i new sentinel = r
  /\ forall j, j <> i -> nth j new sentinel = nth j old sentinel.

(** A line of the interactive [poke] that holds a hexadecimal value: it is
    not blank and [strtoul] converts something (lines 547-556). *)
Definition hex_line (buf : string) : bool :=
  negb (blank_line buf) && snd (strtoul_end buf 16).

(** A line that ends the interactive [poke]: neither blank nor hexadecimal
    (line 551). *)
Definition exit_line (buf : string) : bool :=
  negb (blank_line buf) && negb (snd (strtoul_end buf 16)).

(** Input lines of an interactive [poke]: an empty line (Enter alone) and
    the exit line "x", as [fgets] returns them. *)
Definition line_blank : string := String (ascii_of_nat 10) EmptyString.

Definition line_x : string := String.append "x" line_blank.

(** No NUL among the characters. *)
Fixpoint nul_free (s : string) : bool :=
  match s with
  | EmptyString => true
  | String c r => negb (code c =? 0) && nul_free r
  end.

(** * Properties *)

(** ** strtoul on the arguments the monitor is given *)

Lemma strtoul_examples :
  strtoul "10ff" 16 = 0x10ff
  /\ strtoul "115200" 10 = 115200
  /\ strtoul_end "0x1F" 16 = (31, true)
  /\ strtoul_end "x" 16 = (0, false)
  /\ strtoul "-1" 16 = 0xffffffff
  /\ strtoul "123456789ab" 16 = ULONG_MAX.
Proof. repeat split. Qed.

(** ** Machine integers *)

Lemma u16_range (x : Z) : 0 <= u16 x < 65536.
Proof. unfold u16. apply Z.mod_pos_bound. lia. Qed.

Lemma u16_small (x : Z) : 0 <= x < 65536 -> u16 x = x.
Proof. intros H. unfold u16. apply Z.mod_small. exact H. Qed.

Lemma u32_small (x : Z) : 0 <= x < 4294967296 -> u32 x = x.
Proof. intros H. unfold u32. apply Z.mod_small. exact H. Qed.

Lemma land_ffff (x : Z) : Z.land x 0xffff = u16 x.
Proof.
  unfold u16. change 0xffff with (Z.ones 16).
  rewrite Z.land_ones by lia. reflexivity.
Qed.

(** ** Traces *)

Lemma writes_app (a b : list event) : writes (a ++ b) = writes a ++ writes b.
Proof.
  induction a as [|e a IH]; simpl; [reflexivity|].
  destruct e; simpl; rewrite IH; reflexivity.
Qed.

Lemma reads_app (a b : list event) : reads (a ++ b) = reads a ++ reads b.
Proof.
  induction a as [|e a IH]; simpl; [reflexivity|].
  destruct e; simpl; rewrite IH; reflexivity.
Qed.

Lemma file_bytes_app (a b : list event) :
  file_bytes (a ++ b) = file_bytes a ++ file_bytes b.
Proof.
  induction a as [|e a IH]; simpl; [reflexivity|].
  destruct e; simpl; try exact IH.
  destruct fr; simpl; try exact IH.
  rewrite IH, app_assoc. reflexivity.
Qed.

Lemma shown_hex_app (a b : list event) :
  shown_hex (a ++ b) = shown_hex a ++ shown_hex b.
Proof.
  induction a as [|e a IH]; simpl; [reflexivity|].
  destruct e; simpl; try exact IH.
  destruct args as [|[n|s|fr] [|x args]]; simpl; try exact IH.
  destruct (String.eqb fmt "%02X "); simpl; rewrite IH; reflexivity.
Qed.

(** ** Reading memory *)

Lemma map_seq_shift {A : Type} (n : nat) :
  forall (f : nat -> A) x,
    map f (seq x n) = map (fun k => f (x + k)%nat) (seq 0 n).
Proof.
  induction n as [|n IH]; intros f x; [reflexivity|].
  cbn [seq map]. rewrite Nat.add_0_r. f_equal.
  rewrite (IH f (S x)), (IH (fun k => f (x + k)%nat) 1%nat).
  apply map_ext. intros k. f_equal. lia.
Qed.

Lemma mem_read_length m addr len :
  List.length (mem_read m addr len) = Z.to_nat len.
Proof. unfold mem_read. rewrite length_map, length_seq. reflexivity. Qed.

Lemma mem_read_app m addr a b :
  0 <= a -> 0 <= b ->
  mem_read m addr (a + b) = mem_read m addr a ++ mem_read m (addr + a) b.
Proof.
  intros Ha Hb. unfold mem_read.
  rewrite Z2Nat.inj_add by lia. rewrite seq_app, map_app. f_equal.
  cbn [Nat.add]. rewrite map_seq_shift. apply map_ext. intros k.
  do 2 f_equal. lia.
Qed.

(** ** cli_fill *)

(** Whatever the range, a [tmsfill] ends with a video write followed by a
    bus write of the same chunk. *)
Lemma fill_loop_tms_ends_with_bus_write past fuel :
  forall buf start end_ w w',
    fill_loop past fuel true buf start end_ w = Some w' ->
    exists pre a n,
      writes (trace w') = pre ++ [(Tms, a, n); (Bus, a, n)].
Proof.
  induction fuel as [|fuel IH]; intros buf start end_ w w' H; simpl in H.
  - discriminate.
  - destruct (256 <? u16 (end_ - start)).
    + eapply IH; eassumption.
    + injection H as <-. simpl.
      exists (writes (trace w)), start, (u16 (end_ - start + 1)).
      rewrite <- app_assoc, writes_app. reflexivity.
Qed.

Lemma fill_loop_step past fuel tms buf start end_ w :
  fill_loop past (S fuel) tms buf start end_ w =
  if 256 <? u16 (end_ - start) then
    fill_loop past fuel tms buf (u16 (start + 256)) end_
      (if tms then tms_write start (array_bytes past buf 256) 256 w
       else write_mem start (array_bytes past buf 256) 256 w)
  else
    Some (write_mem start (array_bytes past buf (u16 (end_ - start + 1)))
            (u16 (end_ - start + 1))
            (if tms
             then tms_write start
                    (array_bytes past buf (u16 (end_ - start + 1)))
                    (u16 (end_ - start + 1)) w
             else w)).
Proof. reflexivity. Qed.

Lemma u16_distance_next (start end_ : Z) :
  u16 (end_ - u16 (start + 256)) = u16 (u16 (end_ - start) - 256).
Proof.
  unfold u16. rewrite Zminus_mod_idemp_r, Zminus_mod_idemp_l.
  f_equal. lia.
Qed.

(** The loop of [cli_fill] always returns: every full chunk brings [start]
    256 closer to [end] in the 16-bit distance. *)
Lemma fill_loop_returns past tms buf end_ :
  forall (n fuel : nat) start w,
    u16 (end_ - start) <= 256 * (Z.of_nat n + 1) ->
    (n < fuel)%nat ->
    exists w', fill_loop past fuel tms buf start end_ w = Some w'.
Proof.
  induction n as [|n IH]; intros fuel start w Hd Hfuel;
    (destruct fuel as [|fuel]; [lia|]); rewrite fill_loop_step;
    destruct (Z.ltb_spec 256 (u16 (end_ - start))) as [Hfull|Hlast];
    try (eexists; reflexivity).
  - lia.
  - apply IH; [|lia]. rewrite u16_distance_next.
    pose proof (u16_range (end_ - start)). rewrite u16_small; lia.
Qed.

Lemma cli_fill_returns past argv w :
  exists w', cli_fill past argv w = Some w'.
Proof.
  unfold cli_fill. destruct (negb (argc argv =? 4)); [eexists; reflexivity|].
  cbv zeta. apply (fill_loop_returns past _ _ _ 256 257); [|lia].
  match goal with |- u16 ?x <= _ => pose proof (u16_range x) end. lia.
Qed.

Lemma total_len_app (a b : list (target * Z * Z)) :
  total_len (a ++ b) = total_len a + total_len b.
Proof.
  unfold total_len. induction a as [|c a IH]; cbn [app fold_right]; lia.
Qed.

Lemma total_len_full_chunks (t : target) (f : nat -> Z) (l : list nat) :
  total_len (map (fun k => (t, f k, 256)) l) = 256 * Z.of_nat (List.length l).
Proof.
  unfold total_len.
  induction l as [|k l IH]; cbn [map fold_right List.length call_len snd];
    lia.
Qed.

(** A bus fill of [[start, end]], start <= end: [q] full chunks of 256 bytes
    and then one final chunk holding the rest, which is between 1 and 257
    bytes long. *)
Lemma fill_loop_bus_chunks past buf end_ :
  end_ < 65536 ->
  forall (q fuel : nat) start w,
    0 <= start ->
    0 <= end_ - start - 256 * Z.of_nat q <= 256 ->
    (q <> 0%nat -> 1 <= end_ - start - 256 * Z.of_nat q) ->
    (q < fuel)%nat ->
    exists w',
      fill_loop past fuel false buf start end_ w = Some w'
      /\ writes (trace w') =
         writes (trace w)
         ++ map (fun k => (Bus, start + 256 * Z.of_nat k, 256)) (seq 0 q)
         ++ [(Bus, start + 256 * Z.of_nat q,
              end_ - start - 256 * Z.of_nat q + 1)].
Proof.
  intros Hend. induction q as [|q IH]; intros fuel start w Hs Hr Hq Hfuel;
    (destruct fuel as [|fuel]; [lia|]); rewrite fill_loop_step;
    rewrite (u16_small (end_ - start)) by lia.
  - destruct (Z.ltb_spec 256 (end_ - start)) as [Hfull|_]; [lia|].
    eexists. split; [reflexivity|]. cbn [write_mem trace seq map app].
    rewrite writes_app. cbn [writes]. rewrite u16_small by lia.
    repeat (f_equal; try lia).
  - destruct (Z.ltb_spec 256 (end_ - start)) as [_|Hlast]; [|lia].
    rewrite (u16_small (start + 256)) by lia.
    match goal with
    | |- context [fill_loop past fuel false buf (start + 256) end_ ?w1] =>
        destruct (IH fuel (start + 256) w1) as (w' & Hrun & Hw);
          [lia | lia | lia | lia |]
    end.
    exists w'. split; [exact Hrun|]. rewrite Hw.
    cbn [write_mem trace]. rewrite writes_app. cbn [writes].
    rewrite <- app_assoc. f_equal. cbn [seq map app]. f_equal.
    + repeat (f_equal; try lia).
    + rewrite (map_seq_shift q _ 1%nat). f_equal.
      * apply map_ext. intros k. repeat (f_equal; try lia).
      * repeat (f_equal; try lia).
Qed.

(** [fill <start> <end> <value>] with start <= end writes end - start + 1
    bytes in all: [q] chunks of 256 bytes and a final chunk of
    end - start + 1 - 256 q bytes, where q = (end - start - 1) / 256.  The
    final chunk has 257 bytes exactly when end - start is a positive
    multiple of 256. *)
Lemma fill_bus_chunks past argv w start end_ :
  argc argv = 4 ->
  String.eqb (arg argv 0) "tmsfill" = false ->
  start = Z.land (strtoul (arg argv 1) 16) 0xffff ->
  end_ = Z.land (strtoul (arg argv 2) 16) 0xffff ->
  start <= end_ ->
  exists w',
    cli_fill past argv w = Some w'
    /\ writes (trace w') =
       writes (trace w)
       ++ map (fun k => (Bus, start + 256 * Z.of_nat k, 256))
              (seq 0 (Z.to_nat ((end_ - start - 1) / 256)))
       ++ [(Bus, start + 256 * Z.of_nat (Z.to_nat ((end_ - start - 1) / 256)),
            end_ - start + 1
            - 256 * Z.of_nat (Z.to_nat ((end_ - start - 1) / 256)))]
    /\ 1 <= end_ - start + 1
            - 256 * Z.of_nat (Z.to_nat ((end_ - start - 1) / 256)) <= 257
    /\ total_len (writes (trace w'))
       = total_len (writes (trace w)) + (end_ - start + 1).
Proof.
  intros Hargc Htms Hs He Hle.
  assert (Hsr : 0 <= start < 65536) by (rewrite Hs, land_ffff; apply u16_range).
  assert (Her : 0 <= end_ < 65536) by (rewrite He, land_ffff; apply u16_range).
  unfold cli_fill. rewrite Hargc, Htms. change (negb (4 =? 4)) with false.
  cbv iota zeta. rewrite <- Hs, <- He.
  set (q := Z.to_nat ((end_ - start - 1) / 256)).
  assert (Hq : end_ - start = 0 /\ q = 0%nat
               \/ 1 <= end_ - start
                  /\ Z.of_nat q = (end_ - start - 1) / 256).
  { destruct (Z.eq_dec (end_ - start) 0) as [E|NE].
    - left. split; [exact E|]. subst q. rewrite E. reflexivity.
    - right. split; [lia|]. subst q. rewrite Z2Nat.id; [reflexivity|].
      apply Z.div_pos; lia. }
  pose proof (Z.div_mod (end_ - start - 1) 256 ltac:(lia)) as Hdm.
  pose proof (Z.mod_pos_bound (end_ - start - 1) 256 ltac:(lia)) as Hmb.
  assert (Hqb : Z.of_nat q < 256).
  { destruct Hq as [[_ ->]|[_ ->]]; [cbn; lia|].
    apply Z.div_lt_upper_bound; lia. }
  destruct (fill_loop_bus_chunks past (fill_pattern (arg argv 3)) end_
              ltac:(lia) q 257 start w) as (w' & Hrun & Hw);
    [lia | | | lia |].
  - destruct Hq as [[E ->]|[H1 Hq]]; [cbn; lia | lia].
  - destruct Hq as [[E ->]|[H1 Hq]]; [congruence | lia].
  - exists w'. split; [exact Hrun|]. split; [|split].
    + rewrite Hw. repeat (f_equal; try lia).
    + destruct Hq as [[E ->]|[H1 Hq]]; [cbn; lia | lia].
    + rewrite Hw, !total_len_app, total_len_full_chunks, length_seq.
      unfold total_len. cbn [fold_right call_len snd]. lia.
Qed.

(** C1 (code at the failing input): [tmsfill 0 0 aa].  The one-byte final
    chunk is written by two calls, [tms_write] and then [write_mem]: video
    memory receives the byte and so does bus memory, whose address 0 held 0
    before the command. *)
Theorem tmsfill_final_chunk_written_twice :
  forall past,
    option_map (fun w' => (writes (trace w'), vram w' 0, bus w' 0))
               (cli_fill past ["tmsfill"; "0"; "0"; "aa"] world0)
    = Some ([(Tms, 0, 1); (Bus, 0, 1)], 0xaa, 0xaa)
    /\ bus world0 0 = 0.
Proof. intros past. split; vm_compute; reflexivity. Qed.

(** C6 (code at the failing input): [fill 0 100 aa] covers 257 bytes.  The
    loop test [end - start > 256] lets a remainder of 257 through to the
    final branch: the fill is one write of 257 bytes from the 256-byte buffer
    instead of a 256-byte chunk and a 1-byte chunk, and the byte stored at
    0x100 is the one lying past the buffer, not the pattern byte.  With 513
    bytes ([fill 0 200 aa]) the final chunk is 257 bytes again. *)
Theorem fill_final_chunk_of_257_bytes :
  forall past,
    option_map (fun w' => (writes (trace w'), bus w' 0xff, bus w' 0x100))
               (cli_fill past ["fill"; "0"; "100"; "aa"] world0)
    = Some ([(Bus, 0, 257)], 0xaa, past 256)
    /\ option_map (fun w' => writes (trace w'))
                  (cli_fill past ["fill"; "0"; "200"; "aa"] world0)
       = Some [(Bus, 0, 256); (Bus, 256, 257)].
Proof. intros past. split; vm_compute; reflexivity. Qed.

(** C4 (code at the failing input): [fill 2 0 aa] and [tmsfill 2 0 aa] have
    start > end.  [end - start] wraps to 0xfffe, so the loop writes 255 full
    chunks and a final chunk of 255 bytes: 65535 bytes in all, every address
    but 1. *)
Theorem fill_inverted_range_writes :
  forall past,
    option_map (fun w' => (List.length (writes (trace w')),
                           total_len (writes (trace w')),
                           bus w' 2, bus w' 0, bus w' 1))
               (cli_fill past ["fill"; "2"; "0"; "aa"] world0)
    = Some (256%nat, 65535, 0xaa, 0xaa, 0)
    /\ option_map (fun w' => (List.length (writes (trace w')),
                              total_len (filter (on_target Tms) (writes (trace w'))),
                              vram w' 2, vram w' 0))
                  (cli_fill past ["tmsfill"; "2"; "0"; "aa"] world0)
       = Some (257%nat, 65535, 0xaa, 0xaa).
Proof. intros past. split; vm_compute; reflexivity. Qed.

(** ** cli_savebin *)

(** With end = 0xffff the test [start <= end] holds for every [uint16_t]
    [start]: while the writes succeed the loop is never left. *)
Lemma savebin_loop_step fuel fs k start end_ len w :
  savebin_loop (S fuel) fs k start end_ len w =
  if start <=? end_ then
    let len1 := if u16 (end_ - start + 1) <? len
                then u16 (end_ - start + 1) else len in
    let w2 := emit (FWrite (mem_read (bus w) start len1) (f_write fs k))
                   (emit (MemRead Bus start len1) w) in
    if negb (fr_is (f_write fs k) FR_OK) then
      Some (printf_P "write error: %S\n" [PRes (f_write fs k)] w2)
    else
      savebin_loop fuel fs (S k) (u16 (start + len1)) end_ len1 w2
  else Some w.
Proof. reflexivity. Qed.

Lemma savebin_loop_top_never_exits fs :
  (forall k, f_write fs k = FR_OK) ->
  forall fuel k start len w,
    0 <= start < 65536 ->
    savebin_loop fuel fs k start 0xffff len w = None.
Proof.
  intros Hok. induction fuel as [|fuel IH]; intros k start len w Hs.
  - reflexivity.
  - rewrite savebin_loop_step.
    destruct (Z.leb_spec start 0xffff) as [_|Hgt]; [|lia].
    cbv zeta. rewrite Hok.
    change (negb (fr_is FR_OK FR_OK)) with false. cbv iota.
    apply IH. apply u16_range.
Qed.

(** With start above end the loop body is never entered. *)
Lemma savebin_loop_inverted fs fuel k start end_ len w :
  end_ < start ->
  savebin_loop (S fuel) fs k start end_ len w = Some w.
Proof.
  intros H. rewrite savebin_loop_step.
  destruct (Z.leb_spec start end_) as [Hle|_]; [lia | reflexivity].
Qed.

(** A failed [f_write] ends the loop at once: the failure is reported and
    no further chunk is read or written; what earlier chunks put in the file
    stays there. *)
Lemma savebin_loop_write_failure fs fuel k start end_ len w :
  start <= end_ ->
  fr_is (f_write fs k) FR_OK = false ->
  savebin_loop (S fuel) fs k start end_ len w
  = let len1 := if u16 (end_ - start + 1) <? len
                then u16 (end_ - start + 1) else len in
    Some (printf_P "write error: %S\n" [PRes (f_write fs k)]
            (emit (FWrite (mem_read (bus w) start len1) (f_write fs k))
               (emit (MemRead Bus start len1) w))).
Proof.
  intros Hle Hfail. rewrite savebin_loop_step.
  destruct (Z.leb_spec start end_) as [_|Hgt]; [|lia].
  cbv zeta. rewrite Hfail. reflexivity.
Qed.

(** C3 (code at the failing input): [savebin <start> ffff f], for instance
    [savebin ff00 ffff f], on a filesystem where every call succeeds.  With
    end = 0xffff the test [start <= end] holds for every value of the
    16-bit [start]; after the chunk that reaches 0xffff, [start] wraps to 0
    and the loop goes on: whatever the fuel, the command has not returned. *)
Theorem savebin_to_top_of_memory_never_returns :
  forall fuel start_arg w,
    cli_savebin fuel fs_ok ["savebin"; start_arg; "ffff"; "f"] w = None
    /\ Z.land (strtoul "ff00" 16) 0xffff <= Z.land (strtoul "ffff" 16) 0xffff.
Proof.
  intros fuel start_arg w. split; [|vm_compute; discriminate].
  unfold cli_savebin.
  change (argc ["savebin"; start_arg; "ffff"; "f"] <? 4) with false.
  cbv iota.
  change (Z.land (strtoul (arg ["savebin"; start_arg; "ffff"; "f"] 2) 16) 0xffff)
    with 0xffff.
  cbv zeta. change (fr_is (f_open fs_ok _) FR_OK) with true. cbv iota.
  rewrite savebin_loop_top_never_exits;
    [reflexivity | reflexivity | rewrite land_ffff; apply u16_range].
Qed.

(** ** cli_savebin, below the top of the address space *)

(** With end below 0xffff and every write accepted, the loop saves the range
    in chunks and returns: the file receives the end - start + 1 bytes of
    [[start, end]], in order. *)
Lemma savebin_loop_writes_range fs end_ :
  (forall k, f_write fs k = FR_OK) ->
  0 <= end_ < 65535 ->
  forall (n fuel : nat) k start w,
    0 <= start <= end_ + 1 ->
    end_ - start + 1 <= 256 * Z.of_nat n ->
    (S n < fuel)%nat ->
    exists w',
      savebin_loop fuel fs k start end_ 256 w = Some w'
      /\ bus w' = bus w
      /\ writes (trace w') = writes (trace w)
      /\ file_bytes (trace w') =
         file_bytes (trace w) ++ mem_read (bus w) start (end_ - start + 1).
Proof.
  intros Hok Hend. induction n as [|n IH]; intros fuel k start w Hs Hn Hfuel.
  - destruct fuel as [|fuel]; [lia|].
    rewrite savebin_loop_inverted by lia. exists w.
    replace (end_ - start + 1) with 0 by lia.
    unfold mem_read. cbn [Z.to_nat seq map]. rewrite app_nil_r. auto.
  - destruct fuel as [|fuel]; [lia|].
    destruct (Z_lt_le_dec end_ start) as [Hdone|Hmore].
    { rewrite savebin_loop_inverted by lia. exists w.
      replace (end_ - start + 1) with 0 by lia.
      unfold mem_read. cbn [Z.to_nat seq map]. rewrite app_nil_r. auto. }
    rewrite savebin_loop_step.
    destruct (Z.leb_spec start end_) as [_|Hgt]; [|lia].
    rewrite (u16_small (end_ - start + 1)) by lia.
    rewrite Hok. change (negb (fr_is FR_OK FR_OK)) with false.
    destruct (Z.ltb_spec (end_ - start + 1) 256) as [Hlast|Hfull]; cbv zeta iota.
    + rewrite (u16_small (start + (end_ - start + 1))) by lia.
      destruct fuel as [|fuel]; [lia|].
      rewrite savebin_loop_inverted by lia.
      eexists. split; [reflexivity|]. cbn [emit bus trace].
      split; [reflexivity|]. split.
      * rewrite <- !app_assoc, writes_app. cbn [writes app].
        rewrite app_nil_r. reflexivity.
      * rewrite <- !app_assoc, file_bytes_app. cbn [file_bytes app].
        rewrite app_nil_r. reflexivity.
    + rewrite (u16_small (start + 256)) by lia.
      match goal with
      | |- context [savebin_loop fuel fs (S k) (start + 256) end_ 256 ?w2] =>
          destruct (IH fuel (S k) (start + 256) w2)
            as (w' & Hrun & Hb & Hw & Hf); [lia | lia | lia |]
      end.
      exists w'. split; [exact Hrun|]. cbn [emit bus trace] in *.
      split; [exact Hb|]. split.
      * rewrite Hw, <- !app_assoc, writes_app. cbn [writes app].
        rewrite app_nil_r. reflexivity.
      * rewrite Hf, <- !app_assoc, file_bytes_app. cbn [file_bytes app].
        rewrite app_nil_r, <- app_assoc. f_equal.
        rewrite <- mem_read_app by lia. f_equal. lia.
Qed.

(** [savebin <start> <end> <file>] with start <= end < 0xffff on a
    filesystem that accepts every call: the command returns and the file has
    received exactly the bytes of the range. *)
Lemma savebin_saves_range_below_top argv w start end_ :
  4 <= argc argv ->
  start = Z.land (strtoul (arg argv 1) 16) 0xffff ->
  end_ = Z.land (strtoul (arg argv 2) 16) 0xffff ->
  start <= end_ < 0xffff ->
  exists w',
    cli_savebin 258 fs_ok argv w = Some w'
    /\ bus w' = bus w
    /\ writes (trace w') = writes (trace w)
    /\ file_bytes (trace w') =
       file_bytes (trace w) ++ mem_read (bus w) start (end_ - start + 1)
    /\ Z.of_nat (List.length (mem_read (bus w) start (end_ - start + 1)))
       = end_ - start + 1.
Proof.
  intros Hargc Hs He Hrange.
  assert (Hsr : 0 <= start < 65536) by (rewrite Hs, land_ffff; apply u16_range).
  unfold cli_savebin.
  destruct (Z.ltb_spec (argc argv) 4) as [Hlt|_]; [lia|].
  rewrite <- Hs, <- He. cbv zeta.
  change (fr_is (f_open fs_ok (arg argv 3)) FR_OK) with true.
  change (negb (fr_is (f_close fs_ok (arg argv 3)) FR_OK)) with false.
  cbv iota.
  destruct (savebin_loop_writes_range fs_ok end_ (fun _ => eq_refl)
              ltac:(lia) 256 258 0%nat start w)
    as (w' & Hrun & Hb & Hw & Hf); [lia | lia | lia |].
  rewrite Hrun. exists w'. split; [reflexivity|].
  repeat (split; [assumption|]).
  rewrite mem_read_length. lia.
Qed.


(** ** cli_dump *)

Lemma dump_hex_spec buf :
  forall j w,
    bus (dump_hex buf j w) = bus w
    /\ vram (dump_hex buf j w) = vram w
    /\ reads (trace (dump_hex buf j w)) = reads (trace w)
    /\ shown_hex (trace (dump_hex buf j w)) = shown_hex (trace w) ++ buf.
Proof.
  induction buf as [|b r IH]; intros j w.
  - cbn [dump_hex]. rewrite app_nil_r. auto.
  - cbn [dump_hex].
    match goal with
    | |- context [dump_hex r ?j' ?w'] =>
        destruct (IH j' w') as (Hb & Hv & Hr & Hs)
    end.
    rewrite Hb, Hv, Hr, Hs.
    destruct (j mod 4 =? 3);
      cbn [printf_P emit trace bus vram];
      rewrite ?reads_app, ?shown_hex_app; cbn [reads shown_hex String.eqb];
      rewrite ?app_nil_r, <- ?app_assoc; auto.
Qed.

Lemma dump_ascii_spec buf :
  forall i w,
    0 <= i -> i + Z.of_nat (List.length buf) < 4294967296 ->
    fst (dump_ascii buf i w) = i + Z.of_nat (List.length buf)
    /\ bus (snd (dump_ascii buf i w)) = bus w
    /\ vram (snd (dump_ascii buf i w)) = vram w
    /\ reads (trace (snd (dump_ascii buf i w))) = reads (trace w)
    /\ shown_hex (trace (snd (dump_ascii buf i w))) = shown_hex (trace w).
Proof.
  induction buf as [|b r IH]; intros i w Hi Hlen.
  - cbn [dump_ascii fst snd List.length]. repeat split. lia.
  - cbn [dump_ascii]. cbn [List.length] in Hlen.
    rewrite (u32_small (i + 1)) by lia.
    match goal with
    | |- context [dump_ascii r (i + 1) ?w'] =>
        destruct (IH (i + 1) w') as (Hi' & Hb & Hv & Hr & Hs); [lia | lia |]
    end.
    rewrite Hi', Hb, Hv, Hr, Hs. cbn [List.length].
    destruct ((0x20 <=? b) && (b <=? 0x7e));
      cbn [printf_P emit trace bus vram];
      rewrite ?reads_app, ?shown_hex_app; cbn [reads shown_hex String.eqb];
      rewrite ?app_nil_r; repeat split; lia.
Qed.

(** [n] rows are due when the loop is at [i]: they are read one after the
    other, 16 bytes each, and all 16 bytes of each go to the hexadecimal
    column. *)
Lemma dump_loop_rows tms end_ :
  end_ < 65536 ->
  forall (n fuel : nat) i w,
    0 <= i ->
    (n < fuel)%nat ->
    end_ < i + 16 * Z.of_nat n ->
    (n <> 0%nat -> i + 16 * (Z.of_nat n - 1) <= end_) ->
    exists w',
      dump_loop fuel tms i end_ w = Some w'
      /\ bus w' = bus w /\ vram w' = vram w
      /\ reads (trace w') =
         reads (trace w)
         ++ map (fun k => (dump_target tms, i + 16 * Z.of_nat k, 16)) (seq 0 n)
      /\ shown_hex (trace w') =
         shown_hex (trace w) ++ mem_read (dump_mem tms w) i (16 * Z.of_nat n).
Proof.
  intros Hend. induction n as [|n IH]; intros fuel i w Hi Hfuel Hlast Hfirst.
  - destruct fuel as [|fuel]; [lia|]. cbn [dump_loop].
    destruct (Z.leb_spec i end_) as [Hle|_]; [lia|].
    exists w. cbn [seq map]. change (16 * Z.of_nat 0) with 0.
    unfold mem_read. cbn [Z.to_nat seq map]. rewrite !app_nil_r. auto.
  - destruct fuel as [|fuel]; [lia|]. cbn [dump_loop].
    destruct (Z.leb_spec i end_) as [_|Hgt]; [|lia].
    rewrite (u16_small i) by lia.
    set (w1 := printf_P "%04X   " [PInt i] w).
    set (rd := if tms then tms_read i 16 w1 else read_mem i 16 w1).
    assert (Hrd : rd = (mem_read (dump_mem tms w) i 16,
                        emit (MemRead (dump_target tms) i 16) w1)).
    { subst rd. destruct tms; reflexivity. }
    rewrite Hrd. clear Hrd rd.
    set (buf := mem_read (dump_mem tms w) i 16).
    set (w2 := emit (MemRead (dump_target tms) i 16) w1).
    destruct (dump_hex_spec buf 0 w2) as (Hb3 & Hv3 & Hr3 & Hs3).
    set (w3 := dump_hex buf 0 w2) in *.
    set (w4 := printf_P " " [] w3).
    assert (Hlenbuf : List.length buf = 16%nat).
    { subst buf. rewrite mem_read_length. reflexivity. }
    destruct (dump_ascii_spec buf i w4) as (Hi5 & Hb5 & Hv5 & Hr5 & Hs5);
      [lia | rewrite Hlenbuf; lia |].
    destruct (dump_ascii buf i w4) as [i1 w5]. cbn [fst snd] in *.
    rewrite Hlenbuf in Hi5. change (Z.of_nat 16) with 16 in Hi5. subst i1.
    set (w6 := printf_P "\n" [] w5).
    destruct (IH fuel (i + 16) w6) as (w' & Hrun & Hb & Hv & Hr & Hs);
      [lia | lia | lia | lia |].
    exists w'. split; [exact Hrun|].
    assert (Hb6 : bus w6 = bus w).
    { change (bus w6) with (bus w5). rewrite Hb5.
      change (bus w4) with (bus w3). rewrite Hb3. reflexivity. }
    assert (Hv6 : vram w6 = vram w).
    { change (vram w6) with (vram w5). rewrite Hv5.
      change (vram w4) with (vram w3). rewrite Hv3. reflexivity. }
    assert (Hm6 : dump_mem tms w6 = dump_mem tms w).
    { unfold dump_mem. rewrite Hb6, Hv6. reflexivity. }
    split; [congruence|]. split; [congruence|]. split.
    + rewrite Hr. subst w6. cbn [printf_P emit trace].
      rewrite reads_app, Hr5. subst w4. cbn [printf_P emit trace].
      rewrite reads_app, Hr3. subst w2 w1. cbn [printf_P emit trace].
      rewrite !reads_app. cbn [reads]. rewrite !app_nil_r.
      rewrite <- app_assoc. f_equal.
      cbn [seq map]. rewrite (map_seq_shift n _ 1%nat). cbn [app].
      f_equal; [f_equal; f_equal; lia|].
      apply map_ext. intros k. f_equal. f_equal. lia.
    + rewrite Hs, Hm6. subst w6. cbn [printf_P emit trace].
      rewrite shown_hex_app, Hs5. subst w4. cbn [printf_P emit trace].
      rewrite shown_hex_app, Hs3. subst w2 w1. cbn [printf_P emit trace].
      rewrite !shown_hex_app. cbn [shown_hex]. rewrite !app_nil_r.
      rewrite <- app_assoc. f_equal.
      replace (16 * Z.of_nat (S n)) with (16 + 16 * Z.of_nat n) by lia.
      rewrite mem_read_app by lia. reflexivity.
Qed.

(** [cli_dump] always returns: the loop runs once per row, and a range has
    at most 4096 rows. *)
Lemma cli_dump_returns argv w :
  exists w', cli_dump argv w = Some w'.
Proof.
  unfold cli_dump. destruct (argc argv <? 2); [eexists; reflexivity|].
  cbv zeta.
  set (start := Z.land (strtoul (arg argv 1) 16) 0xffff).
  set (end_ := if argc argv <? 3 then u16 (start + 0xff)
               else Z.land (strtoul (arg argv 2) 16) 0xffff).
  assert (Hs : 0 <= start < 65536)
    by (subst start; rewrite land_ffff; apply u16_range).
  assert (He : 0 <= end_ < 65536).
  { subst end_. destruct (argc argv <? 3);
      [|rewrite land_ffff]; apply u16_range. }
  set (w1 := printf_P "%04x-%04x\n" [PInt start; PInt end_] w).
  destruct (Z_lt_le_dec end_ start) as [Hinv|Hle].
  - destruct (dump_loop_rows (String.eqb (arg argv 0) "tmsdump") end_
                ltac:(lia) 0 4097 start w1) as (w' & Hrun & _);
      [lia | lia | lia | lia |].
    exists w'. exact Hrun.
  - pose proof (Z.div_mod (end_ - start) 16 ltac:(lia)) as Hdm.
    pose proof (Z.mod_pos_bound (end_ - start) 16 ltac:(lia)) as Hmb.
    assert (Hdiv : 0 <= (end_ - start) / 16 < 4096).
    { split; [apply Z.div_pos; lia | apply Z.div_lt_upper_bound; lia]. }
    destruct (dump_loop_rows (String.eqb (arg argv 0) "tmsdump") end_
                ltac:(lia) (Z.to_nat ((end_ - start) / 16 + 1)) 4097 start w1)
      as (w' & Hrun & _); [lia | lia | | |].
    + rewrite Z2Nat.id by lia. lia.
    + rewrite Z2Nat.id by lia. lia.
    + exists w'. exact Hrun.
Qed.

(** C10: [dump <start> <end>] with start <= end reads whole rows of 16 bytes
    from [start] on, one row for every 16 addresses begun below or at [end],
    and prints every byte it read in the hexadecimal column.  The bytes read
    and shown are 16 times the number of rows: from none to 15 more than
    the range holds, and at least one more whenever the length of the range
    is not a multiple of 16. *)
Theorem dump_shows_whole_rows :
  forall argv w start end_,
    3 <= argc argv ->
    start = Z.land (strtoul (arg argv 1) 16) 0xffff ->
    end_ = Z.land (strtoul (arg argv 2) 16) 0xffff ->
    start <= end_ ->
    let tms := String.eqb (arg argv 0) "tmsdump" in
    let rows := (end_ - start) / 16 + 1 in
    let extra := 16 * rows - (end_ - start + 1) in
    exists w',
      cli_dump argv w = Some w'
      /\ reads (trace w') =
         reads (trace w)
         ++ map (fun k => (dump_target tms, start + 16 * Z.of_nat k, 16))
                (seq 0 (Z.to_nat rows))
      /\ shown_hex (trace w') =
         shown_hex (trace w)
         ++ mem_read (dump_mem tms w) start ((end_ - start + 1) + extra)
      /\ 0 <= extra <= 15
      /\ ((end_ - start + 1) mod 16 <> 0 -> 1 <= extra).
Proof.
  intros argv w start end_ Hargc Hs He Hle tms rows extra.
  assert (Hsr : 0 <= start < 65536) by (rewrite Hs, land_ffff; apply u16_range).
  assert (Her : 0 <= end_ < 65536) by (rewrite He, land_ffff; apply u16_range).
  pose proof (Z.div_mod (end_ - start) 16 ltac:(lia)) as Hdm.
  pose proof (Z.mod_pos_bound (end_ - start) 16 ltac:(lia)) as Hmb.
  assert (Hdiv : 0 <= (end_ - start) / 16 < 4096).
  { split; [apply Z.div_pos; lia | apply Z.div_lt_upper_bound; lia]. }
  unfold cli_dump.
  destruct (Z.ltb_spec (argc argv) 2) as [Hlt|_]; [lia|].
  destruct (Z.ltb_spec (argc argv) 3) as [Hlt|_]; [lia|]. cbv zeta.
  rewrite <- Hs, <- He. fold tms.
  set (w1 := printf_P "%04x-%04x\n" [PInt start; PInt end_] w).
  destruct (dump_loop_rows tms end_ ltac:(lia) (Z.to_nat rows) 4097 start w1)
    as (w' & Hrun & Hb & Hv & Hr & Hsh).
  - lia.
  - subst rows. lia.
  - subst rows. rewrite Z2Nat.id by lia. lia.
  - subst rows. rewrite Z2Nat.id by lia. lia.
  - exists w'. split; [exact Hrun|]. split; [|split; [|split]].
    + rewrite Hr. subst w1. cbn [printf_P emit trace].
      rewrite reads_app. cbn [reads]. rewrite app_nil_r. reflexivity.
    + rewrite Hsh. subst w1. cbn [printf_P emit trace].
      rewrite shown_hex_app. cbn [shown_hex]. rewrite app_nil_r.
      f_equal. rewrite Z2Nat.id by (subst rows; lia).
      f_equal. subst extra. lia.
    + subst extra rows. lia.
    + intros Hne. subst extra rows.
      assert (Hm : (end_ - start + 1) mod 16 = ((end_ - start) mod 16 + 1) mod 16).
      { rewrite <- Zplus_mod_idemp_l. reflexivity. }
      assert ((end_ - start) mod 16 <> 15).
      { intros H15. apply Hne. rewrite Hm, H15. reflexivity. }
      lia.
Qed.

Lemma dump_shows_whole_rows_witness :
  exists w',
    cli_dump ["dump"; "10"; "25"] world0 = Some w'
    /\ reads (trace w') =
       reads (trace world0)
       ++ map (fun k => (dump_target (String.eqb (arg ["dump"; "10"; "25"] 0) "tmsdump"),
                         0x10 + 16 * Z.of_nat k, 16))
              (seq 0 (Z.to_nat ((0x25 - 0x10) / 16 + 1)))
    /\ shown_hex (trace w') =
       shown_hex (trace world0)
       ++ mem_read (dump_mem (String.eqb (arg ["dump"; "10"; "25"] 0) "tmsdump") world0)
                   0x10
                   ((0x25 - 0x10 + 1) + (16 * ((0x25 - 0x10) / 16 + 1) - (0x25 - 0x10 + 1)))
    /\ 0 <= 16 * ((0x25 - 0x10) / 16 + 1) - (0x25 - 0x10 + 1) <= 15
    /\ ((0x25 - 0x10 + 1) mod 16 <> 0 ->
        1 <= 16 * ((0x25 - 0x10) / 16 + 1) - (0x25 - 0x10 + 1)).
Proof.
  apply (dump_shows_whole_rows ["dump"; "10"; "25"] world0 0x10 0x25);
    [unfold argc; cbn [List.length]; lia | reflexivity | reflexivity | lia].
Defined.

(** ** cli_baud *)

Lemma baud_actual (ubrr : Z) :
  0 <= ubrr < 65536 ->
  u32 (u32 F_CPU / u32 (16 * u32 (u32 ubrr + 1))) = rate_of ubrr.
Proof.
  intros H. unfold rate_of.
  rewrite (u32_small ubrr) by lia.
  rewrite (u32_small (ubrr + 1)) by lia.
  rewrite (u32_small (16 * (ubrr + 1))) by lia.
  rewrite (u32_small F_CPU) by (unfold F_CPU; lia).
  apply u32_small. split.
  - apply Z.div_pos; unfold F_CPU; lia.
  - apply Z.div_lt_upper_bound; unfold F_CPU; lia.
Qed.

Lemma baud_loop_step fuel requested ubrr :
  baud_loop (S fuel) requested ubrr =
  let actual := u32 (u32 F_CPU / u32 (16 * u32 (u32 ubrr + 1))) in
  if actual <=? requested then Some (ubrr, actual)
  else if u16 (ubrr + 1) =? 0 then Some (u16 (ubrr + 1), actual)
       else baud_loop fuel requested (u16 (ubrr + 1)).
Proof. reflexivity. Qed.

(** The search always ends: the divisor register has 65536 values. *)
Lemma baud_loop_total requested :
  forall fuel ubrr,
    0 <= ubrr < 65536 ->
    65536 - ubrr <= Z.of_nat fuel ->
    exists r, baud_loop fuel requested ubrr = Some r.
Proof.
  induction fuel as [|fuel IH]; intros ubrr Hu Hf; [lia|].
  rewrite baud_loop_step. cbv zeta.
  destruct (_ <=? requested); [eexists; reflexivity|].
  destruct (Z.eqb_spec (u16 (ubrr + 1)) 0) as [_|Hne]; [eexists; reflexivity|].
  assert (Hnext : ubrr + 1 < 65536).
  { destruct (Z.eq_dec (ubrr + 1) 65536) as [E|]; [|lia].
    exfalso. apply Hne. rewrite E. reflexivity. }
  rewrite u16_small by lia. apply IH; lia.
Qed.

Lemma baud_search_total requested :
  exists r, baud_search requested = Some r.
Proof. apply baud_loop_total; [lia | reflexivity]. Qed.

(** What the loop is left with: either the first divisor from [ubrr] on whose
    rate does not exceed the request, with that rate; or, when no divisor has
    such a rate, the wrapped divisor 0 together with the rate of divisor
    65535. *)
Lemma baud_loop_result requested :
  forall fuel ubrr d a,
    0 <= ubrr < 65536 ->
    baud_loop fuel requested ubrr = Some (d, a) ->
    (a <= requested /\ a = rate_of d /\ ubrr <= d < 65536
     /\ forall d', ubrr <= d' < d -> requested < rate_of d')
    \/ (requested < a /\ d = 0 /\ a = rate_of 65535
        /\ forall d', ubrr <= d' < 65536 -> requested < rate_of d').
Proof.
  induction fuel as [|fuel IH]; intros ubrr d a Hu H; [discriminate|].
  rewrite baud_loop_step in H. cbv zeta in H.
  rewrite baud_actual in H by lia.
  destruct (Z.leb_spec (rate_of ubrr) requested) as [Hle|Hgt].
  - injection H as <- <-. left. repeat split; try lia.
  - destruct (Z.eq_dec (ubrr + 1) 65536) as [E|Hne].
    + rewrite E in H. change (u16 65536 =? 0) with true in H.
      change (u16 65536) with 0 in H. cbv iota in H. injection H as <- <-.
      right. replace ubrr with 65535 in * by lia.
      repeat split; try lia.
      intros d' Hd'. replace d' with 65535 by lia. lia.
    + rewrite (u16_small (ubrr + 1)) in H by lia.
      destruct (Z.eqb_spec (ubrr + 1) 0) as [E0|_]; [lia|].
      destruct (IH (ubrr + 1) d a ltac:(lia) H)
        as [(Ha & Hr & Hd & Hfirst) | (Ha & Hd & Hr & Hall)].
      * left. repeat split; try lia.
        intros d' Hd'. destruct (Z.eq_dec d' ubrr) as [->|]; [lia|].
        apply Hfirst. lia.
      * right. repeat split; try lia.
        intros d' Hd'. destruct (Z.eq_dec d' ubrr) as [->|]; [lia|].
        apply Hall. lia.
Qed.

Lemma baud_search_result requested d a :
  baud_search requested = Some (d, a) ->
  (a <= requested /\ a = rate_of d /\ 0 <= d < 65536
   /\ forall d', 0 <= d' < d -> requested < rate_of d')
  \/ (requested < a /\ d = 0 /\ a = rate_of 65535
      /\ forall d', 0 <= d' < 65536 -> requested < rate_of d').
Proof. unfold baud_search. apply baud_loop_result. lia. Qed.

(** The example of the specification: at 20 MHz a request of 115200 ends
    the search at divisor 10, whose rate is 113636. *)
Lemma baud_search_115200 :
  baud_search 115200 = Some (10, 113636) /\ rate_of 10 = 113636.
Proof. split; vm_compute; reflexivity. Qed.

Lemma rate_of_lower_bound (d : Z) : 0 <= d < 65536 -> 19 <= rate_of d.
Proof.
  intros H. unfold rate_of, F_CPU. apply Z.div_le_lower_bound; lia.
Qed.

(** A request below 19, the rate of the slowest divisor, always ends on the
    overflow test. *)
Lemma baud_search_overflow (requested : Z) :
  requested < 19 -> baud_search requested = Some (0, 19).
Proof.
  intros Hreq. destruct (baud_search_total requested) as [[d a] Hr].
  rewrite Hr.
  destruct (baud_search_result requested d a Hr)
    as [(Ha & Hrate & Hd & _) | (_ & Hd & Hrate & _)].
  - pose proof (rate_of_lower_bound d ltac:(lia)). lia.
  - assert (H19 : rate_of 65535 = 19) by (vm_compute; reflexivity).
    congruence.
Qed.

(** C7 (code at the failing input): [baud 0 10].  No divisor has a rate of
    10 or less (the slowest, 65535, gives 19), so the search ends on the
    overflow test, after the increment has wrapped [ubrr] to 0.  The command
    prints the rate 19 and programs the UART with divisor 0, whose rate is
    1250000: the reported rate is not the rate of the divisor. *)
Theorem baud_overflow_reports_mismatched_pair :
  option_map trace (cli_baud ["baud"; "0"; "10"] world0)
  = Some [Printf "UART %u: requested: %lu, actual: %lu\n"
                 [PInt 0; PInt 10; PInt 19];
          UartFlush; UartInit 0 0]
  /\ rate_of 0 = 1250000
  /\ rate_of 65535 = 19.
Proof.
  split; [|split; vm_compute; reflexivity].
  unfold cli_baud.
  change (negb (argc ["baud"; "0"; "10"] =? 3)) with false. cbv iota.
  change (u32 (strtoul (arg ["baud"; "0"; "10"] 2) 10)) with 10.
  change (Z.land (strtoul (arg ["baud"; "0"; "10"] 1) 10) 1) with 0.
  cbv zeta. rewrite baud_search_overflow by lia. reflexivity.
Qed.

(** ** verify_mem *)

(** The example of the specification, with the reference addressed by
    absolute address ([src[a]] is the reference byte for address [a]): after
    [fill 1000 10ff aa] the range verifies against a reference of 0xaa with
    no mismatch and against a reference of 0xbb with 256. *)
Lemma verify_after_fill_example past :
  match cli_fill past ["fill"; "1000"; "10ff"; "aa"] world0 with
  | Some w =>
      option_map fst (verify_mem 0x1000 0x10ff (fun _ => 0xaa) false w) = Some 0
      /\ option_map fst (verify_mem 0x1000 0x10ff (fun _ => 0xbb) false w)
         = Some 256
  | None => False
  end.
Proof. vm_compute. split; reflexivity. Qed.

Lemma verify_loop_step fuel start end_ src log i buflen errors w :
  verify_loop (S fuel) start end_ src log i buflen errors w =
  if i <=? end_ then
    let buflen1 := if u32 (end_ - i + 1) <? buflen
                   then u16 (u32 (end_ - i + 1)) else buflen in
    let '(i1, errors1, w2) :=
      verify_row start src log (mem_read (bus w) start buflen1) i errors
                 (emit (MemRead Bus start buflen1) w) in
    verify_loop fuel start end_ src log i1 buflen1 errors1 w2
  else Some (errors, w).
Proof. reflexivity. Qed.

Lemma verify_row_advances start src log buf :
  forall i errors w,
    0 <= i -> i + Z.of_nat (List.length buf) < 4294967296 ->
    fst (fst (verify_row start src log buf i errors w))
    = i + Z.of_nat (List.length buf).
Proof.
  induction buf as [|b r IH]; intros i errors w Hi Hlen.
  - cbn [verify_row fst List.length]. lia.
  - cbn [verify_row]. cbn [List.length] in *.
    rewrite (u32_small (i + 1)) by lia.
    destruct (negb (b =? src i)); rewrite IH by lia; lia.
Qed.

(** [verify_mem] always returns: each chunk moves [i] on by its length. *)
Lemma verify_loop_returns start end_ src log :
  end_ < 65536 ->
  forall (n fuel : nat) i errors w,
    0 <= i ->
    end_ - i + 1 <= 256 * Z.of_nat n ->
    (S n < fuel)%nat ->
    exists r, verify_loop fuel start end_ src log i 256 errors w = Some r.
Proof.
  intros Hend. induction n as [|n IH]; intros fuel i errors w Hi Hn Hfuel;
    (destruct fuel as [|fuel]; [lia|]); rewrite verify_loop_step;
    destruct (Z.leb_spec i end_) as [Hle|Hgt];
    try (eexists; reflexivity); [lia|].
  rewrite (u32_small (end_ - i + 1)) by lia. cbv zeta.
  destruct (Z.ltb_spec (end_ - i + 1) 256) as [Hlast|Hfull].
  - rewrite (u16_small (end_ - i + 1)) by lia.
    pose proof (verify_row_advances start src log
                  (mem_read (bus w) start (end_ - i + 1)) i errors
                  (emit (MemRead Bus start (end_ - i + 1)) w)) as Hadv.
    rewrite mem_read_length in Hadv.
    destruct (verify_row _ _ _ _ _ _ _) as [[i1 errors1] w2].
    cbn [fst] in Hadv. rewrite Hadv by lia.
    destruct fuel as [|fuel]; [lia|]. rewrite verify_loop_step.
    destruct (Z.leb_spec (i + Z.of_nat (Z.to_nat (end_ - i + 1))) end_)
      as [Hle'|_]; [lia | eexists; reflexivity].
  - pose proof (verify_row_advances start src log
                  (mem_read (bus w) start 256) i errors
                  (emit (MemRead Bus start 256) w)) as Hadv.
    rewrite mem_read_length in Hadv.
    destruct (verify_row _ _ _ _ _ _ _) as [[i1 errors1] w2].
    cbn [fst] in Hadv. rewrite Hadv by lia.
    apply IH; lia.
Qed.

Lemma verify_mem_returns start end_ src log w :
  0 <= start < 65536 -> 0 <= end_ < 65536 ->
  exists r, verify_mem start end_ src log w = Some r.
Proof.
  intros Hs He. unfold verify_mem.
  apply (verify_loop_returns start end_ src log ltac:(lia) 256 258); lia.
Qed.

(** One pass of the inner loop over a chunk that does hold the bytes at
    [i], [i+1], ...: it counts the addresses at which memory and reference
    differ. *)
Lemma verify_row_counts (m : mem) (src : Z -> Z) (start a0 : Z) :
  forall (n x : nat) i errors w,
    i = a0 + Z.of_nat x ->
    0 <= i -> i + Z.of_nat n < 4294967296 ->
    0 <= errors -> errors + Z.of_nat n < 32768 ->
    verify_row start src false
               (map (fun k => m (a0 + Z.of_nat k)) (seq x n)) i errors w
    = (i + Z.of_nat n,
       errors + Z.of_nat (List.length
                  (filter (fun a => negb (m a =? src a))
                          (map (fun k => a0 + Z.of_nat k) (seq x n)))),
       w).
Proof.
  induction n as [|n IH]; intros x i errors w Hi Hi0 Hi32 He0 He.
  - cbn [seq map filter verify_row List.length]. repeat (f_equal; try lia).
  - cbn [seq map filter verify_row]. rewrite <- Hi.
    rewrite (u32_small (i + 1)) by lia.
    destruct (m i =? src i); cbn [negb List.length].
    + rewrite (IH (S x) (i + 1) errors w) by lia.
      repeat (f_equal; try lia).
    + assert (Hs16 : s16 (errors + 1) = errors + 1).
      { unfold s16. rewrite Z.mod_small by lia. lia. }
      rewrite Hs16. rewrite (IH (S x) (i + 1) (errors + 1) w) by lia.
      repeat (f_equal; try lia).
Qed.

(** For a range of at most 256 bytes, which is one chunk, [verify_mem] does
    return the number of addresses of [[start, end]] at which the target
    differs from the reference addressed by absolute address. *)
Lemma verify_mem_single_chunk (src : Z -> Z) (start end_ : Z) (w : world) :
  0 <= start <= end_ -> end_ < 65536 -> end_ - start < 256 ->
  verify_mem start end_ src false w
  = Some (mismatches (bus w) src start end_,
          emit (MemRead Bus start (end_ - start + 1)) w).
Proof.
  intros Hs He Hn. unfold verify_mem. rewrite verify_loop_step.
  destruct (Z.leb_spec start end_) as [_|Hgt]; [|lia].
  rewrite (u32_small (end_ - start + 1)) by lia.
  rewrite (u16_small (end_ - start + 1)) by lia.
  assert (Hlen : (if end_ - start + 1 <? 256 then end_ - start + 1 else 256)
                 = end_ - start + 1).
  { destruct (Z.ltb_spec (end_ - start + 1) 256); lia. }
  cbv zeta. rewrite Hlen.
  assert (Hbuf : mem_read (bus w) start (end_ - start + 1)
                 = map (fun k => bus w (start + Z.of_nat k))
                       (seq 0 (Z.to_nat (end_ - start + 1)))).
  { unfold mem_read. apply map_ext_in. intros k Hk. apply in_seq in Hk.
    rewrite u16_small by lia. reflexivity. }
  rewrite Hbuf.
  rewrite (verify_row_counts (bus w) src start start
             (Z.to_nat (end_ - start + 1)) 0 start 0) by lia.
  rewrite verify_loop_step.
  destruct (Z.leb_spec (start + Z.of_nat (Z.to_nat (end_ - start + 1))) end_)
    as [Hle|_]; [lia|].
  reflexivity.
Qed.

(** C2 (code at the failing input): verifying [0, 0x100] (257 bytes) against
    an all-zero reference when memory holds 1 at 0x100 and 0 elsewhere.  One
    address differs, but the second chunk is read from [start] again
    ([read_mem(start, ...)]), so memory at 0 is compared with the reference
    at 0x100 and the result is 0.  With logging, a mismatch at address
    0x1000 is reported under the address [start + i] = 0x2000. *)
Theorem verify_mem_rereads_first_chunk :
  option_map (fun r => (fst r, reads (trace (snd r))))
             (verify_mem 0 0x100 zero_mem false
                         (mkWorld (mem_one_at 0x100) zero_mem [] [] []))
  = Some (0, [(Bus, 0, 256); (Bus, 0, 1)])
  /\ mismatches (mem_one_at 0x100) zero_mem 0 0x100 = 1
  /\ option_map (fun r => (fst r, trace (snd r)))
                (verify_mem 0x1000 0x1000 (fun _ => 0xbb) true world0)
     = Some (1, [MemRead Bus 0x1000 1;
                 Printf "%04x: expected %02x but read %02x\n"
                        [PInt 0x2000; PInt 0xbb; PInt 0]]).
Proof. split; [|split]; vm_compute; reflexivity. Qed.

(** ** cli_poke *)

(** C9 (code at the failing input): [poke] with no address, the operator
    then typing 12.  After the usage message the handler goes on: it parses
    the null [argv[1]], enters the interactive loop, reads the byte at the
    resulting address and stores 0x12 there. *)
Theorem poke_without_address_goes_on :
  forall null_arg,
    firstn 5 (trace (cli_poke null_arg ["poke"] [line_12] world0))
    = [Printf "usage: poke <start> [value]\n" [];
       Printf
         "enter valid hex to replace; blank to leave unchanged; 'x' to exit.\n"
         [];
       MemRead Bus (Z.land null_arg 0xffff) 1;
       Printf "%04X=%02X : " [PInt (Z.land null_arg 0xffff); PInt 0];
       MemWrite Bus (Z.land null_arg 0xffff) 1]
    /\ bus world0 (Z.land null_arg 0xffff) = 0
    /\ bus (cli_poke null_arg ["poke"] [line_12] world0)
           (Z.land null_arg 0xffff) = 0x12.
Proof.
  intros null_arg. split; [|split].
  - reflexivity.
  - reflexivity.
  - unfold cli_poke.
    change (argc ["poke"] <? 2) with true.
    change (argc ["poke"] =? 3) with false.
    change (strtoul_argv null_arg ["poke"] 1 16) with null_arg.
    cbv iota zeta. generalize (Z.land null_arg 0xffff). intros a.
    cbn [poke_loop read_mem].
    change (strtoul_end line_12 16) with (0x12, true).
    change (blank_line line_12) with false.
    cbv iota zeta. cbn [negb poke_loop read_mem printf_P emit write_mem bus].
    unfold mem_write at 1. cbv zeta.
    rewrite Z.sub_diag. reflexivity.
Qed.

(** ** cli_breakwatch *)

Lemma sentinel_ok : range_ok sentinel.
Proof. right. split; reflexivity. Qed.

Lemma set_nth_ok (r : range) (ranges : list range) :
  range_ok r -> Forall range_ok ranges ->
  forall i, Forall range_ok (set_nth i r ranges).
Proof.
  intros Hr Hall. induction Hall as [|x rest Hx Hrest IH]; intros i.
  - destruct i; constructor.
  - destruct i as [|i]; cbn [set_nth]; constructor; auto.
Qed.

Lemma disable_all_ok names (ranges : list range) :
  Forall range_ok ranges -> Forall range_ok (disable_all names ranges).
Proof.
  unfold disable_all. generalize (seq 0 (DEBUGCNT names)). intros idx.
  revert ranges. induction idx as [|i idx IH]; intros ranges H; cbn [fold_left].
  - exact H.
  - apply IH. apply set_nth_ok; [apply sentinel_ok | exact H].
Qed.

(** After "off" every range of the registry is the sentinel. *)
Lemma disable_all_sentinel names (ranges : list range) :
  List.length ranges = DEBUGCNT names ->
  Forall (fun r => r = sentinel) (disable_all names ranges).
Proof.
  unfold disable_all. generalize (DEBUGCNT names). intros n Hlen.
  assert (Hgen : forall k (pre post : list range),
             List.length post = k ->
             Forall (fun r => r = sentinel) pre ->
             Forall (fun r => r = sentinel)
                    (fold_left (fun rs i => set_nth i sentinel rs)
                               (seq (List.length pre) k) (pre ++ post))).
  { induction k as [|k IH]; intros pre post Hk Hpre.
    - destruct post; [|discriminate]. rewrite app_nil_r. exact Hpre.
    - destruct post as [|x post]; [discriminate|]. cbn [seq fold_left].
      replace (set_nth (List.length pre) sentinel (pre ++ x :: post))
        with ((pre ++ [sentinel]) ++ post).
      + replace (S (List.length pre)) with (List.length (pre ++ [sentinel]))
          by (rewrite length_app; cbn; lia).
        apply IH; [cbn in Hk; lia|].
        apply Forall_app. split; [exact Hpre | repeat constructor].
      + rewrite <- app_assoc. cbn [app]. clear.
        induction pre as [|p pre IHp]; cbn [app List.length set_nth];
          [reflexivity | f_equal; exact IHp]. }
  apply (Hgen n [] ranges Hlen). constructor.
Qed.

Lemma show_status_registry names ranges :
  forall w,
    breaks (show_status names ranges w) = breaks w
    /\ watches (show_status names ranges w) = watches w.
Proof.
  unfold show_status. generalize (seq 0 (DEBUGCNT names)). intros idx.
  induction idx as [|i idx IH]; intros w; cbn [fold_left]; [auto|].
  match goal with
  | |- context [fold_left _ idx ?w'] => destruct (IH w') as [Hb Hw]
  end.
  rewrite Hb, Hw. destruct (negb (ENABLED ranges i)); auto.
Qed.

Lemma store_ok is_break rs w :
  Forall range_ok rs -> registry_ok w -> registry_ok (store is_break rs w).
Proof.
  intros Hrs [Hb Hw]. unfold store, registry_ok.
  destruct is_break; cbn [breaks watches]; auto.
Qed.

Lemma selected_ok (is_break : bool) w :
  registry_ok w -> Forall range_ok (if is_break then breaks w else watches w).
Proof. intros [Hb Hw]. destruct is_break; assumption. Qed.

(** One registry command keeps every range ordered or the sentinel, unless
    it is a set command whose start lies above its end. *)
Lemma cli_breakwatch_ok names argv w :
  registry_ok w ->
  inverted_request argv = false ->
  registry_ok (cli_breakwatch names argv w).
Proof.
  intros Hok Hinv. unfold cli_breakwatch.
  set (is_break := String.eqb (arg argv 0) "break").
  pose proof (selected_ok is_break w Hok) as Hsel.
  destruct (argc argv =? 1).
  { cbv zeta. unfold printf_P, emit, registry_ok. cbn [breaks watches].
    destruct (show_status_registry names
                (if is_break then breaks w else watches w)
                (mkWorld (bus w) (vram w) (breaks w) (watches w)
                   (trace w ++ [Printf "%s status:\n" [PStr (arg argv 0)]])))
      as [Hb Hw].
    rewrite Hb, Hw. exact Hok. }
  unfold inverted_request in Hinv.
  destruct (String.eqb (arg argv 1) "off").
  { apply store_ok; [apply disable_all_ok; exact Hsel | exact Hok]. }
  cbv zeta. destruct (Nat.eqb _ _).
  { exact Hok. }
  destruct (argc argv =? 2).
  { apply store_ok; [|exact Hok].
    apply set_nth_ok; [left; cbn; lia | exact Hsel]. }
  destruct (3 <=? argc argv); [|exact Hok].
  destruct (String.eqb (arg argv 2) "off").
  { apply store_ok; [|exact Hok].
    apply set_nth_ok; [apply sentinel_ok | exact Hsel]. }
  apply store_ok; [|exact Hok]. apply set_nth_ok; [|exact Hsel].
  left. cbn [r_start r_end].
  destruct (4 <=? argc argv); [|lia].
  cbn [andb negb] in Hinv. apply Z.ltb_ge in Hinv. exact Hinv.
Qed.

(** A set command with an end address stores the two addresses as given,
    whatever their order, for every table of class names and every class in
    it. *)
Lemma breakwatch_set_stores_pair names cls s e w :
  String.eqb cls "off" = false ->
  String.eqb s "off" = false ->
  (find_type names cls 0 < DEBUGCNT names)%nat ->
  breaks (cli_breakwatch names ["break"; cls; s; e] w)
  = set_nth (find_type names cls 0)
            (mkRange (u16 (strtoul s 16)) (u16 (strtoul e 16))) (breaks w).
Proof.
  intros Hcls Hs Htype. unfold cli_breakwatch, arg, argc.
  cbn [nth List.length]. rewrite Hcls, Hs.
  change (String.eqb "break" "break") with true.
  change (Z.of_nat 4 =? 1) with false. change (Z.of_nat 4 =? 2) with false.
  change (3 <=? Z.of_nat 4) with true. change (4 <=? Z.of_nat 4) with true.
  cbv iota zeta.
  destruct (Nat.eqb_spec (find_type names cls 0) (DEBUGCNT names)) as [E|_];
    [lia | reflexivity].
Qed.

(** The examples of the specification: [break memrd 100], with no end
    address, gives the range [0x100, 0x100]; after [break off] every class
    of the break registry is the sentinel and is shown as disabled. *)
Lemma breakwatch_examples :
  breaks (cli_breakwatch ["memrd"; "memwr"] ["break"; "memrd"; "100"]
                         all_disabled)
  = [mkRange 0x100 0x100; sentinel]
  /\ breaks (run_breakwatch ["memrd"; "memwr"]
                [["break"; "memwr"; "4000"; "7fff"]; ["break"; "off"]]
                all_disabled)
     = [sentinel; sentinel]
  /\ show_status ["memrd"; "memwr"] [sentinel; sentinel] world0
     = mkWorld zero_mem zero_mem [] []
         [Printf "\t%S\tdisabled\n" [PStr "memrd"];
          Printf "\t%S\tdisabled\n" [PStr "memwr"]].
Proof. split; [|split]; vm_compute; reflexivity. Qed.

(** The registry keeps the low 16 bits of each address: [break memrd 20
    10010] stores start 0x20 and end 0x10, an inverted pair, although 0x20
    is below 0x10010; [break memrd 10010 20] stores start 0x10 and end
    0x20.  [inverted_request] goes by the stored values. *)
Lemma breakwatch_stores_low_16_bits :
  breaks (cli_breakwatch ["memrd"; "memwr"]
                         ["break"; "memrd"; "20"; "10010"] all_disabled)
  = [mkRange 0x20 0x10; sentinel]
  /\ inverted_request ["break"; "memrd"; "20"; "10010"] = true
  /\ breaks (cli_breakwatch ["memrd"; "memwr"]
                            ["break"; "memrd"; "10010"; "20"] all_disabled)
     = [mkRange 0x10 0x20; sentinel]
  /\ inverted_request ["break"; "memrd"; "10010"; "20"] = false.
Proof. split; [|split; [|split]]; vm_compute; reflexivity. Qed.

(** For addresses that fit in 16 bits the stored values are the values
    given, and [inverted_request] compares these. *)
Lemma inverted_request_within_16_bits (argv : list string) :
  0 <= strtoul (arg argv 2) 16 < 65536 ->
  0 <= strtoul (arg argv 3) 16 < 65536 ->
  inverted_request argv =
  (4 <=? argc argv)
  && negb (String.eqb (arg argv 1) "off")
  && negb (String.eqb (arg argv 2) "off")
  && (strtoul (arg argv 3) 16 <? strtoul (arg argv 2) 16).
Proof.
  intros Hs He. unfold inverted_request.
  rewrite (u16_small _ Hs), (u16_small _ He). reflexivity.
Qed.

(** C5 (counterexample): from a registry with every range disabled,
    [break memrd 200 100] stores the pair start = 0x200, end = 0x100, which
    is inverted and is not the sentinel. *)
Lemma breakwatch_stores_inverted_pair :
  registry_ok all_disabled
  /\ breaks (cli_breakwatch ["memrd"; "memwr"]
                            ["break"; "memrd"; "200"; "100"] all_disabled)
     = [mkRange 0x200 0x100; sentinel]
  /\ ~ registry_ok (cli_breakwatch ["memrd"; "memwr"]
                                   ["break"; "memrd"; "200"; "100"]
                                   all_disabled).
Proof.
  split; [|split].
  - split; repeat constructor; apply sentinel_ok.
  - vm_compute. reflexivity.
  - intros [Hb _].
    change (breaks (cli_breakwatch ["memrd"; "memwr"]
                      ["break"; "memrd"; "200"; "100"] all_disabled))
      with [mkRange 0x200 0x100; sentinel] in Hb.
    inversion Hb as [|x l Hx Hl]; subst.
    destruct Hx as [Hle | [Hs _]]; cbn in *; [lia | discriminate].
Qed.

(** C5 (amended): starting from registries in which every range is ordered
    (start <= end) or the sentinel, after any sequence of registry commands
    (status, disable all, set with or without an end address, disable one
    class, enable all for a class) none of which is a set command with an
    end address whose start, in its low 16 bits, lies above the low 16 bits
    of its end (the two values the registry stores), every breakpoint and
    watchpoint range is ordered or is exactly the sentinel pair. *)
Theorem registry_stays_ordered_or_sentinel :
  forall names cmds w,
    registry_ok w ->
    forallb (fun argv => negb (inverted_request argv)) cmds = true ->
    registry_ok (run_breakwatch names cmds w).
Proof.
  intros names cmds. unfold run_breakwatch.
  induction cmds as [|argv cmds IH]; intros w Hok Hcmds; cbn [fold_left].
  - exact Hok.
  - cbn [forallb] in Hcmds. apply andb_prop in Hcmds as [Hargv Hrest].
    apply IH; [|exact Hrest].
    apply cli_breakwatch_ok; [exact Hok|].
    destruct (inverted_request argv); [discriminate | reflexivity].
Qed.

Lemma all_disabled_ok : registry_ok all_disabled.
Proof. split; repeat constructor; apply sentinel_ok. Qed.

Lemma registry_stays_ordered_or_sentinel_witness :
  registry_ok
    (run_breakwatch ["memrd"; "memwr"]
       [["break"; "memrd"; "100"];
        ["watch"; "memwr"; "100"; "200"];
        ["break"];
        ["watch"; "memrd"];
        ["break"; "memrd"; "off"];
        ["watch"; "off"]]
       all_disabled).
Proof.
  apply registry_stays_ordered_or_sentinel;
    [exact all_disabled_ok | reflexivity].
Defined.

(** ** cli_exec and cli_do *)

Lemma fr_code_inj (a b : FRESULT) : fr_code a = fr_code b -> a = b.
Proof. destruct a, b; cbn; intros H; try reflexivity; discriminate H. Qed.

Lemma fr_is_true (a b : FRESULT) : fr_is a b = true <-> a = b.
Proof.
  unfold fr_is. rewrite Z.eqb_eq. split.
  - apply fr_code_inj.
  - intros ->. reflexivity.
Qed.

(** C8 (counterexample): the operator enters [do autoexec.z8c] and the file
    does not exist.  Nothing is printed, whatever the dispatcher: the
    suppression in [cli_exec] goes by the file name, not by the caller. *)
Lemma do_autoexec_not_found_is_silent :
  f_open fs_empty "autoexec.z8c" = FR_NO_FILE
  /\ (forall dispatch,
        cli_do dispatch fs_empty ["do"; "autoexec.z8c"] world0 = world0)
  /\ trace world0 = [].
Proof. split; [|split]; reflexivity. Qed.

(** What [cli_exec] does when the file does not open. *)
Lemma cli_exec_open_failure dispatch fs filename w :
  fr_is (f_open fs filename) FR_OK = false ->
  cli_exec dispatch fs filename w =
  if fr_is (f_open fs filename) FR_NO_FILE && String.eqb filename AUTOEXEC
  then w
  else printf_P "error opening file: %S\n" [PRes (f_open fs filename)] w.
Proof.
  intros Hfail. unfold cli_exec. rewrite Hfail.
  destruct (fr_is (f_open fs filename) FR_NO_FILE);
    destruct (String.eqb filename AUTOEXEC); reflexivity.
Qed.

(** C8 (amended): when the command file of [do <file>] fails to open, the
    failure is reported with its result code and nothing else is done,
    except in one case, which is silent and leaves everything as it was: the
    file is named autoexec.z8c and the failure is file-not-found.  The
    suppression does not tell the callers apart: [do autoexec.z8c] does
    exactly what the bootstrap attempt of [main] does. *)
Theorem do_open_failure_reported_unless_autoexec_missing :
  forall dispatch fs argv w,
    2 <= argc argv ->
    fr_is (f_open fs (arg argv 1)) FR_OK = false ->
    cli_do dispatch fs argv w =
      (if fr_is (f_open fs (arg argv 1)) FR_NO_FILE
          && String.eqb (arg argv 1) AUTOEXEC
       then w
       else printf_P "error opening file: %S\n"
                     [PRes (f_open fs (arg argv 1))] w)
    /\ cli_do dispatch fs ["do"; AUTOEXEC] w = main_autoexec dispatch fs w.
Proof.
  intros dispatch fs argv w Hargc Hfail. split.
  - unfold cli_do.
    destruct (Z.ltb_spec (argc argv) 2) as [Hlt|_]; [lia|].
    apply cli_exec_open_failure. exact Hfail.
  - reflexivity.
Qed.

Lemma do_open_failure_reported_unless_autoexec_missing_witness :
  cli_do (fun _ w => w) fs_disk_error ["do"; "autoexec.z8c"] world0 =
    (if fr_is (f_open fs_disk_error (arg ["do"; "autoexec.z8c"] 1)) FR_NO_FILE
        && String.eqb (arg ["do"; "autoexec.z8c"] 1) AUTOEXEC
     then world0
     else printf_P "error opening file: %S\n"
                   [PRes (f_open fs_disk_error (arg ["do"; "autoexec.z8c"] 1))]
                   world0)
  /\ cli_do (fun _ w => w) fs_disk_error ["do"; AUTOEXEC] world0
     = main_autoexec (fun _ w => w) fs_disk_error world0.
Proof.
  apply (do_open_failure_reported_unless_autoexec_missing
           (fun _ w => w) fs_disk_error ["do"; "autoexec.z8c"] world0);
    [unfold argc; cbn [List.length]; lia | reflexivity].
Defined.

(** Every open failure of a file with another name is reported, and so is
    every failure of autoexec.z8c other than file-not-found. *)
Lemma cli_exec_reports dispatch fs filename w :
  fr_is (f_open fs filename) FR_OK = false ->
  filename <> AUTOEXEC \/ f_open fs filename <> FR_NO_FILE ->
  trace (cli_exec dispatch fs filename w) =
  trace w ++ [Printf "error opening file: %S\n" [PRes (f_open fs filename)]].
Proof.
  intros Hfail Hcase. rewrite cli_exec_open_failure by exact Hfail.
  destruct (fr_is (f_open fs filename) FR_NO_FILE) eqn:Hno;
    destruct (String.eqb_spec filename AUTOEXEC) as [Hname|Hname];
    try reflexivity.
  apply fr_is_true in Hno. destruct Hcase as [Hc|Hc]; contradiction.
Qed.


(** * Further properties of the handlers *)

(** ** Writing memory *)

(** A write that does not run over the top of the address space changes the
    addresses [addr .. addr + length data - 1] and no other. *)
Lemma mem_write_at (m : mem) (addr : Z) (data : list Z) (a : Z) :
  0 <= addr -> 0 <= a < 65536 ->
  addr + Z.of_nat (List.length data) <= 65536 ->
  mem_write m addr data a =
  if (addr <=? a) && (a <? addr + Z.of_nat (List.length data))
  then nth (Z.to_nat (a - addr)) data 0 else m a.
Proof.
  intros Haddr Ha Hfit. unfold mem_write. cbv zeta.
  destruct (Z.leb_spec addr a) as [Hle|Hgt]; cbn [andb].
  - rewrite (u16_small (a - addr)) by lia.
    destruct (Z.ltb_spec (a - addr) (Z.of_nat (List.length data)));
      destruct (Z.ltb_spec a (addr + Z.of_nat (List.length data)));
      try lia; reflexivity.
  - assert (Hk : u16 (a - addr) = a - addr + 65536).
    { unfold u16. symmetry. apply (Z.mod_unique _ _ (-1)); lia. }
    rewrite Hk.
    destruct (Z.ltb_spec (a - addr + 65536) (Z.of_nat (List.length data)));
      [lia | reflexivity].
Qed.

(** Two writes one after the other are one write of the two pieces, as long
    as together they do not cover an address twice. *)
Lemma mem_write_app (m : mem) (addr : Z) (d1 d2 : list Z) (a : Z) :
  Z.of_nat (List.length d1) + Z.of_nat (List.length d2) <= 65536 ->
  mem_write (mem_write m addr d1) (u16 (addr + Z.of_nat (List.length d1))) d2 a
  = mem_write m addr (d1 ++ d2) a.
Proof.
  intros Hfit. unfold mem_write. cbv zeta. rewrite length_app, Nat2Z.inj_add.
  set (n1 := Z.of_nat (List.length d1)) in *.
  set (n2 := Z.of_nat (List.length d2)) in *.
  assert (Hn1 : 0 <= n1) by (subst n1; lia).
  assert (Hn2 : 0 <= n2) by (subst n2; lia).
  assert (Hk2 : u16 (a - u16 (addr + n1)) = u16 (u16 (a - addr) - n1)).
  { unfold u16. rewrite Zminus_mod_idemp_r, Zminus_mod_idemp_l.
    f_equal. lia. }
  rewrite Hk2. pose proof (u16_range (a - addr)) as Hk.
  set (k := u16 (a - addr)) in *.
  destruct (Z_lt_le_dec k n1) as [Hlt|Hge].
  - assert (E : u16 (k - n1) = k - n1 + 65536).
    { unfold u16. symmetry. apply (Z.mod_unique _ _ (-1)); lia. }
    rewrite E.
    destruct (Z.ltb_spec (k - n1 + 65536) n2); [lia|].
    destruct (Z.ltb_spec k n1); [|lia].
    destruct (Z.ltb_spec k (n1 + n2)); [|lia].
    rewrite app_nth1; [reflexivity|]. subst n1. lia.
  - rewrite (u16_small (k - n1)) by lia.
    destruct (Z.ltb_spec (k - n1) n2).
    + destruct (Z.ltb_spec k (n1 + n2)); [|lia].
      rewrite app_nth2 by (subst n1; lia). f_equal. subst n1. lia.
    + destruct (Z.ltb_spec k n1); [lia|].
      destruct (Z.ltb_spec k (n1 + n2)); [lia | reflexivity].
Qed.

Lemma nth_map_seq (f : nat -> Z) (n i : nat) (d : Z) :
  (i < n)%nat -> nth i (map f (seq 0 n)) d = f i.
Proof.
  intros Hi. rewrite (nth_indep _ d (f 0%nat))
    by (rewrite length_map, length_seq; exact Hi).
  rewrite map_nth, seq_nth by exact Hi. reflexivity.
Qed.

(** What has been written is read back, whatever the address and across the
    top of the address space. *)
Lemma mem_read_write (m : mem) (addr : Z) (data : list Z) :
  Z.of_nat (List.length data) <= 65536 ->
  mem_read (mem_write m addr data) addr (Z.of_nat (List.length data)) = data.
Proof.
  intros Hfit. unfold mem_read. rewrite Nat2Z.id.
  apply nth_ext with (d := 0) (d' := 0).
  - rewrite length_map, length_seq. reflexivity.
  - intros i Hi. rewrite length_map, length_seq in Hi.
    rewrite nth_map_seq by exact Hi.
    unfold mem_write. cbv zeta.
    assert (E : u16 (u16 (addr + Z.of_nat i) - addr) = Z.of_nat i).
    { unfold u16. rewrite Zminus_mod_idemp_l.
      replace (addr + Z.of_nat i - addr) with (Z.of_nat i) by lia.
      apply Z.mod_small. lia. }
    rewrite E. destruct (Z.ltb_spec (Z.of_nat i) (Z.of_nat (List.length data)));
      [|lia].
    rewrite Nat2Z.id. reflexivity.
Qed.

Lemma array_bytes_within (past : Z -> Z) (buf : list Z) (len : Z) :
  len <= Z.of_nat (List.length buf) ->
  array_bytes past buf len = firstn (Z.to_nat len) buf.
Proof.
  intros Hlen. unfold array_bytes.
  apply nth_ext with (d := 0) (d' := 0).
  - rewrite length_map, length_seq, length_firstn. lia.
  - intros i Hi. rewrite length_map, length_seq in Hi.
    rewrite nth_map_seq by exact Hi.
    rewrite nth_firstn.
    destruct (Nat.ltb_spec i (Z.to_nat len)) as [_|Hge]; [|lia].
    destruct (nth_error buf i) as [b|] eqn:E.
    + symmetry. apply nth_error_nth. exact E.
    + apply nth_error_None in E. lia.
Qed.

(** ** cli_fill: what memory holds afterwards *)

Lemma fill_pattern_length (v : string) :
  List.length (fill_pattern v) = 256%nat.
Proof.
  unfold fill_pattern, range256.
  destruct (String.eqb v "asc"); [|destruct (String.eqb v "desc")];
    rewrite !length_map, length_seq; reflexivity.
Qed.

(** The byte at index [k] of the pattern buffer, for each of the three
    modes. *)
Lemma fill_pattern_nth (v : string) (k : Z) :
  0 <= k < 256 ->
  nth (Z.to_nat k) (fill_pattern v) 0 =
  if String.eqb v "asc" then k
  else if String.eqb v "desc" then 255 - k
  else Z.land (strtoul v 16) 0xff.
Proof.
  intros Hk. unfold fill_pattern, range256.
  destruct (String.eqb v "asc"); [|destruct (String.eqb v "desc")];
    rewrite map_map, nth_map_seq by lia; rewrite ?Z2Nat.id by lia;
    try reflexivity; unfold u8; apply Z.mod_small; lia.
Qed.

Lemma mod_256_next (x : Z) : (x - 256) mod 256 = x mod 256.
Proof.
  replace (x - 256) with (x + (-1) * 256) by lia. apply Z_mod_plus_full.
Qed.

Lemma fill_loop_bus_memory past buf end_ :
  List.length buf = 256%nat ->
  end_ < 65536 ->
  forall (q fuel : nat) start w,
    0 <= start ->
    0 <= end_ - start - 256 * Z.of_nat q <= 255 ->
    (q <> 0%nat -> 1 <= end_ - start - 256 * Z.of_nat q) ->
    (q < fuel)%nat ->
    exists w',
      fill_loop past fuel false buf start end_ w = Some w'
      /\ vram w' = vram w /\ breaks w' = breaks w /\ watches w' = watches w
      /\ forall a, 0 <= a < 65536 ->
           bus w' a =
           if (start <=? a) && (a <=? end_)
           then nth (Z.to_nat ((a - start) mod 256)) buf 0
           else bus w a.
Proof.
  intros Hbuf Hend. induction q as [|q IH]; intros fuel start w Hs Hr Hq Hfuel;
    (destruct fuel as [|fuel]; [lia|]); rewrite fill_loop_step;
    rewrite (u16_small (end_ - start)) by lia.
  - destruct (Z.ltb_spec 256 (end_ - start)) as [Hfull|_]; [lia|].
    eexists. split; [reflexivity|]. cbn [write_mem vram breaks watches bus].
    repeat (split; [reflexivity|]). intros a Ha.
    rewrite (u16_small (end_ - start + 1)) by lia.
    rewrite array_bytes_within by lia.
    rewrite mem_write_at by (rewrite ?length_firstn; lia).
    rewrite length_firstn, Hbuf.
    replace (Z.of_nat (Nat.min (Z.to_nat (end_ - start + 1)) 256))
      with (end_ - start + 1) by lia.
    destruct (Z.leb_spec start a); destruct (Z.ltb_spec a (start + (end_ - start + 1)));
      destruct (Z.leb_spec a end_); try lia; cbn [andb]; try reflexivity.
    rewrite Z.mod_small by lia. rewrite nth_firstn.
    destruct (Nat.ltb_spec (Z.to_nat (a - start)) (Z.to_nat (end_ - start + 1)));
      [reflexivity | lia].
  - destruct (Z.ltb_spec 256 (end_ - start)) as [_|Hlast]; [|lia].
    rewrite (u16_small (start + 256)) by lia.
    match goal with
    | |- context [fill_loop past fuel false buf (start + 256) end_ ?w1] =>
        destruct (IH fuel (start + 256) w1)
          as (w' & Hrun & Hv & Hb & Hw & Hmem); [lia | lia | lia | lia |]
    end.
    exists w'. split; [exact Hrun|]. cbn [write_mem vram breaks watches bus] in *.
    repeat (split; [assumption|]). intros a Ha.
    rewrite (Hmem a Ha).
    rewrite array_bytes_within by lia.
    rewrite firstn_all2 by lia.
    rewrite mem_write_at by lia. rewrite Hbuf.
    replace (a - (start + 256)) with (a - start - 256) by lia.
    rewrite mod_256_next.
    destruct (Z.leb_spec (start + 256) a); destruct (Z.leb_spec a end_);
      destruct (Z.leb_spec start a);
      destruct (Z.ltb_spec a (start + Z.of_nat 256));
      try lia; cbn [andb]; try reflexivity.
    rewrite Z.mod_small by lia. reflexivity.
Qed.

(** X1: [fill <start> <end> <value|asc|desc>] on bus memory, with
    start <= end and a distance end - start that is 0 or not a multiple of
    256: afterwards every address [a] of [[start, end]] holds the pattern
    byte of index (a - start) mod 256 (the value itself, the index for asc,
    255 minus the index for desc), every address outside the range holds
    what it held before, and video memory and the debug ranges are
    untouched. *)
Theorem fill_sets_range_and_nothing_else :
  forall past argv w start end_,
    argc argv = 4 ->
    String.eqb (arg argv 0) "tmsfill" = false ->
    start = Z.land (strtoul (arg argv 1) 16) 0xffff ->
    end_ = Z.land (strtoul (arg argv 2) 16) 0xffff ->
    start <= end_ ->
    end_ = start \/ (end_ - start) mod 256 <> 0 ->
    exists w',
      cli_fill past argv w = Some w'
      /\ vram w' = vram w /\ breaks w' = breaks w /\ watches w' = watches w
      /\ forall a, 0 <= a < 65536 ->
           bus w' a =
           if (start <=? a) && (a <=? end_) then
             if String.eqb (arg argv 3) "asc" then (a - start) mod 256
             else if String.eqb (arg argv 3) "desc"
                  then 255 - (a - start) mod 256
                  else Z.land (strtoul (arg argv 3) 16) 0xff
           else bus w a.
Proof.
  intros past argv w start end_ Hargc Htms Hs He Hle Hmod.
  assert (Hsr : 0 <= start < 65536) by (rewrite Hs, land_ffff; apply u16_range).
  assert (Her : 0 <= end_ < 65536) by (rewrite He, land_ffff; apply u16_range).
  unfold cli_fill. rewrite Hargc, Htms. change (negb (4 =? 4)) with false.
  cbv iota zeta. rewrite <- Hs, <- He.
  set (q := Z.to_nat ((end_ - start - 1) / 256)).
  pose proof (Z.div_mod (end_ - start - 1) 256 ltac:(lia)) as Hdm.
  pose proof (Z.mod_pos_bound (end_ - start - 1) 256 ltac:(lia)) as Hmb.
  assert (Hq : end_ - start = 0 /\ q = 0%nat
               \/ 1 <= end_ - start
                  /\ Z.of_nat q = (end_ - start - 1) / 256
                  /\ (end_ - start - 1) mod 256 <> 255).
  { destruct (Z.eq_dec (end_ - start) 0) as [E|NE].
    - left. split; [exact E|]. subst q. rewrite E. reflexivity.
    - right. split; [lia|]. split.
      + subst q. rewrite Z2Nat.id; [reflexivity|]. apply Z.div_pos; lia.
      + intros H255. destruct Hmod as [Heq|Hne]; [lia|]. apply Hne.
        replace (end_ - start) with (end_ - start - 1 + 1) by lia.
        rewrite <- Zplus_mod_idemp_l, H255. reflexivity. }
  assert (Hqb : Z.of_nat q < 256).
  { destruct Hq as [[_ ->]|[_ [-> _]]]; [cbn; lia|].
    apply Z.div_lt_upper_bound; lia. }
  destruct (fill_loop_bus_memory past (fill_pattern (arg argv 3)) end_
              (fill_pattern_length _) ltac:(lia) q 257 start w)
    as (w' & Hrun & Hv & Hb & Hw & Hmem); [lia | | | lia |].
  - destruct Hq as [[E ->]|[H1 [Hq H255]]]; [cbn; lia | lia].
  - destruct Hq as [[E ->]|[H1 [Hq H255]]]; [congruence | lia].
  - exists w'. split; [exact Hrun|]. repeat (split; [assumption|]).
    intros a Ha. rewrite (Hmem a Ha).
    destruct ((start <=? a) && (a <=? end_)); [|reflexivity].
    rewrite fill_pattern_nth by (apply Z.mod_pos_bound; lia). reflexivity.
Qed.

Lemma fill_sets_range_and_nothing_else_witness :
  exists w',
    cli_fill (fun _ => 0) ["fill"; "1000"; "10ff"; "aa"] world0 = Some w'
    /\ vram w' = vram world0 /\ breaks w' = breaks world0
    /\ watches w' = watches world0
    /\ forall a, 0 <= a < 65536 ->
         bus w' a =
         if (0x1000 <=? a) && (a <=? 0x10ff) then
           if String.eqb (arg ["fill"; "1000"; "10ff"; "aa"] 3) "asc"
           then (a - 0x1000) mod 256
           else if String.eqb (arg ["fill"; "1000"; "10ff"; "aa"] 3) "desc"
                then 255 - (a - 0x1000) mod 256
                else Z.land (strtoul (arg ["fill"; "1000"; "10ff"; "aa"] 3) 16)
                            0xff
         else bus world0 a.
Proof.
  apply (fill_sets_range_and_nothing_else
           (fun _ => 0) ["fill"; "1000"; "10ff"; "aa"] world0 0x1000 0x10ff);
    [reflexivity | reflexivity | reflexivity | reflexivity | lia
    | right; vm_compute; discriminate].
Defined.

(** ** cli_savebin: what the file receives *)

Lemma fwrites_app (a b : list event) :
  fwrites (a ++ b) = fwrites a ++ fwrites b.
Proof.
  induction a as [|e a IH]; cbn [app fwrites]; [reflexivity|].
  destruct e; cbn [app]; rewrite ?IH; reflexivity.
Qed.

Lemma file_bytes_failed_write (data : list Z) (fr : FRESULT) :
  fr_is fr FR_OK = false -> file_bytes [FWrite data fr] = [].
Proof. destruct fr; intros H; try reflexivity; discriminate H. Qed.

(** [n] writes are accepted and the next one fails: the file has received
    the first 256 [n] bytes of the range, the failure is the last thing
    reported by the loop, and nothing is read or written after it. *)
Lemma savebin_loop_fails_at fs end_ :
  0 <= end_ < 65535 ->
  forall (n fuel j : nat) start w,
    0 <= start ->
    start + 256 * Z.of_nat n <= end_ ->
    (forall i, (j <= i < j + n)%nat -> f_write fs i = FR_OK) ->
    fr_is (f_write fs (j + n)) FR_OK = false ->
    (n < fuel)%nat ->
    exists w',
      savebin_loop fuel fs j start end_ 256 w = Some w'
      /\ bus w' = bus w /\ vram w' = vram w
      /\ writes (trace w') = writes (trace w)
      /\ file_bytes (trace w') =
         file_bytes (trace w) ++ mem_read (bus w) start (256 * Z.of_nat n)
      /\ List.length (fwrites (trace w')) =
         (List.length (fwrites (trace w)) + n + 1)%nat
      /\ exists pre,
           trace w' =
           pre ++ [Printf "write error: %S\n" [PRes (f_write fs (j + n))]].
Proof.
  intros Hend. induction n as [|n IH];
    intros fuel j start w Hs Hrange Hok Hfail Hfuel;
    (destruct fuel as [|fuel]; [lia|]).
  - rewrite !Nat.add_0_r in Hfail. rewrite !Nat.add_0_r.
    rewrite savebin_loop_write_failure by (try exact Hfail; lia).
    cbv zeta. eexists. split; [reflexivity|].
    cbn [printf_P emit bus vram trace].
    split; [reflexivity|]. split; [reflexivity|]. split; [|split; [|split]].
    + rewrite !writes_app. cbn [writes]. rewrite !app_nil_r. reflexivity.
    + rewrite !file_bytes_app. rewrite (file_bytes_failed_write _ _ Hfail).
      cbn [file_bytes]. change (256 * Z.of_nat 0) with 0.
      change (mem_read (bus w) start 0) with (@nil Z).
      rewrite !app_nil_r. reflexivity.
    + rewrite !fwrites_app. cbn [fwrites]. rewrite !length_app.
      cbn [List.length]. lia.
    + eexists. reflexivity.
  - rewrite savebin_loop_step.
    destruct (Z.leb_spec start end_) as [_|Hgt]; [|lia].
    rewrite (u16_small (end_ - start + 1)) by lia.
    destruct (Z.ltb_spec (end_ - start + 1) 256) as [Hlast|_]; [lia|].
    cbv zeta. rewrite (Hok j) by lia.
    change (negb (fr_is FR_OK FR_OK)) with false. cbv iota.
    rewrite (u16_small (start + 256)) by lia.
    match goal with
    | |- context [savebin_loop fuel fs (S j) (start + 256) end_ 256 ?w2] =>
        destruct (IH fuel (S j) (start + 256) w2)
          as (w' & Hrun & Hb & Hv & Hw & Hf & Hn & pre & Hpre);
          [lia | lia | | | lia |]
    end.
    + intros i Hi. apply Hok. lia.
    + replace (S j + n)%nat with (j + S n)%nat by lia. exact Hfail.
    + exists w'. split; [exact Hrun|]. cbn [emit bus vram trace] in *.
      split; [exact Hb|]. split; [exact Hv|]. split; [|split; [|split]].
      * rewrite Hw, !writes_app. cbn [writes]. rewrite !app_nil_r.
        reflexivity.
      * rewrite Hf, !file_bytes_app. cbn [file_bytes].
        rewrite !app_nil_r, <- app_assoc. f_equal.
        rewrite <- mem_read_app by lia. f_equal. lia.
      * rewrite Hn, !fwrites_app. cbn [fwrites]. rewrite !length_app.
        cbn [List.length]. lia.
      * exists pre. rewrite Hpre.
        replace (S j + n)%nat with (j + S n)%nat by lia. reflexivity.
Qed.

(** X2: [savebin <start> <end> <file>] with start <= end < 0xffff, on a
    filesystem that accepts every call: the command returns, the file has
    received exactly the end - start + 1 bytes of [[start, end]] in address
    order, and no memory is written. *)
Theorem savebin_file_holds_range :
  forall argv w start end_,
    4 <= argc argv ->
    start = Z.land (strtoul (arg argv 1) 16) 0xffff ->
    end_ = Z.land (strtoul (arg argv 2) 16) 0xffff ->
    start <= end_ < 0xffff ->
    exists w',
      cli_savebin 258 fs_ok argv w = Some w'
      /\ bus w' = bus w
      /\ writes (trace w') = writes (trace w)
      /\ file_bytes (trace w') =
         file_bytes (trace w) ++ mem_read (bus w) start (end_ - start + 1)
      /\ Z.of_nat (List.length (mem_read (bus w) start (end_ - start + 1)))
         = end_ - start + 1.
Proof.
  intros argv w start end_ Hargc Hs He Hrange.
  exact (savebin_saves_range_below_top argv w start end_ Hargc Hs He Hrange).
Qed.

Lemma savebin_file_holds_range_witness :
  exists w',
    cli_savebin 258 fs_ok ["savebin"; "1000"; "12ff"; "f"] world0 = Some w'
    /\ bus w' = bus world0
    /\ writes (trace w') = writes (trace world0)
    /\ file_bytes (trace w') =
       file_bytes (trace world0)
       ++ mem_read (bus world0) 0x1000 (0x12ff - 0x1000 + 1)
    /\ Z.of_nat (List.length (mem_read (bus world0) 0x1000 (0x12ff - 0x1000 + 1)))
       = 0x12ff - 0x1000 + 1.
Proof.
  apply (savebin_file_holds_range ["savebin"; "1000"; "12ff"; "f"] world0
           0x1000 0x12ff);
    [unfold argc; cbn [List.length]; lia | reflexivity | reflexivity | lia].
Defined.



(** X4: [savebin] when the filesystem accepts [n] writes and refuses the
    next one, the range holding more than 256 [n] bytes below 0xffff: the
    command returns after [n] + 1 [f_write] calls, the file has received the
    first 256 [n] bytes of the range and nothing of the refused chunk, the
    failure is reported, and memory is as before. *)
Theorem savebin_write_failure_keeps_earlier_chunks :
  forall fs argv w start end_ (n : nat),
    4 <= argc argv ->
    start = Z.land (strtoul (arg argv 1) 16) 0xffff ->
    end_ = Z.land (strtoul (arg argv 2) 16) 0xffff ->
    end_ < 0xffff ->
    start + 256 * Z.of_nat n <= end_ ->
    fr_is (f_open fs (arg argv 3)) FR_OK = true ->
    (forall i, (i < n)%nat -> f_write fs i = FR_OK) ->
    fr_is (f_write fs n) FR_OK = false ->
    exists w',
      cli_savebin 258 fs argv w = Some w'
      /\ bus w' = bus w /\ vram w' = vram w
      /\ writes (trace w') = writes (trace w)
      /\ file_bytes (trace w') =
         file_bytes (trace w) ++ mem_read (bus w) start (256 * Z.of_nat n)
      /\ List.length (fwrites (trace w')) =
         (List.length (fwrites (trace w)) + n + 1)%nat
      /\ In (Printf "write error: %S\n" [PRes (f_write fs n)]) (trace w').
Proof.
  intros fs argv w start end_ n Hargc Hs He Hend Hrange Hopen Hok Hfail.
  assert (Hsr : 0 <= start < 65536) by (rewrite Hs, land_ffff; apply u16_range).
  assert (Her : 0 <= end_ < 65536) by (rewrite He, land_ffff; apply u16_range).
  unfold cli_savebin.
  destruct (Z.ltb_spec (argc argv) 4) as [Hlt|_]; [lia|].
  rewrite <- Hs, <- He. cbv zeta. rewrite Hopen.
  destruct (savebin_loop_fails_at fs end_ ltac:(lia) n 258 0 start w)
    as (w' & Hrun & Hb & Hv & Hw & Hf & Hn & pre & Hpre);
    [lia | lia | intros i Hi; apply Hok; lia | exact Hfail | lia |].
  rewrite Hrun. cbn [Nat.add] in Hpre.
  destruct (negb (fr_is (f_close fs (arg argv 3)) FR_OK));
    eexists; (split; [reflexivity|]); cbn [printf_P emit bus vram trace];
    (split; [exact Hb|]); (split; [exact Hv|]).
  - rewrite writes_app, file_bytes_app, fwrites_app. cbn [writes file_bytes fwrites].
    rewrite !app_nil_r. repeat (split; [assumption|]).
    apply in_or_app. left. rewrite Hpre. apply in_or_app. right. left.
    reflexivity.
  - repeat (split; [assumption|]).
    rewrite Hpre. apply in_or_app. right. left. reflexivity.
Qed.

Lemma savebin_write_failure_keeps_earlier_chunks_witness :
  exists w',
    cli_savebin 258 fs_second_write_denied
                ["savebin"; "1000"; "12ff"; "f"] world0 = Some w'
    /\ bus w' = bus world0 /\ vram w' = vram world0
    /\ writes (trace w') = writes (trace world0)
    /\ file_bytes (trace w') =
       file_bytes (trace world0)
       ++ mem_read (bus world0) 0x1000 (256 * Z.of_nat 1)
    /\ List.length (fwrites (trace w')) =
       (List.length (fwrites (trace world0)) + 1 + 1)%nat
    /\ In (Printf "write error: %S\n" [PRes (f_write fs_second_write_denied 1)])
          (trace w').
Proof.
  apply (savebin_write_failure_keeps_earlier_chunks
           fs_second_write_denied ["savebin"; "1000"; "12ff"; "f"] world0
           0x1000 0x12ff 1);
    [ unfold argc; cbn [List.length]; lia | reflexivity | reflexivity | lia
    | vm_compute; discriminate | reflexivity
    | intros i Hi; destruct i as [|i]; [reflexivity | lia]
    | reflexivity ].
Defined.

(** ** verify_mem on a single chunk *)

Lemma filter_count_zero {A : Type} (f : A -> bool) (l : list A) :
  List.length (filter f l) = 0%nat <-> forall x, In x l -> f x = false.
Proof.
  induction l as [|y l IH]; cbn [filter].
  - split; [intros _ x [] | reflexivity].
  - destruct (f y) eqn:Hy.
    + split; [discriminate|]. intros H.
      rewrite (H y (or_introl eq_refl)) in Hy. discriminate.
    + rewrite IH. split.
      * intros H x [<-|Hx]; [exact Hy | apply H; exact Hx].
      * intros H x Hx. apply H. right. exact Hx.
Qed.

Lemma mismatches_zero (m : mem) (src : Z -> Z) (start end_ : Z) :
  start <= end_ ->
  mismatches m src start end_ = 0
  <-> forall a, start <= a <= end_ -> m a = src a.
Proof.
  intros Hle. unfold mismatches.
  rewrite <- Nat2Z.inj_0, Nat2Z.inj_iff, filter_count_zero. split.
  - intros H a Ha.
    assert (Hin : In a (map (fun k => start + Z.of_nat k)
                            (seq 0 (Z.to_nat (end_ - start + 1))))).
    { apply in_map_iff. exists (Z.to_nat (a - start)). split; [lia|].
      apply in_seq. lia. }
    apply H in Hin. apply negb_false_iff, Z.eqb_eq in Hin. exact Hin.
  - intros H a Ha. apply in_map_iff in Ha as (k & <- & Hk).
    apply in_seq in Hk. apply negb_false_iff, Z.eqb_eq. apply H. lia.
Qed.

(** X5: [verify_mem] over a range of at most 256 bytes, without logging:
    it reads the range once, returns the number of addresses of
    [[start, end]] at which bus memory differs from the reference byte
    [src[a]], and that number is 0 exactly when memory and reference agree
    on the whole range. *)
Theorem verify_mem_counts_single_chunk :
  forall (src : Z -> Z) start end_ w,
    0 <= start <= end_ -> end_ < 65536 -> end_ - start < 256 ->
    exists n w',
      verify_mem start end_ src false w = Some (n, w')
      /\ n = mismatches (bus w) src start end_
      /\ (n = 0 <-> forall a, start <= a <= end_ -> bus w a = src a)
      /\ trace w' = trace w ++ [MemRead Bus start (end_ - start + 1)]
      /\ bus w' = bus w.
Proof.
  intros src start end_ w Hs He Hn.
  rewrite verify_mem_single_chunk by assumption.
  eexists. eexists. split; [reflexivity|]. split; [reflexivity|].
  split; [apply mismatches_zero; lia|]. split; reflexivity.
Qed.

Lemma verify_mem_counts_single_chunk_witness :
  exists n w',
    verify_mem 0x1000 0x10ff (fun _ => 0xaa) false world0 = Some (n, w')
    /\ n = mismatches (bus world0) (fun _ => 0xaa) 0x1000 0x10ff
    /\ (n = 0 <->
        forall a, 0x1000 <= a <= 0x10ff -> bus world0 a = (fun _ => 0xaa) a)
    /\ trace w' = trace world0 ++ [MemRead Bus 0x1000 (0x10ff - 0x1000 + 1)]
    /\ bus w' = bus world0.
Proof.
  apply (verify_mem_counts_single_chunk (fun _ => 0xaa) 0x1000 0x10ff world0);
    lia.
Defined.

(** ** cli_dump: what it leaves alone, and its edges *)

Lemma quiet_refl (w : world) : quiet w w.
Proof. repeat split. Qed.

Lemma quiet_trans (w1 w2 w3 : world) : quiet w1 w2 -> quiet w2 w3 -> quiet w1 w3.
Proof.
  intros (A1 & A2 & A3 & A4 & A5) (B1 & B2 & B3 & B4 & B5).
  repeat split; congruence.
Qed.

Lemma quiet_printf fmt args (w : world) : quiet w (printf_P fmt args w).
Proof.
  unfold quiet, printf_P, emit. cbn [bus vram breaks watches trace].
  rewrite writes_app. cbn [writes]. rewrite app_nil_r. repeat split.
Qed.

Lemma quiet_read t addr len (w : world) : quiet w (emit (MemRead t addr len) w).
Proof.
  unfold quiet, emit. cbn [bus vram breaks watches trace].
  rewrite writes_app. cbn [writes]. rewrite app_nil_r. repeat split.
Qed.

Lemma dump_hex_quiet buf : forall j w, quiet w (dump_hex buf j w).
Proof.
  induction buf as [|b r IH]; intros j w; cbn [dump_hex].
  - apply quiet_refl.
  - eapply quiet_trans; [|apply IH].
    destruct (j mod 4 =? 3).
    + eapply quiet_trans; apply quiet_printf.
    + apply quiet_printf.
Qed.

Lemma dump_ascii_quiet buf : forall i w, quiet w (snd (dump_ascii buf i w)).
Proof.
  induction buf as [|b r IH]; intros i w; cbn [dump_ascii snd].
  - apply quiet_refl.
  - eapply quiet_trans; [|apply IH].
    destruct ((0x20 <=? b) && (b <=? 0x7e)); apply quiet_printf.
Qed.

Lemma dump_loop_quiet tms end_ :
  forall fuel i w w',
    dump_loop fuel tms i end_ w = Some w' -> quiet w w'.
Proof.
  induction fuel as [|fuel IH]; intros i w w' H; cbn [dump_loop] in H.
  - discriminate.
  - destruct (i <=? end_).
    + set (w1 := printf_P "%04X   " [PInt i] w) in *.
      assert (Hrd : exists buf t,
                 (if tms then tms_read (u16 i) 16 w1
                  else read_mem (u16 i) 16 w1)
                 = (buf, emit (MemRead t (u16 i) 16) w1)).
      { destruct tms; eexists; eexists; reflexivity. }
      destruct Hrd as (buf & t & Hrd). rewrite Hrd in H.
      pose proof (dump_ascii_quiet buf i
                    (printf_P " " [] (dump_hex buf 0
                       (emit (MemRead t (u16 i) 16) w1)))) as Hq.
      destruct (dump_ascii buf i _) as [i1 w5]. cbn [snd] in Hq.
      apply IH in H.
      eapply quiet_trans; [apply quiet_printf|]. fold w1.
      eapply quiet_trans; [apply quiet_read|].
      eapply quiet_trans; [apply dump_hex_quiet|].
      eapply quiet_trans; [apply quiet_printf|].
      eapply quiet_trans; [exact Hq|].
      eapply quiet_trans; [apply quiet_printf | exact H].
    + injection H as <-. apply quiet_refl.
Qed.

(** X6: [dump] and [tmsdump], whatever their arguments, return and are
    read-only: bus memory, video memory and both debug registries are as
    before, and no write call is issued. *)
Theorem dump_is_read_only :
  forall argv w,
    exists w', cli_dump argv w = Some w' /\ quiet w w'.
Proof.
  intros argv w. destruct (cli_dump_returns argv w) as [w' Hrun].
  exists w'. split; [exact Hrun|].
  unfold cli_dump in Hrun. destruct (argc argv <? 2).
  - injection Hrun as <-. apply quiet_printf.
  - cbv zeta in Hrun. apply dump_loop_quiet in Hrun.
    eapply quiet_trans; [apply quiet_printf | exact Hrun].
Qed.

Lemma dump_loop_exit fuel tms i end_ w :
  end_ < i -> dump_loop (S fuel) tms i end_ w = Some w.
Proof.
  intros H. cbn [dump_loop].
  destruct (Z.leb_spec i end_) as [Hle|_]; [lia | reflexivity].
Qed.

(** X7: [dump <start> <end>] with start above end prints the heading line
    and nothing else: no row, no read of the target. *)
Theorem dump_inverted_range_shows_nothing :
  forall argv w start end_,
    3 <= argc argv ->
    start = Z.land (strtoul (arg argv 1) 16) 0xffff ->
    end_ = Z.land (strtoul (arg argv 2) 16) 0xffff ->
    end_ < start ->
    cli_dump argv w = Some (printf_P "%04x-%04x\n" [PInt start; PInt end_] w).
Proof.
  intros argv w start end_ Hargc Hs He Hinv. unfold cli_dump.
  destruct (Z.ltb_spec (argc argv) 2) as [Hlt|_]; [lia|].
  destruct (Z.ltb_spec (argc argv) 3) as [Hlt|_]; [lia|]. cbv zeta.
  rewrite <- Hs, <- He. rewrite dump_loop_exit by lia. reflexivity.
Qed.

Lemma dump_inverted_range_shows_nothing_witness :
  cli_dump ["dump"; "20"; "10"] world0
  = Some (printf_P "%04x-%04x\n" [PInt 0x20; PInt 0x10] world0).
Proof.
  apply (dump_inverted_range_shows_nothing ["dump"; "20"; "10"] world0 0x20 0x10);
    [unfold argc; cbn [List.length]; lia | reflexivity | reflexivity | lia].
Defined.

(** X8: [dump <start>] with no end address takes end = start + 0xff in 16
    bits.  From a start of at most 0xff00 it reads and shows exactly the 16
    rows (256 bytes) from [start]; from a start above 0xff00 the end wraps
    below the start (to start - 0xff01) and only the heading line is
    printed. *)
Theorem dump_default_end :
  forall argv w start,
    argc argv = 2 ->
    start = Z.land (strtoul (arg argv 1) 16) 0xffff ->
    (start <= 0xff00 ->
     exists w',
       cli_dump argv w = Some w'
       /\ reads (trace w') =
          reads (trace w)
          ++ map (fun k => (dump_target (String.eqb (arg argv 0) "tmsdump"),
                            start + 16 * Z.of_nat k, 16))
                 (seq 0 16)
       /\ shown_hex (trace w') =
          shown_hex (trace w)
          ++ mem_read (dump_mem (String.eqb (arg argv 0) "tmsdump") w)
                      start 256)
    /\ (0xff00 < start ->
        cli_dump argv w
        = Some (printf_P "%04x-%04x\n" [PInt start; PInt (start - 0xff01)] w)).
Proof.
  intros argv w start Hargc Hs.
  assert (Hsr : 0 <= start < 65536) by (rewrite Hs, land_ffff; apply u16_range).
  unfold cli_dump. rewrite Hargc.
  change (2 <? 2) with false. change (2 <? 3) with true. cbv iota zeta.
  rewrite <- Hs. split.
  - intros Hlow. rewrite (u16_small (start + 0xff)) by lia.
    set (w1 := printf_P "%04x-%04x\n" [PInt start; PInt (start + 0xff)] w).
    destruct (dump_loop_rows (String.eqb (arg argv 0) "tmsdump") (start + 0xff)
                ltac:(lia) 16 4097 start w1)
      as (w' & Hrun & _ & _ & Hr & Hsh); [lia | lia | lia | lia |].
    exists w'. split; [exact Hrun|]. split.
    + rewrite Hr. subst w1. cbn [printf_P emit trace].
      rewrite reads_app. cbn [reads]. rewrite app_nil_r. reflexivity.
    + rewrite Hsh. subst w1. cbn [printf_P emit trace].
      rewrite shown_hex_app. cbn [shown_hex]. rewrite app_nil_r. reflexivity.
  - intros Hhigh.
    assert (E : u16 (start + 0xff) = start - 0xff01).
    { unfold u16. symmetry. apply (Z.mod_unique _ _ 1); lia. }
    rewrite E. rewrite dump_loop_exit by lia. reflexivity.
Qed.

Lemma dump_default_end_witness :
  (0xff80 <= 0xff00 ->
   exists w',
     cli_dump ["dump"; "ff80"] world0 = Some w'
     /\ reads (trace w') =
        reads (trace world0)
        ++ map (fun k => (dump_target
                            (String.eqb (arg ["dump"; "ff80"] 0) "tmsdump"),
                          0xff80 + 16 * Z.of_nat k, 16))
               (seq 0 16)
     /\ shown_hex (trace w') =
        shown_hex (trace world0)
        ++ mem_read (dump_mem (String.eqb (arg ["dump"; "ff80"] 0) "tmsdump")
                              world0)
                    0xff80 256)
  /\ (0xff00 < 0xff80 ->
      cli_dump ["dump"; "ff80"] world0
      = Some (printf_P "%04x-%04x\n" [PInt 0xff80; PInt (0xff80 - 0xff01)]
                       world0)).
Proof.
  apply (dump_default_end ["dump"; "ff80"] world0 0xff80);
    [reflexivity | reflexivity].
Defined.

(** ** cli_baud when a divisor fits *)

(** X9: [baud <uart> <rate>] with a requested rate of at least 19 (the rate
    of the largest divisor at 20 MHz): the command returns, the divisor [d]
    handed to [uart_init] is the smallest one whose rate
    F_CPU / (16 (d + 1)) does not exceed the request, and the rate printed
    is the rate of that divisor. *)
Theorem baud_picks_first_fitting_divisor :
  forall argv w requested,
    argc argv = 3 ->
    requested = u32 (strtoul (arg argv 2) 10) ->
    19 <= requested ->
    exists d,
      cli_baud argv w =
        Some (emit (UartInit (Z.land (strtoul (arg argv 1) 10) 1) d)
                (emit UartFlush
                   (printf_P "UART %u: requested: %lu, actual: %lu\n"
                      [PInt (Z.land (strtoul (arg argv 1) 10) 1);
                       PInt requested; PInt (rate_of d)] w)))
      /\ 0 <= d < 65536
      /\ rate_of d <= requested
      /\ forall d', 0 <= d' < d -> requested < rate_of d'.
Proof.
  intros argv w requested Hargc Hreq Hmin. unfold cli_baud.
  rewrite Hargc. change (negb (3 =? 3)) with false. cbv iota zeta.
  rewrite <- Hreq.
  destruct (baud_search_total requested) as [[d a] Hr]. rewrite Hr.
  destruct (baud_search_result requested d a Hr)
    as [(Ha & Hrate & Hd & Hfirst) | (Ha & _ & Hrate & Hall)].
  - exists d. subst a. repeat split; try lia. exact Hfirst.
  - exfalso. assert (H19 : rate_of 65535 = 19) by (vm_compute; reflexivity).
    specialize (Hall 65535 ltac:(lia)). lia.
Qed.

Lemma baud_picks_first_fitting_divisor_witness :
  exists d,
    cli_baud ["baud"; "0"; "9600"] world0 =
      Some (emit (UartInit (Z.land (strtoul (arg ["baud"; "0"; "9600"] 1) 10) 1) d)
              (emit UartFlush
                 (printf_P "UART %u: requested: %lu, actual: %lu\n"
                    [PInt (Z.land (strtoul (arg ["baud"; "0"; "9600"] 1) 10) 1);
                     PInt 9600; PInt (rate_of d)] world0)))
    /\ 0 <= d < 65536
    /\ rate_of d <= 9600
    /\ forall d', 0 <= d' < d -> 9600 < rate_of d'.
Proof.
  apply (baud_picks_first_fitting_divisor ["baud"; "0"; "9600"] world0 9600);
    [reflexivity | reflexivity | lia].
Defined.

(** ** cli_breakwatch: one registry, one slot *)

Lemma set_nth_length (i : nat) (r : range) (l : list range) :
  List.length (set_nth i r l) = List.length l.
Proof.
  revert i. induction l as [|x l IH]; intros [|i]; cbn [set_nth List.length];
    try reflexivity. rewrite IH. reflexivity.
Qed.

Lemma set_nth_same (i : nat) (r : range) (l : list range) (d : range) :
  (i < List.length l)%nat -> nth i (set_nth i r l) d = r.
Proof.
  revert i. induction l as [|x l IH]; intros [|i] Hi; cbn [List.length] in Hi;
    try lia; cbn [set_nth nth]; [reflexivity | apply IH; lia].
Qed.

Lemma set_nth_other (i j : nat) (r : range) (l : list range) (d : range) :
  j <> i -> nth j (set_nth i r l) d = nth j l d.
Proof.
  revert i j. induction l as [|x l IH]; intros [|i] [|j] Hij;
    cbn [set_nth nth]; try reflexivity; try lia.
  apply IH. lia.
Qed.

Lemma set_nth_only_slot (i : nat) (r : range) (l : list range) :
  (i < List.length l)%nat -> only_slot_changed i r l (set_nth i r l).
Proof.
  intros Hi. split; [apply set_nth_length|]. split.
  - apply set_nth_same. exact Hi.
  - intros j Hj. apply set_nth_other. exact Hj.
Qed.

Lemma disable_all_length names (l : list range) :
  List.length (disable_all names l) = List.length l.
Proof.
  unfold disable_all. generalize (seq 0 (DEBUGCNT names)). intros idx.
  revert l. induction idx as [|i idx IH]; intros l; cbn [fold_left];
    [reflexivity|]. rewrite IH. apply set_nth_length.
Qed.

(** The search of lines 387-389 ends at the first class named [s], or at
    the count of classes when none has that name. *)
Lemma find_type_spec (names : list string) (s : string) :
  forall t,
    (~ In s names /\ find_type names s t = (t + List.length names)%nat)
    \/ ((t <= find_type names s t < t + List.length names)%nat
        /\ nth (find_type names s t - t) names "" = s).
Proof.
  induction names as [|n names IH]; intros t; cbn [find_type List.length].
  - left. split; [intros [] | lia].
  - destruct (String.eqb_spec s n) as [->|Hne].
    + right. split; [lia|]. rewrite Nat.sub_diag. reflexivity.
    + destruct (IH (S t)) as [[Hnot Hf]|[Hb Hn]].
      * left. split; [|lia]. intros [E|Hin]; [congruence | contradiction].
      * right. split; [lia|].
        replace (find_type names s (S t) - t)%nat
          with (S (find_type names s (S t) - S t)) by lia.
        exact Hn.
Qed.

Lemma show_status_quiet names ranges : forall w, quiet w (show_status names ranges w).
Proof.
  unfold show_status. generalize (seq 0 (DEBUGCNT names)). intros idx.
  induction idx as [|i idx IH]; intros w; cbn [fold_left].
  - apply quiet_refl.
  - eapply quiet_trans; [|apply IH].
    destruct (negb (ENABLED ranges i)); apply quiet_printf.
Qed.

Lemma store_registry (cmd : string) (rs : list range) (w : world) :
  registry_of cmd (store (String.eqb cmd "break") rs w) = rs
  /\ other_registry_of cmd (store (String.eqb cmd "break") rs w)
     = other_registry_of cmd w
  /\ bus (store (String.eqb cmd "break") rs w) = bus w
  /\ vram (store (String.eqb cmd "break") rs w) = vram w
  /\ trace (store (String.eqb cmd "break") rs w) = trace w.
Proof.
  unfold registry_of, other_registry_of, store.
  destruct (String.eqb cmd "break"); cbn; repeat split.
Qed.

(** X10: whatever the arguments, a [break] command leaves the watch
    registry as it was and a [watch] command leaves the break registry as it
    was; neither changes bus or video memory, issues a write, or changes the
    number of ranges of its own registry. *)
Theorem breakwatch_touches_one_registry :
  forall names argv w,
    other_registry_of (arg argv 0) (cli_breakwatch names argv w)
    = other_registry_of (arg argv 0) w
    /\ List.length (registry_of (arg argv 0) (cli_breakwatch names argv w))
       = List.length (registry_of (arg argv 0) w)
    /\ bus (cli_breakwatch names argv w) = bus w
    /\ vram (cli_breakwatch names argv w) = vram w
    /\ writes (trace (cli_breakwatch names argv w)) = writes (trace w).
Proof.
  intros names argv w.
  assert (Hquiet : forall w', quiet w w' ->
            other_registry_of (arg argv 0) w' = other_registry_of (arg argv 0) w
            /\ List.length (registry_of (arg argv 0) w')
               = List.length (registry_of (arg argv 0) w)
            /\ bus w' = bus w /\ vram w' = vram w
            /\ writes (trace w') = writes (trace w)).
  { intros w' (Hb & Hv & Hbr & Hwa & Hwr).
    unfold other_registry_of, registry_of.
    destruct (String.eqb (arg argv 0) "break"); rewrite ?Hbr, ?Hwa; auto. }
  assert (Hstore : forall rs,
            List.length rs = List.length (registry_of (arg argv 0) w) ->
            let w' := store (String.eqb (arg argv 0) "break") rs w in
            other_registry_of (arg argv 0) w' = other_registry_of (arg argv 0) w
            /\ List.length (registry_of (arg argv 0) w')
               = List.length (registry_of (arg argv 0) w)
            /\ bus w' = bus w /\ vram w' = vram w
            /\ writes (trace w') = writes (trace w)).
  { intros rs Hlen w'. subst w'.
    destruct (store_registry (arg argv 0) rs w) as (H1 & H2 & H3 & H4 & H5).
    rewrite H1, H2, H3, H4, H5. auto. }
  unfold cli_breakwatch. fold (registry_of (arg argv 0) w).
  destruct (argc argv =? 1).
  { apply Hquiet. cbv zeta.
    repeat (eapply quiet_trans; [|apply quiet_printf]).
    eapply quiet_trans; [apply quiet_printf | apply show_status_quiet]. }
  destruct (String.eqb (arg argv 1) "off").
  { apply Hstore. apply disable_all_length. }
  cbv zeta. destruct (Nat.eqb _ _).
  { apply Hquiet. apply quiet_printf. }
  destruct (argc argv =? 2); [apply Hstore; apply set_nth_length|].
  destruct (3 <=? argc argv); [|apply Hquiet; apply quiet_refl].
  destruct (String.eqb (arg argv 2) "off"); apply Hstore; apply set_nth_length.
Qed.

(** X11: a [break] or [watch] command naming a class that is not in the
    table of class names (and is not "off") reports "unknown type" and
    changes nothing else. *)
Theorem breakwatch_unknown_class :
  forall names argv w,
    2 <= argc argv ->
    String.eqb (arg argv 1) "off" = false ->
    ~ In (arg argv 1) names ->
    cli_breakwatch names argv w = printf_P "error: unknown type\n" [] w.
Proof.
  intros names argv w Hargc Hoff Hnot. unfold cli_breakwatch.
  destruct (Z.eqb_spec (argc argv) 1) as [E|_]; [lia|].
  rewrite Hoff. cbv zeta.
  destruct (find_type_spec names (arg argv 1) 0) as [[_ Hf]|[Hb Hn]].
  - rewrite Hf. cbn [Nat.add]. unfold DEBUGCNT. rewrite Nat.eqb_refl.
    reflexivity.
  - exfalso. apply Hnot. rewrite <- Hn. apply nth_In. lia.
Qed.

Lemma breakwatch_unknown_class_witness :
  cli_breakwatch ["memrd"; "memwr"] ["break"; "nosuch"; "100"] all_disabled
  = printf_P "error: unknown type\n" [] all_disabled.
Proof.
  apply (breakwatch_unknown_class ["memrd"; "memwr"]
           ["break"; "nosuch"; "100"] all_disabled);
    [ unfold argc; cbn [List.length]; lia | reflexivity
    | intros [H|[H|[]]]; discriminate H ].
Defined.

Lemma Forall_eq_repeat {A : Type} (x : A) (l : list A) :
  Forall (fun y => y = x) l -> l = repeat x (List.length l).
Proof.
  induction 1 as [|y l Hy _ IH]; cbn [List.length repeat]; [reflexivity|].
  rewrite Hy, <- IH. reflexivity.
Qed.

Lemma nth_repeat_same {A : Type} (x : A) (n i : nat) : nth i (repeat x n) x = x.
Proof.
  revert i. induction n as [|n IH]; intros [|i]; cbn [repeat nth];
    try reflexivity. apply IH.
Qed.

Lemma map_nth_seq_id (names : list string) :
  map (fun i => nth i names "") (seq 0 (List.length names)) = names.
Proof.
  induction names as [|n names IH]; cbn [List.length seq map nth];
    [reflexivity|].
  f_equal. rewrite (map_seq_shift (List.length names) _ 1%nat).
  cbn [Nat.add nth]. exact IH.
Qed.

Lemma show_status_all_disabled names ranges :
  (forall i, ENABLED ranges i = false) ->
  forall w,
    trace (show_status names ranges w) =
    trace w ++ map (fun n => Printf "\t%S\tdisabled\n" [PStr n]) names.
Proof.
  intros Hdis w. unfold show_status.
  rewrite <- (map_nth_seq_id names) at 2. rewrite map_map.
  unfold DEBUGCNT. generalize (seq 0 (List.length names)). intros idx.
  revert w. induction idx as [|i idx IH]; intros w; cbn [fold_left map].
  - rewrite app_nil_r. reflexivity.
  - rewrite IH, (Hdis i). cbn [negb printf_P emit trace].
    rewrite <- app_assoc. reflexivity.
Qed.

Lemma breakwatch_off_unfold names cmd w :
  cli_breakwatch names [cmd; "off"] w
  = store (String.eqb cmd "break") (disable_all names (registry_of cmd w)) w.
Proof. reflexivity. Qed.

(** X12: [break off] (or [watch off]) on a registry of DEBUGCNT ranges:
    every range of that registry becomes the sentinel pair, none is enabled,
    nothing is printed; and the status command that follows lists every
    class as disabled, in table order. *)
Theorem breakwatch_off_then_status :
  forall names cmd w,
    List.length (registry_of cmd w) = DEBUGCNT names ->
    registry_of cmd (cli_breakwatch names [cmd; "off"] w)
    = repeat sentinel (DEBUGCNT names)
    /\ trace (cli_breakwatch names [cmd; "off"] w) = trace w
    /\ (forall i,
          ENABLED (registry_of cmd (cli_breakwatch names [cmd; "off"] w)) i
          = false)
    /\ trace (cli_breakwatch names [cmd]
                (cli_breakwatch names [cmd; "off"] w))
       = trace w
         ++ [Printf "%s status:\n" [PStr cmd]]
         ++ map (fun n => Printf "\t%S\tdisabled\n" [PStr n]) names
         ++ [Printf "\nusage:\n\t%s <type> [start] [end]\n" [PStr cmd];
             Printf "\t%s <type> off to disable type\n" [PStr cmd];
             Printf "\t%s off to disable all\n" [PStr cmd]].
Proof.
  intros names cmd w Hlen. rewrite breakwatch_off_unfold.
  destruct (store_registry cmd (disable_all names (registry_of cmd w)) w)
    as (Hreg & _ & _ & _ & Htr).
  set (w1 := store (String.eqb cmd "break")
                   (disable_all names (registry_of cmd w)) w) in *.
  assert (Hall : registry_of cmd w1 = repeat sentinel (DEBUGCNT names)).
  { rewrite Hreg.
    rewrite (Forall_eq_repeat sentinel _ (disable_all_sentinel names _ Hlen)).
    rewrite disable_all_length, Hlen. reflexivity. }
  assert (Hdis : forall i, ENABLED (registry_of cmd w1) i = false).
  { intros i. unfold ENABLED. rewrite Hall, nth_repeat_same. reflexivity. }
  split; [exact Hall|]. split; [exact Htr|]. split; [exact Hdis|].
  unfold cli_breakwatch. cbn [arg nth].
  change (argc [cmd] =? 1) with true. cbv iota zeta.
  fold (registry_of cmd w1).
  cbn [printf_P emit trace]. rewrite show_status_all_disabled by exact Hdis.
  cbn [printf_P emit trace]. rewrite Htr, <- !app_assoc. reflexivity.
Qed.

Lemma breakwatch_off_then_status_witness :
  registry_of "break"
    (cli_breakwatch ["memrd"; "memwr"] ["break"; "off"] all_disabled)
  = repeat sentinel (DEBUGCNT ["memrd"; "memwr"])
  /\ trace (cli_breakwatch ["memrd"; "memwr"] ["break"; "off"] all_disabled)
     = trace all_disabled
  /\ (forall i,
        ENABLED (registry_of "break"
                   (cli_breakwatch ["memrd"; "memwr"] ["break"; "off"]
                                   all_disabled)) i
        = false)
  /\ trace (cli_breakwatch ["memrd"; "memwr"] ["break"]
              (cli_breakwatch ["memrd"; "memwr"] ["break"; "off"] all_disabled))
     = trace all_disabled
       ++ [Printf "%s status:\n" [PStr "break"]]
       ++ map (fun n => Printf "\t%S\tdisabled\n" [PStr n]) ["memrd"; "memwr"]
       ++ [Printf "\nusage:\n\t%s <type> [start] [end]\n" [PStr "break"];
           Printf "\t%s <type> off to disable type\n" [PStr "break"];
           Printf "\t%s off to disable all\n" [PStr "break"]].
Proof.
  apply (breakwatch_off_then_status ["memrd"; "memwr"] "break" all_disabled).
  reflexivity.
Defined.

Lemma breakwatch_class_unfold names cmd cls rest w :
  String.eqb cls "off" = false ->
  (find_type names cls 0 < DEBUGCNT names)%nat ->
  cli_breakwatch names (cmd :: cls :: rest) w
  = store (String.eqb cmd "break")
      (set_nth (find_type names cls 0)
         (match rest with
          | [] => mkRange 0 0xffff
          | a :: rest' =>
              if String.eqb a "off" then sentinel
              else mkRange (u16 (strtoul a 16))
                     (match rest' with
                      | [] => u16 (strtoul a 16)
                      | b :: _ => u16 (strtoul b 16)
                      end)
          end)
         (registry_of cmd w)) w.
Proof.
  intros Hcls Htype. unfold cli_breakwatch, registry_of.
  cbn [arg nth]. rewrite Hcls. cbv zeta.
  destruct (Nat.eqb_spec (find_type names cls 0) (DEBUGCNT names)) as [E|_];
    [lia|].
  assert (H1 : (argc (cmd :: cls :: rest) =? 1) = false).
  { apply Z.eqb_neq. unfold argc. cbn [List.length]. lia. }
  rewrite H1. destruct rest as [|a rest'].
  - reflexivity.
  - assert (H2 : (argc (cmd :: cls :: a :: rest') =? 2) = false).
    { apply Z.eqb_neq. unfold argc. cbn [List.length]. lia. }
    assert (H3 : (3 <=? argc (cmd :: cls :: a :: rest')) = true).
    { apply Z.leb_le. unfold argc. cbn [List.length]. lia. }
    rewrite H2, H3. cbn [nth].
    destruct (String.eqb a "off"); [reflexivity|].
    destruct rest' as [|b rest''].
    + reflexivity.
    + assert (H4 : (4 <=? argc (cmd :: cls :: a :: b :: rest'')) = true).
      { apply Z.leb_le. unfold argc. cbn [List.length]. lia. }
      rewrite H4. reflexivity.
Qed.

(** X13: a [break] or [watch] command on a class of the table (other than
    "off") changes the slot of the first class with that name and no other
    slot of its registry: with no address the slot becomes [0, 0xffff]; with
    one address [a] it becomes the single address [a, a] (16 bits of the
    hexadecimal value); with "off" it becomes the sentinel; with two
    addresses it becomes the pair as given. *)
Theorem breakwatch_sets_one_slot :
  forall names cmd cls w,
    String.eqb cls "off" = false ->
    (find_type names cls 0 < DEBUGCNT names)%nat ->
    (find_type names cls 0 < List.length (registry_of cmd w))%nat ->
    nth (find_type names cls 0) names "" = cls
    /\ only_slot_changed (find_type names cls 0) (mkRange 0 0xffff)
         (registry_of cmd w)
         (registry_of cmd (cli_breakwatch names [cmd; cls] w))
    /\ only_slot_changed (find_type names cls 0) sentinel
         (registry_of cmd w)
         (registry_of cmd (cli_breakwatch names [cmd; cls; "off"] w))
    /\ (forall a,
          String.eqb a "off" = false ->
          only_slot_changed (find_type names cls 0)
            (mkRange (u16 (strtoul a 16)) (u16 (strtoul a 16)))
            (registry_of cmd w)
            (registry_of cmd (cli_breakwatch names [cmd; cls; a] w)))
    /\ (forall a b,
          String.eqb a "off" = false ->
          only_slot_changed (find_type names cls 0)
            (mkRange (u16 (strtoul a 16)) (u16 (strtoul b 16)))
            (registry_of cmd w)
            (registry_of cmd (cli_breakwatch names [cmd; cls; a; b] w))).
Proof.
  intros names cmd cls w Hcls Htype Hlen. split.
  - destruct (find_type_spec names cls 0) as [[_ Hf]|[_ Hn]].
    + unfold DEBUGCNT in Htype. lia.
    + rewrite Nat.sub_0_r in Hn. exact Hn.
  - repeat split; intros;
      rewrite breakwatch_class_unfold by assumption;
      match goal with
      | |- context [store _ ?rs w] =>
          destruct (store_registry cmd rs w) as (-> & _)
      end;
      rewrite ?set_nth_length; cbn [String.eqb];
      try match goal with H : String.eqb _ "off" = false |- _ => rewrite H end;
      try reflexivity;
      try (apply set_nth_same; assumption);
      try (apply set_nth_other; assumption).
Qed.

Lemma breakwatch_sets_one_slot_witness :
  nth (find_type ["memrd"; "memwr"] "memwr" 0) ["memrd"; "memwr"] "" = "memwr"
  /\ only_slot_changed (find_type ["memrd"; "memwr"] "memwr" 0)
       (mkRange 0 0xffff)
       (registry_of "watch" all_disabled)
       (registry_of "watch"
          (cli_breakwatch ["memrd"; "memwr"] ["watch"; "memwr"] all_disabled))
  /\ only_slot_changed (find_type ["memrd"; "memwr"] "memwr" 0) sentinel
       (registry_of "watch" all_disabled)
       (registry_of "watch"
          (cli_breakwatch ["memrd"; "memwr"] ["watch"; "memwr"; "off"]
                          all_disabled))
  /\ (forall a,
        String.eqb a "off" = false ->
        only_slot_changed (find_type ["memrd"; "memwr"] "memwr" 0)
          (mkRange (u16 (strtoul a 16)) (u16 (strtoul a 16)))
          (registry_of "watch" all_disabled)
          (registry_of "watch"
             (cli_breakwatch ["memrd"; "memwr"] ["watch"; "memwr"; a]
                             all_disabled)))
  /\ (forall a b,
        String.eqb a "off" = false ->
        only_slot_changed (find_type ["memrd"; "memwr"] "memwr" 0)
          (mkRange (u16 (strtoul a 16)) (u16 (strtoul b 16)))
          (registry_of "watch" all_disabled)
          (registry_of "watch"
             (cli_breakwatch ["memrd"; "memwr"] ["watch"; "memwr"; a; b]
                             all_disabled))).
Proof.
  apply (breakwatch_sets_one_slot ["memrd"; "memwr"] "watch" "memwr"
           all_disabled);
    [reflexivity | cbn; lia | cbn; lia].
Defined.

(** ** cli_poke *)

Lemma poke_loop_nil (addr : Z) (w : world) :
  poke_loop [] addr w
  = printf_P "%04X=%02X : "
             [PInt addr; PInt (nth 0 (mem_read (bus w) addr 1) 0)]
             (emit (MemRead Bus addr 1) w).
Proof. reflexivity. Qed.

Lemma poke_loop_cons (buf : string) (rest : list string) (addr : Z) (w : world) :
  poke_loop (buf :: rest) addr w
  = if blank_line buf then poke_loop rest (u16 (addr + 1)) (poke_loop [] addr w)
    else if negb (snd (strtoul_end buf 16)) then poke_loop [] addr w
    else poke_loop rest (u16 (addr + 1))
           (write_mem addr [u8 (fst (strtoul_end buf 16))] 1
              (poke_loop [] addr w)).
Proof.
  rewrite poke_loop_nil. cbn [poke_loop read_mem].
  destruct (strtoul_end buf 16) as [v converted]. reflexivity.
Qed.

Lemma strtoul_argv_present (null_arg : Z) (argv : list string) (k : nat) :
  (k < List.length argv)%nat ->
  strtoul_argv null_arg argv k 16 = strtoul (arg argv k) 16.
Proof.
  intros Hk. unfold strtoul_argv, arg.
  rewrite (nth_error_nth' argv "" Hk). reflexivity.
Qed.



Lemma poke_loop_nil_quiet (addr : Z) (w : world) : quiet w (poke_loop [] addr w).
Proof.
  rewrite poke_loop_nil.
  eapply quiet_trans; [apply quiet_read | apply quiet_printf].
Qed.

(** Hexadecimal lines only: one byte is stored per line, at consecutive
    addresses from [addr] on. *)
Lemma poke_loop_hex_lines (lines : list string) :
  forall addr w,
    Forall (fun l => hex_line l = true) lines ->
    Z.of_nat (List.length lines) <= 65536 ->
    vram (poke_loop lines addr w) = vram w
    /\ (forall a,
          bus (poke_loop lines addr w) a
          = mem_write (bus w) addr
                      (map (fun l => u8 (strtoul l 16)) lines) a)
    /\ List.length (writes (trace (poke_loop lines addr w)))
       = (List.length (writes (trace w)) + List.length lines)%nat.
Proof.
  induction lines as [|l rest IH]; intros addr w Hhex Hlen.
  - destruct (poke_loop_nil_quiet addr w) as (Hb & Hv & _ & _ & Hw).
    rewrite Hv, Hw. split; [reflexivity|]. split; [|cbn [List.length]; lia].
    intros a. rewrite Hb. unfold mem_write. cbn [map List.length]. cbv zeta.
    destruct (Z.ltb_spec (u16 (a - addr)) (Z.of_nat 0)) as [Hlt|_];
      [pose proof (u16_range (a - addr)); lia | reflexivity].
  - inversion Hhex as [|x xs Hl Hrest]; subst.
    unfold hex_line in Hl. apply andb_prop in Hl as [Hnb Hconv].
    apply negb_true_iff in Hnb.
    rewrite poke_loop_cons, Hnb, Hconv. cbn [negb].
    cbn [List.length] in Hlen.
    destruct (poke_loop_nil_quiet addr w) as (Hb & Hv & _ & _ & Hw).
    set (w2 := poke_loop [] addr w) in *.
    destruct (IH (u16 (addr + 1))
                 (write_mem addr [u8 (fst (strtoul_end l 16))] 1 w2)
                 Hrest ltac:(lia)) as (Hv' & Hb' & Hw').
    split; [|split].
    + rewrite Hv'. cbn [write_mem vram]. exact Hv.
    + intros a. rewrite Hb'. cbn [write_mem bus map].
      change (fst (strtoul_end l 16)) with (strtoul l 16).
      pose proof (mem_write_app (bus w2) addr [u8 (strtoul l 16)]
                    (map (fun l0 => u8 (strtoul l0 16)) rest) a) as E.
      cbn [List.length app] in E. change (Z.of_nat 1) with 1 in E.
      rewrite E by (rewrite length_map; lia).
      rewrite Hb. reflexivity.
    + rewrite Hw'. cbn [write_mem trace]. rewrite writes_app.
      cbn [writes]. rewrite length_app, Hw. cbn [List.length]. lia.
Qed.

(** X15: interactive [poke <addr>] fed hexadecimal lines until the input
    ends, the bytes fitting below the top of the address space: one write is
    issued per line, the byte at [addr + k] becomes the low 8 bits of the
    value of line [k], and every other address of bus memory and all of video
    memory are as before. *)
Theorem poke_interactive_stores_consecutive_bytes :
  forall null_arg argv lines w addr,
    argc argv = 2 ->
    addr = Z.land (strtoul (arg argv 1) 16) 0xffff ->
    Forall (fun l => hex_line l = true) lines ->
    addr + Z.of_nat (List.length lines) <= 65536 ->
    vram (cli_poke null_arg argv lines w) = vram w
    /\ List.length (writes (trace (cli_poke null_arg argv lines w)))
       = (List.length (writes (trace w)) + List.length lines)%nat
    /\ forall a, 0 <= a < 65536 ->
         bus (cli_poke null_arg argv lines w) a
         = if (addr <=? a) && (a <? addr + Z.of_nat (List.length lines))
           then u8 (strtoul (nth (Z.to_nat (a - addr)) lines "") 16)
           else bus w a.
Proof.
  intros null_arg argv lines w addr Hargc Haddr Hhex Hfit.
  assert (Hlen : List.length argv = 2%nat) by (unfold argc in Hargc; lia).
  assert (Har : 0 <= addr < 65536)
    by (rewrite Haddr, land_ffff; apply u16_range).
  unfold cli_poke. rewrite Hargc.
  change (2 <? 2) with false. change (2 =? 3) with false. cbv iota zeta.
  rewrite strtoul_argv_present by lia. rewrite <- Haddr.
  match goal with
  | |- context [poke_loop lines addr ?w2] =>
      destruct (poke_loop_hex_lines lines addr w2 Hhex ltac:(lia))
        as (Hv & Hb & Hw);
      pose proof (quiet_printf
        "enter valid hex to replace; blank to leave unchanged; 'x' to exit.\n"
        [] w) as (Qb & Qv & _ & _ & Qw)
  end.
  split; [rewrite Hv; exact Qv|]. split; [rewrite Hw, Qw; reflexivity|].
  intros a Ha. rewrite Hb, Qb.
  rewrite mem_write_at by (rewrite ?length_map; lia).
  rewrite length_map.
  destruct ((addr <=? a) && (a <? addr + Z.of_nat (List.length lines))) eqn:Hin;
    [|reflexivity].
  apply andb_prop in Hin as [H1 H2]. apply Z.leb_le in H1. apply Z.ltb_lt in H2.
  rewrite (nth_indep _ 0 (u8 (strtoul "" 16))) by (rewrite length_map; lia).
  apply (map_nth (fun l => u8 (strtoul l 16))).
Qed.


Lemma poke_interactive_stores_consecutive_bytes_witness :
  vram (cli_poke 0 ["poke"; "8000"] [line_12; line_12] world0) = vram world0
  /\ List.length
       (writes (trace (cli_poke 0 ["poke"; "8000"] [line_12; line_12] world0)))
     = (List.length (writes (trace world0))
        + List.length [line_12; line_12])%nat
  /\ forall a, 0 <= a < 65536 ->
       bus (cli_poke 0 ["poke"; "8000"] [line_12; line_12] world0) a
       = if (0x8000 <=? a)
            && (a <? 0x8000 + Z.of_nat (List.length [line_12; line_12]))
         then u8 (strtoul (nth (Z.to_nat (a - 0x8000)) [line_12; line_12] "") 16)
         else bus world0 a.
Proof.
  apply (poke_interactive_stores_consecutive_bytes
           0 ["poke"; "8000"] [line_12; line_12] world0 0x8000);
    [ reflexivity | reflexivity
    | repeat constructor | cbn [List.length]; lia ].
Defined.

Lemma poke_loop_stops_at_exit_line (pre : list string) :
  forall l rest addr w,
    exit_line l = true ->
    poke_loop (pre ++ l :: rest) addr w = poke_loop pre addr w.
Proof.
  induction pre as [|p pre IH]; intros l rest addr w Hexit.
  - cbn [app]. rewrite poke_loop_cons.
    unfold exit_line in Hexit. apply andb_prop in Hexit as [Hnb Hnc].
    apply negb_true_iff in Hnb. rewrite Hnb, Hnc. reflexivity.
  - cbn [app]. rewrite !poke_loop_cons.
    destruct (blank_line p); [apply IH; exact Hexit|].
    destruct (negb (snd (strtoul_end p 16))); [reflexivity|].
    apply IH. exact Hexit.
Qed.

(** X16: in an interactive [poke], a line that is neither blank nor
    hexadecimal (such as "x") ends the command exactly as the end of the
    input would: whatever follows that line is never looked at. *)
Theorem poke_ignores_input_after_exit_line :
  forall null_arg argv pre l rest w,
    exit_line l = true ->
    cli_poke null_arg argv (pre ++ l :: rest) w = cli_poke null_arg argv pre w.
Proof.
  intros null_arg argv pre l rest w Hexit. unfold cli_poke.
  destruct (argc argv =? 3); [reflexivity|]. cbv zeta.
  apply poke_loop_stops_at_exit_line. exact Hexit.
Qed.

Lemma poke_ignores_input_after_exit_line_witness :
  cli_poke 0 ["poke"; "8000"] ([line_12] ++ line_x :: [line_12; line_12]) world0
  = cli_poke 0 ["poke"; "8000"] [line_12] world0.
Proof.
  apply (poke_ignores_input_after_exit_line
           0 ["poke"; "8000"] [line_12] line_x [line_12; line_12] world0).
  reflexivity.
Defined.

Lemma poke_loop_no_hex_quiet (lines : list string) :
  forall addr w,
    Forall (fun l => hex_line l = false) lines ->
    quiet w (poke_loop lines addr w).
Proof.
  induction lines as [|l rest IH]; intros addr w Hno.
  - apply poke_loop_nil_quiet.
  - inversion Hno as [|x xs Hl Hrest]; subst.
    rewrite poke_loop_cons. unfold hex_line in Hl.
    destruct (blank_line l); cbn [negb andb] in Hl.
    + eapply quiet_trans; [apply poke_loop_nil_quiet | apply IH; exact Hrest].
    + rewrite Hl. cbn [negb]. apply poke_loop_nil_quiet.
Qed.

(** X17: an interactive [poke] that is given no hexadecimal line (only
    blank lines, up to an exit line or the end of the input) writes nothing:
    bus memory, video memory and the debug registries are as before. *)
Theorem poke_without_hex_line_writes_nothing :
  forall null_arg argv lines w,
    (argc argv =? 3) = false ->
    Forall (fun l => hex_line l = false) lines ->
    quiet w (cli_poke null_arg argv lines w).
Proof.
  intros null_arg argv lines w Hargc Hno. unfold cli_poke. rewrite Hargc.
  cbv zeta. eapply quiet_trans; [|apply poke_loop_no_hex_quiet; exact Hno].
  eapply quiet_trans; [|apply quiet_printf].
  destruct (argc argv <? 2); [apply quiet_printf | apply quiet_refl].
Qed.

Lemma poke_without_hex_line_writes_nothing_witness :
  quiet world0
        (cli_poke 0 ["poke"; "8000"] [line_blank; line_blank; line_x] world0).
Proof.
  apply (poke_without_hex_line_writes_nothing
           0 ["poke"; "8000"] [line_blank; line_blank; line_x] world0);
    [reflexivity | repeat constructor].
Defined.

(** ** The tokenizer of cli_dispatch *)

Lemma whitespace_not_nul (c : ascii) :
  is_whitespace c = true -> (code c =? 0) = false.
Proof.
  unfold is_whitespace. intros H. apply Z.eqb_neq. intros E.
  rewrite E in H. discriminate H.
Qed.

Lemma skip_delims_whitespace (s r : string) :
  all_whitespace s = true ->
  skip_delims (String.append s r) = skip_delims r.
Proof.
  induction s as [|c s IH]; intros H; [reflexivity|].
  cbn [all_whitespace] in H. apply andb_prop in H as [Hc Hs].
  cbn [String.append skip_delims]. rewrite Hc. apply IH. exact Hs.
Qed.

Lemma skip_delims_all_whitespace (s : string) :
  all_whitespace s = true -> skip_delims s = EmptyString.
Proof.
  induction s as [|c s IH]; intros H; [reflexivity|].
  cbn [all_whitespace] in H. apply andb_prop in H as [Hc Hs].
  cbn [skip_delims]. rewrite Hc. apply IH. exact Hs.
Qed.

(** What is left of [r] once the delimiter that ended a token is consumed. *)
Lemma take_token_app (tok r : string) :
  no_delim tok = true ->
  match r with
  | EmptyString => True
  | String c _ => is_whitespace c = true
  end ->
  take_token (String.append tok r)
  = (tok, match r with EmptyString => EmptyString | String _ r' => r' end).
Proof.
  intros Htok Hr. induction tok as [|a t IH].
  - cbn [String.append]. destruct r as [|c r']; [reflexivity|].
    cbn [take_token]. rewrite Hr. reflexivity.
  - cbn [no_delim] in Htok. apply andb_prop in Htok as [Ha Ht].
    apply andb_prop in Ha as [Hws _]. apply negb_true_iff in Hws.
    cbn [String.append take_token]. rewrite Hws, (IH Ht). reflexivity.
Qed.

Lemma strtok_line (lead tok r : string) :
  all_whitespace lead = true ->
  token_ok tok = true ->
  match r with
  | EmptyString => True
  | String c _ => is_whitespace c = true
  end ->
  strtok (String.append lead (String.append tok r))
  = Some (tok, match r with EmptyString => EmptyString | String _ r' => r' end).
Proof.
  intros Hlead Htok Hr. unfold strtok.
  rewrite skip_delims_whitespace by exact Hlead.
  destruct tok as [|a t]; [discriminate Htok|].
  cbn [token_ok] in Htok. pose proof Htok as Hnd.
  cbn [no_delim] in Htok. apply andb_prop in Htok as [Ha _].
  apply andb_prop in Ha as [Hws _]. apply negb_true_iff in Hws.
  cbn [String.append skip_delims]. rewrite Hws.
  change (String a (String.append t r)) with (String.append (String a t) r).
  rewrite take_token_app by assumption. reflexivity.
Qed.

Lemma tokens_whitespace (n : nat) (s : string) :
  all_whitespace s = true -> tokens n s = [].
Proof.
  intros H. destruct n as [|n]; [reflexivity|].
  cbn [tokens]. unfold strtok. rewrite skip_delims_all_whitespace by exact H.
  reflexivity.
Qed.

Lemma tokens_of_line (rest : list (string * string)) :
  forall lead tok n trail,
    all_whitespace lead = true ->
    token_ok tok = true ->
    forallb (fun it => match fst it with
                       | EmptyString => false
                       | sep => all_whitespace sep
                       end) rest = true ->
    forallb (fun it => token_ok (snd it)) rest = true ->
    all_whitespace trail = true ->
    tokens n (String.append lead (String.append tok (line_of rest trail)))
    = firstn n (tok :: map snd rest).
Proof.
  induction rest as [|[sep' tok'] rest IH];
    intros lead tok n trail Hlead Htok Hseps Htoks Htrail;
    (destruct n as [|n]; [reflexivity|]); cbn [tokens firstn map line_of].
  - rewrite strtok_line; try assumption.
    + f_equal. rewrite tokens_whitespace; [destruct n; reflexivity|].
      destruct trail as [|c t]; [reflexivity|].
      cbn [all_whitespace] in Htrail. apply andb_prop in Htrail as [_ Ht].
      exact Ht.
    + destruct trail as [|c t]; [exact I|].
      cbn [all_whitespace] in Htrail. apply andb_prop in Htrail as [Hc _].
      exact Hc.
  - cbn [forallb fst snd] in Hseps, Htoks.
    apply andb_prop in Hseps as [Hsep Hseps].
    apply andb_prop in Htoks as [Htok' Htoks].
    destruct sep' as [|c s']; [discriminate Hsep|].
    cbn [all_whitespace] in Hsep. apply andb_prop in Hsep as [Hc Hs'].
    cbn [String.append]. rewrite strtok_line; try assumption.
    f_equal. apply IH; assumption.
Qed.

Lemma c_string_whitespace (s r : string) :
  all_whitespace s = true ->
  c_string (String.append s r) = String.append s (c_string r).
Proof.
  induction s as [|c s IH]; intros H; [reflexivity|].
  cbn [all_whitespace] in H. apply andb_prop in H as [Hc Hs].
  cbn [String.append c_string]. rewrite (whitespace_not_nul c Hc), (IH Hs).
  reflexivity.
Qed.

Lemma c_string_token (s r : string) :
  no_delim s = true ->
  c_string (String.append s r) = String.append s (c_string r).
Proof.
  induction s as [|c s IH]; intros H; [reflexivity|].
  cbn [no_delim] in H. apply andb_prop in H as [Hc Hs].
  apply andb_prop in Hc as [_ Hnul]. apply negb_true_iff in Hnul.
  cbn [String.append c_string]. rewrite Hnul, (IH Hs). reflexivity.
Qed.

Lemma token_ok_no_delim (s : string) : token_ok s = true -> no_delim s = true.
Proof. destruct s; [discriminate | exact (fun H => H)]. Qed.

Lemma c_string_line (items : list (string * string)) (trail : string) :
  forallb (fun it => all_whitespace (fst it)) items = true ->
  forallb (fun it => token_ok (snd it)) items = true ->
  all_whitespace trail = true ->
  c_string (line_of items trail) = line_of items trail.
Proof.
  intros Hseps Htoks Htrail. induction items as [|[sep tok] items IH].
  - cbn [line_of]. clear Hseps Htoks.
    induction trail as [|c t IHt]; [reflexivity|].
    cbn [all_whitespace] in Htrail. apply andb_prop in Htrail as [Hc Ht].
    cbn [c_string]. rewrite (whitespace_not_nul c Hc), (IHt Ht). reflexivity.
  - cbn [forallb fst snd] in Hseps, Htoks.
    apply andb_prop in Hseps as [Hsep Hseps].
    apply andb_prop in Htoks as [Htok Htoks].
    cbn [line_of]. rewrite c_string_whitespace by exact Hsep.
    rewrite c_string_token by (apply token_ok_no_delim; exact Htok).
    rewrite (IH Hseps Htoks). reflexivity.
Qed.

Lemma separators_all_whitespace (items : list (string * string)) :
  separators_ok items = true ->
  forallb (fun it => all_whitespace (fst it)) items = true.
Proof.
  destruct items as [|[lead tok] rest]; [reflexivity|].
  cbn [separators_ok forallb fst]. intros H.
  apply andb_prop in H as [Hlead Hrest]. rewrite Hlead. cbn [andb].
  rewrite forallb_forall in *. intros it Hin. specialize (Hrest it Hin).
  destruct (fst it); [discriminate Hrest | exact Hrest].
Qed.

(** The tokens of a well-formed line, whatever white space surrounds
    them. *)
Lemma tokens_of_items (items : list (string * string)) (trail : string)
      (n : nat) :
  separators_ok items = true ->
  forallb (fun it => token_ok (snd it)) items = true ->
  all_whitespace trail = true ->
  tokens n (c_string (line_of items trail)) = firstn n (map snd items).
Proof.
  intros Hseps Htoks Htrail.
  rewrite c_string_line
    by (try apply separators_all_whitespace; assumption).
  destruct items as [|[lead tok] rest].
  - cbn [line_of map]. rewrite tokens_whitespace by exact Htrail.
    destruct n; reflexivity.
  - cbn [separators_ok] in Hseps. apply andb_prop in Hseps as [Hlead Hrest].
    cbn [forallb snd] in Htoks. apply andb_prop in Htoks as [Htok Htoks].
    cbn [line_of map snd]. apply tokens_of_line; assumption.
Qed.

(** X18: a command line made of well-formed tokens (not empty, free of
    white space and NUL), separated by non-empty runs of white space, with
    any white space before the first and after the last, is split by the
    dispatcher's [strtok] loop into exactly those tokens, in order, cut to
    the first [n] (8 in [cli_dispatch]). *)
Theorem tokens_of_command_line :
  forall items trail n,
    separators_ok items = true ->
    forallb (fun it => token_ok (snd it)) items = true ->
    all_whitespace trail = true ->
    tokens n (c_string (line_of items trail)) = firstn n (map snd items).
Proof.
  intros items trail n Hseps Htoks Htrail.
  apply tokens_of_items; assumption.
Qed.

Lemma tokens_of_command_line_witness :
  tokens 8 (c_string (line_of [(" ", "dump"); (" ", "0"); ("  ", "f")]
                              line_blank))
  = firstn 8 (map snd [(" ", "dump"); (" ", "0"); ("  ", "f")]).
Proof.
  apply (tokens_of_command_line [(" ", "dump"); (" ", "0"); ("  ", "f")]
           line_blank 8);
    reflexivity.
Defined.

(** ** cli_dispatch *)

Lemma c_string_nul_free (s : string) : nul_free (c_string s) = true.
Proof.
  induction s as [|c s IH]; [reflexivity|]. cbn [c_string].
  destruct (code c =? 0) eqn:E; [reflexivity|].
  cbn [nul_free]. rewrite E, IH. reflexivity.
Qed.

Lemma skip_delims_nul_free (s : string) :
  nul_free s = true -> nul_free (skip_delims s) = true.
Proof.
  induction s as [|c s IH]; intros H; [reflexivity|].
  cbn [skip_delims]. destruct (is_whitespace c); [|exact H].
  cbn [nul_free] in H. apply andb_prop in H as [_ Hs]. apply IH. exact Hs.
Qed.

Lemma skip_delims_head (s : string) (c : ascii) (r : string) :
  skip_delims s = String c r -> is_whitespace c = false.
Proof.
  induction s as [|a s IH]; intros H; [discriminate H|].
  cbn [skip_delims] in H. destruct (is_whitespace a) eqn:E.
  - apply IH. exact H.
  - injection H as <- _. exact E.
Qed.

Lemma skip_delims_empty (s : string) :
  skip_delims s = EmptyString -> all_whitespace s = true.
Proof.
  induction s as [|a s IH]; intros H; [reflexivity|].
  cbn [skip_delims] in H. cbn [all_whitespace].
  destruct (is_whitespace a); [apply IH; exact H | discriminate H].
Qed.

Lemma take_token_parts (s : string) :
  nul_free s = true ->
  no_delim (fst (take_token s)) = true /\ nul_free (snd (take_token s)) = true.
Proof.
  induction s as [|c s IH]; intros H; [split; reflexivity|].
  cbn [nul_free] in H. apply andb_prop in H as [Hc Hs].
  cbn [take_token]. destruct (is_whitespace c) eqn:E.
  - split; [reflexivity | exact Hs].
  - destruct (IH Hs) as [Ht Hr]. destruct (take_token s) as [t rest].
    cbn [fst snd] in *. split; [|exact Hr].
    cbn [no_delim]. rewrite E, Hc, Ht. reflexivity.
Qed.

Lemma strtok_parts (s t rest : string) :
  nul_free s = true ->
  strtok s = Some (t, rest) ->
  token_ok t = true /\ nul_free rest = true.
Proof.
  intros Hs H. unfold strtok in H.
  pose proof (skip_delims_nul_free s Hs) as Hsk.
  destruct (skip_delims s) as [|c r] eqn:E; [discriminate H|].
  apply skip_delims_head in E.
  destruct (take_token_parts (String c r) Hsk) as [Ht Hr].
  destruct (take_token (String c r)) as [t0 rest0] eqn:Et.
  injection H as <- <-. cbn [fst snd] in Ht, Hr.
  split; [|exact Hr].
  cbn [take_token] in Et. rewrite E in Et.
  destruct (take_token r) as [t' rest']. injection Et as <- _.
  exact Ht.
Qed.

(** Every entry of [argv] is a well-formed token, and there are at most
    [n] of them. *)
Lemma tokens_well_formed (n : nat) :
  forall s,
    nul_free s = true ->
    Forall (fun t => token_ok t = true) (tokens n s)
    /\ (List.length (tokens n s) <= n)%nat.
Proof.
  induction n as [|n IH]; intros s Hs; cbn [tokens].
  - split; [constructor | cbn; lia].
  - destruct (strtok s) as [[t rest]|] eqn:E.
    + destruct (strtok_parts s t rest Hs E) as [Ht Hrest].
      destruct (IH rest Hrest) as [Hall Hlen].
      split; [constructor; assumption | cbn [List.length]; lia].
    + split; [constructor | cbn; lia].
Qed.

Lemma tokens_empty (n : nat) (s : string) :
  tokens (S n) s = [] -> all_whitespace s = true.
Proof.
  cbn [tokens]. unfold strtok. intros H.
  destruct (skip_delims s) eqn:E.
  - apply skip_delims_empty. exact E.
  - destruct (take_token _). discriminate H.
Qed.

(** The search of lines 931-936 ends at the first index whose name is [s],
    or at [i + n] when no name from [i] on is [s]. *)
Lemma find_cmd_spec iorq (s : string) :
  forall n i,
    (find_cmd iorq n i s = (i + n)%nat
     /\ forall j, (i <= j < i + n)%nat ->
                  strlookup (cli_cmd_names iorq) j <> s)
    \/ ((i <= find_cmd iorq n i s < i + n)%nat
        /\ strlookup (cli_cmd_names iorq) (find_cmd iorq n i s) = s).
Proof.
  induction n as [|n IH]; intros i; cbn [find_cmd].
  - left. split; [lia | intros j Hj; lia].
  - destruct (String.eqb_spec s (strlookup (cli_cmd_names iorq) i)) as [E|NE].
    + right. split; [lia | symmetry; exact E].
    + destruct (IH (S i)) as [[Hf Hnone]|[Hb Hs]].
      * left. split; [lia|]. intros j Hj.
        destruct (Nat.eq_dec j i) as [->|Hji]; [congruence|].
        apply Hnone. lia.
      * right. split; [lia | exact Hs].
Qed.

Lemma cmd_tables_aligned iorq :
  List.length (cli_cmd_names iorq) = NUM_CMDS iorq
  /\ List.length (cli_cmd_help iorq) = NUM_CMDS iorq.
Proof. destruct iorq; split; reflexivity. Qed.

(** X19: what [cli_dispatch] does with any buffer, whatever the handlers
    do.  Either the line is blank (white space only, up to the first NUL)
    and nothing happens; or its first token is not a command name and only
    "unknown command" is printed; or its first token is the name at some
    index [i] of the name table and the handler at index [i] of the function
    table is called, once, with [argv] made of that name and at most 7 more
    tokens, each a non-empty string free of white space. *)
Theorem dispatch_cases :
  forall iorq call buf w,
    (all_whitespace (c_string buf) = true
     /\ cli_dispatch iorq call buf w = w)
    \/ (exists argv0 args,
          tokens MAXARGS (c_string buf) = argv0 :: args
          /\ ~ In argv0 (cli_cmd_names iorq)
          /\ cli_dispatch iorq call buf w
             = printf_P "unknown command: %s. type help for list.\n"
                        [PStr argv0] w)
    \/ (exists i args,
          (i < NUM_CMDS iorq)%nat
          /\ tokens MAXARGS (c_string buf)
             = strlookup (cli_cmd_names iorq) i :: args
          /\ Forall (fun t => token_ok t = true) args
          /\ (List.length args < MAXARGS)%nat
          /\ cli_dispatch iorq call buf w
             = call (nth i (cli_cmd_functions iorq) h_help)
                    (strlookup (cli_cmd_names iorq) i :: args) w).
Proof.
  intros iorq call buf w. unfold cli_dispatch.
  destruct (tokens_well_formed MAXARGS (c_string buf) (c_string_nul_free buf))
    as [Hall Hlen].
  destruct (tokens MAXARGS (c_string buf)) as [|argv0 args] eqn:Htok.
  - left. split; [|reflexivity]. apply (tokens_empty 7). exact Htok.
  - right. cbv zeta.
    destruct (find_cmd_spec iorq argv0 (NUM_CMDS iorq) 0)
      as [[Hf Hnone]|[Hb Hs]].
    + left. exists argv0, args. split; [reflexivity|]. split.
      * intros Hin. apply (In_nth _ _ "") in Hin as (j & Hj & Hnth).
        destruct (cmd_tables_aligned iorq) as [Hn _].
        apply (Hnone j); [lia | exact Hnth].
      * rewrite Hf. cbn [Nat.add]. rewrite Nat.eqb_refl. reflexivity.
    + right. exists (find_cmd iorq (NUM_CMDS iorq) 0 argv0), args.
      split; [lia|]. rewrite Hs. split; [reflexivity|].
      inversion Hall as [|x l Hx Hl]; subst.
      split; [exact Hl|]. cbn [List.length] in Hlen. split; [lia|].
      destruct (Nat.eqb_spec (find_cmd iorq (NUM_CMDS iorq) 0 argv0)
                             (NUM_CMDS iorq)) as [E|_]; [lia | reflexivity].
Qed.

(** X20: a blank line (empty, or white space only up to its first NUL) is
    not dispatched: no handler is called, nothing is printed, nothing
    changes. *)
Theorem dispatch_blank_line :
  forall iorq call buf w,
    all_whitespace (c_string buf) = true ->
    cli_dispatch iorq call buf w = w.
Proof.
  intros iorq call buf w H. unfold cli_dispatch.
  rewrite tokens_whitespace by exact H. reflexivity.
Qed.

Lemma dispatch_blank_line_witness :
  cli_dispatch false (fun _ _ w => emit UartFlush w)
               (String.append "  " line_blank) world0
  = world0.
Proof.
  apply (dispatch_blank_line false (fun _ _ w => emit UartFlush w)
           (String.append "  " line_blank) world0).
  reflexivity.
Defined.

(** Every name of the table is a well-formed token, and the search finds it
    at its own index: no name occurs twice. *)
Lemma cmd_names_found iorq (i : nat) :
  (i < NUM_CMDS iorq)%nat ->
  token_ok (strlookup (cli_cmd_names iorq) i) = true
  /\ find_cmd iorq (NUM_CMDS iorq) 0 (strlookup (cli_cmd_names iorq) i) = i.
Proof.
  intros Hi. destruct iorq.
  - do 35 (destruct i as [|i]; [split; reflexivity|]).
    exfalso. change (NUM_CMDS true) with 35%nat in Hi. lia.
  - do 30 (destruct i as [|i]; [split; reflexivity|]).
    exfalso. change (NUM_CMDS false) with 30%nat in Hi. lia.
Qed.

(** X21: in both builds (with and without IORQ_OUTPUT) the three tables have
    the same number of entries, and typing the name at index [i] of the name
    table, followed by any arguments, calls the handler at index [i] of the
    function table with [argv] holding the name and the arguments, cut to 8
    entries. *)
Theorem dispatch_reaches_every_command :
  forall iorq call i lead items trail w,
    (i < NUM_CMDS iorq)%nat ->
    separators_ok ((lead, strlookup (cli_cmd_names iorq) i) :: items) = true ->
    forallb (fun it => token_ok (snd it)) items = true ->
    all_whitespace trail = true ->
    List.length (cli_cmd_names iorq) = NUM_CMDS iorq
    /\ List.length (cli_cmd_help iorq) = NUM_CMDS iorq
    /\ cli_dispatch iorq call
         (line_of ((lead, strlookup (cli_cmd_names iorq) i) :: items) trail) w
       = call (nth i (cli_cmd_functions iorq) h_help)
              (firstn MAXARGS
                 (strlookup (cli_cmd_names iorq) i :: map snd items)) w.
Proof.
  intros iorq call i lead items trail w Hi Hseps Htoks Htrail.
  destruct (cmd_tables_aligned iorq) as [Hn Hh].
  split; [exact Hn|]. split; [exact Hh|].
  destruct (cmd_names_found iorq i Hi) as [Hname Hfind].
  unfold cli_dispatch.
  rewrite tokens_of_items;
    [ | exact Hseps | cbn [forallb snd]; rewrite Hname; exact Htoks
      | exact Htrail ].
  cbn [map snd MAXARGS firstn]. cbv zeta. rewrite Hfind.
  destruct (Nat.eqb_spec i (NUM_CMDS iorq)) as [E|_]; [lia | reflexivity].
Qed.

Lemma dispatch_reaches_every_command_witness :
  List.length (cli_cmd_names false) = NUM_CMDS false
  /\ List.length (cli_cmd_help false) = NUM_CMDS false
  /\ cli_dispatch false (fun _ _ w => w)
       (line_of (("", strlookup (cli_cmd_names false) 12)
                   :: [(" ", "0"); (" ", "f")]) line_blank) world0
     = (fun _ _ w => w) (nth 12 (cli_cmd_functions false) h_help)
         (firstn MAXARGS
            (strlookup (cli_cmd_names false) 12
               :: map snd [(" ", "0"); (" ", "f")])) world0.
Proof.
  apply (dispatch_reaches_every_command false (fun _ _ w => w) 12 ""
           [(" ", "0"); (" ", "f")] line_blank world0);
    [cbv; lia | reflexivity | reflexivity | reflexivity].
Defined.

(** ** Loading a binary file *)

Lemma firstn_plus (A : Type) (a b : nat) (l : list A) :
  firstn (a + b) l = firstn a l ++ firstn b (skipn a l).
Proof.
  revert l. induction a as [|a IH]; intros l; [reflexivity|].
  destruct l as [|x l]; cbn [Nat.add firstn skipn app].
  - rewrite firstn_nil. reflexivity.
  - rewrite IH. reflexivity.
Qed.

Lemma firstn_firstn_le (A : Type) (a b : nat) (l : list A) :
  (a <= b)%nat -> firstn a (firstn b l) = firstn a l.
Proof.
  intros H. rewrite firstn_firstn. f_equal. lia.
Qed.

(** One round of the loop on a successful read, for the two memory
    targets. *)
Lemma loadbin_loop_step iorq fw src fuel k flash tms rest start len w :
  fr_is (b_read src k) FR_OK = true ->
  iorq && flash = false ->
  loadbin_loop iorq fw src (S fuel) k flash tms rest start len w =
  let chunk := firstn 256 rest in
  let br0 := Z.of_nat (List.length chunk) in
  let br := if len <? br0 then len else br0 in
  let data := firstn (Z.to_nat br) chunk in
  let w1 := if tms then tms_write start data br w
            else write_mem start data br w in
  if br <? 256 then Some (b_read src k, w1)
  else loadbin_loop iorq fw src fuel (S k) flash tms (skipn 256 rest)
                    (u16 (start + br)) (u32 (len - br)) w1.
Proof.
  intros Hr Hf. cbn [loadbin_loop]. rewrite Hr, Hf. reflexivity.
Qed.


(** The loop with [len] bytes still wanted and [rest] left in the file:
    it ends, and has stored the first [len] bytes of [rest] (all of [rest]
    when it is shorter) at [start] in the target memory, and nothing
    else. *)
Lemma loadbin_loop_loads iorq fw src flash tms :
  (forall j, fr_is (b_read src j) FR_OK = true) ->
  iorq && flash = false ->
  forall n fuel k rest start len w,
    0 <= len <= 256 * Z.of_nat n -> len <= 65536 -> (n < fuel)%nat ->
    exists fr w',
      loadbin_loop iorq fw src fuel k flash tms rest start len w
        = Some (fr, w')
      /\ fr_is fr FR_OK = true
      /\ (forall a, dump_mem tms w' a =
                    mem_write (dump_mem tms w) start
                              (firstn (Z.to_nat len) rest) a)
      /\ dump_mem (negb tms) w' = dump_mem (negb tms) w
      /\ breaks w' = breaks w /\ watches w' = watches w
      /\ total_len (writes (trace w')) =
         total_len (writes (trace w))
         + Z.of_nat (List.length (firstn (Z.to_nat len) rest))
      /\ forallb (on_target (dump_target tms)) (writes (trace w')) =
         forallb (on_target (dump_target tms)) (writes (trace w)).
Proof.
  intros Hread Hflash n.
  induction n as [|n IH]; intros fuel k rest start len w Hlen H64 Hfuel;
    (destruct fuel as [|fuel]; [lia|]);
    rewrite loadbin_loop_step by (auto using Hread); cbv zeta.
  - assert (len = 0) by lia. subst len.
    assert (Hbr : (if 0 <? Z.of_nat (List.length (firstn 256 rest))
                   then 0 else Z.of_nat (List.length (firstn 256 rest))) = 0).
    { destruct (Z.ltb_spec 0 (Z.of_nat (List.length (firstn 256 rest))));
        lia. }
    rewrite Hbr. change (0 <? 256) with true. cbv iota.
    change (Z.to_nat 0) with 0%nat. cbn [firstn List.length].
    eexists _, _. split; [reflexivity|]. split; [apply Hread|].
    destruct tms; cbn [dump_mem negb tms_write write_mem bus vram breaks
                       watches trace dump_target];
      rewrite writes_app, total_len_app, forallb_app;
      cbn [writes total_len fold_right call_len snd forallb on_target fst];
      (split; [intros a; unfold mem_write; cbn [List.length];
               change (Z.of_nat 0) with 0;
               pose proof (u16_range (a - start));
               destruct (Z.ltb_spec (u16 (a - start)) 0); [lia|reflexivity]|]);
      (split; [reflexivity|]); (split; [reflexivity|]);
      (split; [reflexivity|]); (split; [lia|]);
      rewrite andb_true_r; reflexivity.
  - set (chunk := firstn 256 rest).
    assert (Hc : (List.length chunk <= 256)%nat)
      by (subst chunk; rewrite length_firstn; lia).
    destruct (Z.ltb_spec len (Z.of_nat (List.length chunk))) as [Hlt|Hge].
    + (* fewer bytes wanted than read: the last chunk, cut to len *)
      destruct (Z.ltb_spec len 256) as [_|?]; [|lia].
      assert (Hd : firstn (Z.to_nat len) chunk = firstn (Z.to_nat len) rest).
      { subst chunk. apply firstn_firstn_le. lia. }
      rewrite Hd.
      assert (Hn : Z.of_nat (List.length (firstn (Z.to_nat len) rest)) = len).
      { assert (Hcl : List.length chunk = Nat.min 256 (List.length rest))
          by (subst chunk; apply length_firstn).
        rewrite length_firstn. lia. }
      eexists _, _. split; [reflexivity|]. split; [apply Hread|].
      destruct tms; cbn [dump_mem negb tms_write write_mem bus vram breaks
                         watches trace dump_target];
        rewrite writes_app, total_len_app, forallb_app;
        cbn [writes total_len fold_right call_len snd forallb on_target fst];
        (split; [intros a; reflexivity|]);
        (split; [reflexivity|]); (split; [reflexivity|]);
        (split; [reflexivity|]);
        (split; [rewrite Hn; lia|]);
        rewrite andb_true_r; reflexivity.
    + rewrite Nat2Z.id. rewrite firstn_all.
      destruct (Z.ltb_spec (Z.of_nat (List.length chunk)) 256) as [Hshort|Hfull].
      * (* the file ends in this chunk *)
        assert (Hrest : chunk = rest).
        { subst chunk. apply firstn_all2.
          rewrite length_firstn in Hshort. lia. }
        assert (Hd : firstn (Z.to_nat len) rest = chunk).
        { rewrite Hrest in Hge |- *. apply firstn_all2. lia. }
        rewrite Hd.
        eexists _, _. split; [reflexivity|]. split; [apply Hread|].
        destruct tms; cbn [dump_mem negb tms_write write_mem bus vram breaks
                           watches trace dump_target];
          rewrite writes_app, total_len_app, forallb_app;
          cbn [writes total_len fold_right call_len snd forallb on_target fst];
          (split; [intros a; reflexivity|]);
          (split; [reflexivity|]); (split; [reflexivity|]);
          (split; [reflexivity|]); (split; [lia|]);
          rewrite andb_true_r; reflexivity.
      * (* a full chunk: go round again *)
        assert (Hl : List.length chunk = 256%nat) by lia.
        rewrite Hl. change (Z.of_nat 256) with 256 in *.
        rewrite (u32_small (len - 256)) by lia.
        set (w1 := if tms then tms_write start chunk 256 w
                   else write_mem start chunk 256 w).
        destruct (IH fuel (S k) (skipn 256 rest) (u16 (start + 256))
                     (len - 256) w1) as (fr & w' & Hrun & Hfr & Hm & Ho & Hb
                                         & Hw & Ht & Hf); [lia|lia|lia|].
        exists fr, w'. split; [exact Hrun|]. split; [exact Hfr|].
        assert (Hsplit : firstn (Z.to_nat len) rest =
                         chunk ++ firstn (Z.to_nat (len - 256))
                                         (skipn 256 rest)).
        { replace (Z.to_nat len) with (256 + Z.to_nat (len - 256))%nat by lia.
          apply firstn_plus. }
        split; [|split; [|split; [|split; [|split]]]].
        -- intros a. rewrite Hm, Hsplit.
           rewrite <- (mem_write_app (dump_mem tms w) start chunk _ a).
           ++ rewrite Hl. change (Z.of_nat 256) with 256.
              subst w1. destruct tms; reflexivity.
           ++ rewrite Hl, length_firstn. lia.
        -- rewrite Ho. subst w1. destruct tms; reflexivity.
        -- rewrite Hb. subst w1. destruct tms; reflexivity.
        -- rewrite Hw. subst w1. destruct tms; reflexivity.
        -- rewrite Ht, Hsplit, length_app, Hl.
           subst w1.
           destruct tms; cbn [tms_write write_mem trace];
             rewrite writes_app, total_len_app;
             cbn [writes total_len fold_right call_len snd]; lia.
        -- rewrite Hf. subst w1.
           destruct tms; cbn [tms_write write_mem trace dump_target];
             rewrite writes_app, forallb_app;
             cbn [writes forallb on_target fst];
             rewrite andb_true_r; reflexivity.
Qed.

Lemma mem_read_ext (m m' : mem) (addr len : Z) :
  (forall a, m a = m' a) -> mem_read m addr len = mem_read m' addr len.
Proof.
  intros H. unfold mem_read. apply map_ext. intros k. apply H.
Qed.

Lemma loadbin_len_range (argv : list string) :
  0 <= (if 5 <=? argc argv
        then Z.land (strtoul (arg argv 4) 16) 0xffff else 0x10000) <= 65536.
Proof.
  destruct (5 <=? argc argv); [|lia].
  rewrite land_ffff. pose proof (u16_range (strtoul (arg argv 4) 16)). lia.
Qed.

(** [loadbin]/[tmslbin] with at least three arguments, when the file opens,
    the seek succeeds and every read succeeds. *)
Lemma loadbin_loads iorq fw src fs argv w :
  3 <= argc argv ->
  iorq && String.eqb (arg argv 0) "flash" = false ->
  fr_is (f_open fs (arg argv 2)) FR_OK = true ->
  fr_is (b_lseek src (arg argv 2)
                 (if 4 <=? argc argv
                  then Z.land (strtoul (arg argv 3) 16) 0xffff else 0))
        FR_OK = true ->
  (forall j, fr_is (b_read src j) FR_OK = true) ->
  let tms := String.eqb (arg argv 0) "tmslbin" in
  let start := Z.land (strtoul (arg argv 1) 16) 0xffff in
  let offset := if 4 <=? argc argv
                then Z.land (strtoul (arg argv 3) 16) 0xffff else 0 in
  let len := if 5 <=? argc argv
             then Z.land (strtoul (arg argv 4) 16) 0xffff else 0x10000 in
  let loaded := firstn (Z.to_nat len)
                       (skipn (Z.to_nat offset) (b_bytes src (arg argv 2))) in
  exists w',
    cli_loadbin iorq fw src fs argv w = Some w'
    /\ (forall a, dump_mem tms w' a =
                  mem_write (dump_mem tms w) start loaded a)
    /\ dump_mem (negb tms) w' = dump_mem (negb tms) w
    /\ breaks w' = breaks w /\ watches w' = watches w
    /\ total_len (writes (trace w')) =
       total_len (writes (trace w)) + Z.of_nat (List.length loaded)
    /\ forallb (on_target (dump_target tms)) (writes (trace w')) =
       forallb (on_target (dump_target tms)) (writes (trace w)).
Proof.
  intros Hargc Hflash Hopen Hseek Hread tms start offset len loaded.
  pose proof (loadbin_len_range argv) as Hlen. fold len in Hlen.
  destruct (loadbin_loop_loads iorq fw src
              (String.eqb (arg argv 0) "flash") tms Hread Hflash
              256%nat 258%nat 0%nat
              (skipn (Z.to_nat offset) (b_bytes src (arg argv 2)))
              start len w)
    as (fr & w1 & Hrun & Hfr & Hm & Ho & Hb & Hw & Ht & Hf); [lia|lia|lia|].
  unfold cli_loadbin. cbv zeta.
  destruct (Z.ltb_spec (argc argv) 3) as [?|_]; [lia|].
  rewrite Hopen, Hseek. cbn [negb].
  fold offset. fold len. fold start. fold tms. rewrite Hrun, Hfr. cbn [negb].
  eexists. split; [reflexivity|].
  destruct (negb (fr_is (f_close fs (arg argv 2)) FR_OK));
    [ unfold printf_P, emit; destruct tms;
      cbn [dump_mem negb bus vram breaks watches trace] in *;
      rewrite writes_app; cbn [writes]; rewrite app_nil_r | ];
    repeat split; assumption.
Qed.

(** X22: [loadbin]/[tmslbin] [<start> <file> [offset] [length]], when the
    file opens and the seek and every read succeed: the command returns;
    the target memory (video memory for [tmslbin], bus memory otherwise) is
    the old one with the bytes of the file from [offset] on, at most
    [length] of them (at most 0x10000 when no length is given), stored at
    [start], [start+1], ... modulo 2^16, and these bytes read back from
    [start]; the other memory and the debug ranges are unchanged; the
    lengths of the writes add up to the number of bytes loaded. *)
Theorem loadbin_stores_file_bytes :
  forall iorq fw src fs argv w,
    3 <= argc argv ->
    iorq && String.eqb (arg argv 0) "flash" = false ->
    fr_is (f_open fs (arg argv 2)) FR_OK = true ->
    fr_is (b_lseek src (arg argv 2)
                   (if 4 <=? argc argv
                    then Z.land (strtoul (arg argv 3) 16) 0xffff else 0))
          FR_OK = true ->
    (forall j, fr_is (b_read src j) FR_OK = true) ->
    let tms := String.eqb (arg argv 0) "tmslbin" in
    let start := Z.land (strtoul (arg argv 1) 16) 0xffff in
    let offset := if 4 <=? argc argv
                  then Z.land (strtoul (arg argv 3) 16) 0xffff else 0 in
    let len := if 5 <=? argc argv
               then Z.land (strtoul (arg argv 4) 16) 0xffff else 0x10000 in
    let loaded := firstn (Z.to_nat len)
                         (skipn (Z.to_nat offset)
                                (b_bytes src (arg argv 2))) in
    exists w',
      cli_loadbin iorq fw src fs argv w = Some w'
      /\ (forall a, dump_mem tms w' a =
                    mem_write (dump_mem tms w) start loaded a)
      /\ mem_read (dump_mem tms w') start (Z.of_nat (List.length loaded))
         = loaded
      /\ dump_mem (negb tms) w' = dump_mem (negb tms) w
      /\ breaks w' = breaks w /\ watches w' = watches w
      /\ total_len (writes (trace w')) =
         total_len (writes (trace w)) + Z.of_nat (List.length loaded).
Proof.
  intros iorq fw src fs argv w Hargc Hflash Hopen Hseek Hread
         tms start offset len loaded.
  destruct (loadbin_loads iorq fw src fs argv w Hargc Hflash Hopen Hseek Hread)
    as (w' & Hrun & Hm & Ho & Hb & Hw & Ht & _).
  fold tms start offset len loaded in Hm, Ho, Ht.
  exists w'. split; [exact Hrun|]. split; [exact Hm|].
  split; [|repeat split; assumption].
  rewrite (mem_read_ext _ _ start _ Hm). apply mem_read_write.
  pose proof (loadbin_len_range argv) as Hlen. fold len in Hlen.
  subst loaded. rewrite length_firstn. lia.
Qed.

Lemma loadbin_stores_file_bytes_witness :
  exists w',
    cli_loadbin false (fun _ _ _ w => w) (src_of [1; 2; 3; 4; 5]) fs_ok
                ["loadbin"; "1000"; "f"; "1"; "3"] world0 = Some w'
    /\ (forall a, dump_mem false w' a =
                  mem_write (dump_mem false world0) 0x1000 [2; 3; 4] a)
    /\ mem_read (dump_mem false w') 0x1000 3 = [2; 3; 4]
    /\ dump_mem true w' = dump_mem true world0
    /\ breaks w' = breaks world0 /\ watches w' = watches world0
    /\ total_len (writes (trace w')) =
       total_len (writes (trace world0)) + 3.
Proof.
  apply (loadbin_stores_file_bytes false (fun _ _ _ w => w)
           (src_of [1; 2; 3; 4; 5]) fs_ok
           ["loadbin"; "1000"; "f"; "1"; "3"] world0);
    [ vm_compute; discriminate | reflexivity | reflexivity | reflexivity
    | intros j; reflexivity ].
Defined.

(** X23: a range saved with [savebin <start> <end> <file>]
    (start <= end < 0xffff) and loaded again with [loadbin <start> <file>]
    comes back byte for byte: after the load, bus memory from [start] to
    [end] holds what it held when it was saved, whatever it held in
    between. *)
Theorem loadbin_restores_savebin :
  forall iorq fw src argv_s argv_l w0 w1 w start end_,
    4 <= argc argv_s ->
    start = Z.land (strtoul (arg argv_s 1) 16) 0xffff ->
    end_ = Z.land (strtoul (arg argv_s 2) 16) 0xffff ->
    start <= end_ < 0xffff ->
    file_bytes (trace w0) = [] ->
    cli_savebin 258 fs_ok argv_s w0 = Some w1 ->
    argc argv_l = 3 ->
    arg argv_l 0 = "loadbin" ->
    Z.land (strtoul (arg argv_l 1) 16) 0xffff = start ->
    b_bytes src (arg argv_l 2) = file_bytes (trace w1) ->
    fr_is (b_lseek src (arg argv_l 2) 0) FR_OK = true ->
    (forall j, fr_is (b_read src j) FR_OK = true) ->
    exists w',
      cli_loadbin iorq fw src fs_ok argv_l w = Some w'
      /\ mem_read (bus w') start (end_ - start + 1)
         = mem_read (bus w0) start (end_ - start + 1)
      /\ vram w' = vram w.
Proof.
  intros iorq fw src argv_s argv_l w0 w1 w start end_
         Hargc Hs He Hrange Hfile Hsave Hargc' Hcmd Hstart Hbytes Hseek Hread.
  destruct (savebin_saves_range_below_top argv_s w0 start end_
              Hargc Hs He Hrange) as (w1' & Hsave' & _ & _ & Hfb & Hlen).
  rewrite Hsave in Hsave'. injection Hsave' as <-.
  rewrite Hfile in Hfb. cbn [app] in Hfb.
  assert (Hflash : iorq && String.eqb (arg argv_l 0) "flash" = false)
    by (rewrite Hcmd; apply andb_false_r).
  assert (Hseek' : fr_is (b_lseek src (arg argv_l 2)
                            (if 4 <=? argc argv_l
                             then Z.land (strtoul (arg argv_l 3) 16) 0xffff
                             else 0)) FR_OK = true)
    by (rewrite Hargc'; exact Hseek).
  destruct (loadbin_loads iorq fw src fs_ok argv_l w
              ltac:(lia) Hflash eq_refl Hseek' Hread)
    as (w' & Hrun & Hm & Ho & _).
  rewrite Hcmd, Hargc', Hstart, Hbytes, Hfb in Hm.
  rewrite Hcmd in Ho.
  change (String.eqb "loadbin" "tmslbin") with false in Hm, Ho.
  change (5 <=? 3) with false in Hm. change (4 <=? 3) with false in Hm.
  cbn [dump_mem negb] in Hm, Ho.
  change (Z.to_nat 0) with 0%nat in Hm. cbn [skipn] in Hm.
  assert (Hall : firstn (Z.to_nat 0x10000)
                        (mem_read (bus w0) start (end_ - start + 1))
                 = mem_read (bus w0) start (end_ - start + 1)).
  { assert (H0 : 0 <= start)
      by (rewrite Hs, land_ffff; apply u16_range).
    apply firstn_all2.
    apply Nat2Z.inj_le. rewrite Hlen.
    change (Z.of_nat (Z.to_nat 0x10000)) with 65536. lia. }
  rewrite Hall in Hm.
  exists w'. split; [exact Hrun|]. split; [|exact Ho].
  rewrite (mem_read_ext _ _ start _ Hm).
  assert (H0 : 0 <= start)
    by (rewrite Hs, land_ffff; apply u16_range).
  set (d := mem_read (bus w0) start (end_ - start + 1)) in *.
  rewrite <- Hlen. apply mem_read_write. lia.
Qed.

Lemma loadbin_restores_savebin_witness :
  exists w',
    cli_loadbin false (fun _ _ _ w => w)
      (src_of (mem_read (mem_one_at 0x1001) 0x1000 0x10)) fs_ok
      ["loadbin"; "1000"; "f"] world0 = Some w'
    /\ mem_read (bus w') 0x1000 (0x100f - 0x1000 + 1)
       = mem_read (mem_one_at 0x1001) 0x1000 (0x100f - 0x1000 + 1)
    /\ vram w' = vram world0.
Proof.
  apply (loadbin_restores_savebin false (fun _ _ _ w => w)
           (src_of (mem_read (mem_one_at 0x1001) 0x1000 0x10))
           ["savebin"; "1000"; "100f"; "f"] ["loadbin"; "1000"; "f"]
           (mkWorld (mem_one_at 0x1001) zero_mem [] [] [])
           (mkWorld (mem_one_at 0x1001) zero_mem [] []
              [MemRead Bus 0x1000 0x10;
               FWrite (mem_read (mem_one_at 0x1001) 0x1000 0x10) FR_OK])
           world0 0x1000 0x100f);
    [ vm_compute; discriminate | vm_compute; reflexivity
    | vm_compute; reflexivity
    | split; [vm_compute; discriminate | vm_compute; reflexivity]
    | reflexivity | vm_compute; reflexivity | reflexivity | reflexivity
    | vm_compute; reflexivity | vm_compute; reflexivity | reflexivity
    | intros j; reflexivity ].
Defined.


